(** * Taxxon: tax calculation and cross-validation engine

    A shallow embedding of the calculation core of the taxxon filing wizard:
    - [calculateSummary], [createEmptyFiling]
                                    (src/contexts/TaxFilingContext.tsx)
    - [valuesMatch], [findMatchingT4], [validateT4], [validateT5],
      [validateRRSP], [validateDonation], [crossCheckDocument],
      [validateAllDocuments]        (the cross-validation module, in
                                     src/lib/pdf/generate-tax-summary.ts)
    - [transformFilingToNetfile]    (the NETFILE service, same file)
    - the record types              (types/tax-filing, types/ai,
                                     src/lib/netfile/types.ts)

    Number model.  An amount is an exact rational ([Q]) and the sums and
    products of the calculation engine are carried out on rationals.  Where
    a decision of the code hangs on the rounding of a result (the tolerance
    tests of [valuesMatch], the threshold tests of [checkRRSPOpportunity]
    and [checkHighDeductionRatio]), the operations are the IEEE-754
    binary64 operations, see [Binary64]: an amount enters as the number
    nearest to it, as it does when a decimal literal or a typed amount is
    read.  The form handlers and the cross-check coerce NaN to 0 before
    they use a number ([parseFloat(x) || 0], [Number(x) || 0]); the latter
    coercion is modelled, see [Number_or_0].  Equality of amounts is [Qeq]
    ([==]), the equality of fractions. *)

From Stdlib Require Import QArith Qabs Qminmax Qreduction Lqa ZArith String Ascii List DecimalString.
From Stdlib Require Import Floats.SpecFloat.
From stdpp Require Import gmap strings.
Import ListNotations.

Local Open Scope string_scope.
Local Open Scope Q_scope.

(** ** JavaScript numbers *)

Definition Qltb (a b : Q) : bool := negb (Qle_bool b a).

Notation "a <=? b" := (Qle_bool a b) (at level 70, no associativity) : Q_scope.
Notation "a <? b" := (Qltb a b) (at level 70, no associativity) : Q_scope.
Notation "a =? b" := (Qeq_bool a b) (at level 70, no associativity) : Q_scope.

(** [Math.max] and [Math.abs] on finite numbers. *)
Definition Math_max (a b : Q) : Q := Qmax a b.
Definition Math_abs (a : Q) : Q := Qabs a.

(** [xs.reduce((sum, x) => sum + f(x), 0)]. *)
Definition reduce {A : Type} (f : Q -> A -> Q) (init : Q) (xs : list A) : Q :=
  fold_left f xs init.

(** ** Filing data model (types/tax-filing) *)

Module T4Slip.
Record t := mk {
  id : string;
  employerName : string;
  employerAddress : string;
  employmentIncome : Q;
  incomeTaxDeducted : Q;
  cppContributions : Q;
  eiPremiums : Q;
  rppContributions : Q;
  unionDues : Q;
  charitableDonations : Q }.
End T4Slip.

Module T4ASlip.
Record t := mk {
  id : string;
  payerName : string;
  pensionIncome : Q;
  lumpSumPayments : Q;
  selfEmployedCommissions : Q;
  incomeTaxDeducted : Q;
  otherIncome : Q }.
End T4ASlip.

Module T4ESlip.
Record t := mk {
  id : string;
  eiBenefits : Q;
  incomeTaxDeducted : Q;
  amountRepaid : Q }.
End T4ESlip.

Module T5Slip.
Record t := mk {
  id : string;
  payerName : string;
  actualDividends : Q;
  interestFromCanadianSources : Q;
  capitalGainsDividends : Q;
  foreignIncome : Q;
  foreignTaxPaid : Q }.
End T5Slip.

Module T3Slip.
Record t := mk {
  id : string;
  trustName : string;
  capitalGains : Q;
  eligibleDividends : Q;
  otherDividends : Q;
  foreignBusinessIncome : Q;
  foreignNonBusinessIncome : Q;
  otherIncome : Q }.
End T3Slip.

Module T2202Slip.
Record t := mk {
  id : string;
  institutionName : string;
  eligibleTuitionFees : Q;
  monthsPartTime : Q;
  monthsFullTime : Q }.
End T2202Slip.

Module T4RSPSlip.
Record t := mk {
  id : string;
  payerName : string;
  rrspIncome : Q;
  incomeTaxDeducted : Q }.
End T4RSPSlip.

Module T5008Slip.
Record t := mk {
  id : string;
  securityDescription : string;
  proceeds : Q;
  costBase : Q;
  gain : Q }.
End T5008Slip.

Inductive ContributorType := self_contributor | spousal.
Inductive DonationType := cash | property | ecogift.
Inductive ForWhom := for_self | for_spouse | for_dependent.
Inductive HomeOfficeMethod := flat_rate | detailed | method_unset.

Module RRSPContribution.
Record t := mk {
  id : string;
  institutionName : string;
  contributionAmount : Q;
  contributorType : ContributorType }.
End RRSPContribution.

Module CharitableDonation.
Record t := mk {
  id : string;
  charityName : string;
  registrationNumber : string;
  donationAmount : Q;
  donationType : DonationType }.
End CharitableDonation.

Module MedicalExpense.
Record t := mk {
  id : string;
  description : string;
  amount : Q;
  forWhom : ForWhom }.
End MedicalExpense.

Module Deductions.
Record t := mk {
  rrspContributions : list RRSPContribution.t;
  charitableDonations : list CharitableDonation.t;
  medicalExpenses : list MedicalExpense.t;
  childcareExpenses : Q;
  homeOfficeDays : Q;
  homeOfficeMethod : HomeOfficeMethod;
  movingExpenses : Q;
  studentLoanInterest : Q;
  professionalDues : Q }.
End Deductions.

Module IncomeData.
Record t := mk {
  t4Slips : list T4Slip.t;
  t4aSlips : list T4ASlip.t;
  t4eSlips : list T4ESlip.t;
  t5Slips : list T5Slip.t;
  t3Slips : list T3Slip.t;
  t2202Slips : list T2202Slip.t;
  t4rspSlips : list T4RSPSlip.t;
  t5008Slips : list T5008Slip.t;
  selfEmploymentIncome : Q;
  otherIncome : Q }.
End IncomeData.

Inductive DocumentType :=
  | t4 | t4a | t4e | t5 | t3 | t2202 | t4rsp | t5008
  | rrsp_receipt | donation_receipt | medical_receipt | other.

Module Address.
Record t := mk {
  street : string;
  city : string;
  province : string;
  postalCode : string }.
End Address.

Module PersonalInfo.
Record t := mk {
  firstName : string;
  lastName : string;
  sin : string;
  dateOfBirth : string;
  email : string;
  phone : string;
  province : string;
  maritalStatus : string;
  address : Address.t }.
End PersonalInfo.

Module TaxSummary.
Record t := mk {
  totalIncome : Q;
  totalDeductions : Q;
  taxableIncome : Q;
  federalTax : Q;
  provincialTax : Q;
  totalTax : Q;
  totalCredits : Q;
  totalPaid : Q;
  refundOrOwing : Q }.
End TaxSummary.

Inductive FilingStatus := not_started | in_progress | submitted | accepted.

(** The uploaded-document list of a filing carries browser blobs and is read
    by none of the functions below; it is left out of the record. *)
Module TaxFiling.
Record t := mk {
  id : string;
  year : Q;
  status : FilingStatus;
  personalInfo : PersonalInfo.t;
  income : IncomeData.t;
  deductions : Deductions.t;
  summary : option TaxSummary.t;
  confirmationNumber : option string;
  submittedAt : option string;
  createdAt : string;
  updatedAt : string }.
End TaxFiling.

(** ** The calculation engine: [calculateSummary]

    Each local constant of the source function is a definition of the same
    name; [calculateSummary] chains them in source order. *)

Definition t4Income (income : IncomeData.t) : Q :=
  reduce (fun sum slip => sum + T4Slip.employmentIncome slip) 0 (IncomeData.t4Slips income).

Definition t4aIncome (income : IncomeData.t) : Q :=
  reduce (fun sum slip =>
            sum + T4ASlip.pensionIncome slip + T4ASlip.lumpSumPayments slip
            + T4ASlip.selfEmployedCommissions slip + T4ASlip.otherIncome slip)
         0 (IncomeData.t4aSlips income).

Definition t4eIncome (income : IncomeData.t) : Q :=
  reduce (fun sum slip => sum + T4ESlip.eiBenefits slip) 0 (IncomeData.t4eSlips income).

Definition t5Income (income : IncomeData.t) : Q :=
  reduce (fun sum slip =>
            sum + T5Slip.actualDividends slip + T5Slip.interestFromCanadianSources slip
            + T5Slip.capitalGainsDividends slip)
         0 (IncomeData.t5Slips income).

Definition t3Income (income : IncomeData.t) : Q :=
  reduce (fun sum slip =>
            sum + T3Slip.capitalGains slip * 0.5 + T3Slip.eligibleDividends slip
            + T3Slip.otherDividends slip + T3Slip.otherIncome slip)
         0 (IncomeData.t3Slips income).

Definition t4rspIncome (income : IncomeData.t) : Q :=
  reduce (fun sum slip => sum + T4RSPSlip.rrspIncome slip) 0 (IncomeData.t4rspSlips income).

Definition t5008Gains (income : IncomeData.t) : Q :=
  reduce (fun sum slip =>
            sum + Math_max 0 (T5008Slip.proceeds slip - T5008Slip.costBase slip) * 0.5)
         0 (IncomeData.t5008Slips income).

Definition totalIncome (income : IncomeData.t) : Q :=
  t4Income income + t4aIncome income + t4eIncome income + t5Income income
  + t3Income income + t4rspIncome income + t5008Gains income
  + IncomeData.selfEmploymentIncome income + IncomeData.otherIncome income.

Definition rrspDeductions (deductions : Deductions.t) : Q :=
  reduce (fun sum c => sum + RRSPContribution.contributionAmount c) 0
         (Deductions.rrspContributions deductions).

Definition homeOfficeDeduction (deductions : Deductions.t) : Q :=
  match Deductions.homeOfficeMethod deductions with
  | flat_rate => Deductions.homeOfficeDays deductions * 2
  | _ => 0
  end.

Definition totalDeductions (deductions : Deductions.t) : Q :=
  rrspDeductions deductions
  + Deductions.childcareExpenses deductions
  + homeOfficeDeduction deductions
  + Deductions.movingExpenses deductions
  + Deductions.professionalDues deductions.

Definition taxableIncome (income : IncomeData.t) (deductions : Deductions.t) : Q :=
  Math_max 0 (totalIncome income - totalDeductions deductions).

(** Federal brackets, as a function of the local [taxableIncome]. *)
Definition federalTax (taxableIncome : Q) : Q :=
  if 0 <? taxableIncome then
    if taxableIncome <=? 55867 then taxableIncome * 0.15
    else if taxableIncome <=? 111733 then 8380 + (taxableIncome - 55867) * 0.205
    else if taxableIncome <=? 173205 then 19833 + (taxableIncome - 111733) * 0.26
    else if taxableIncome <=? 246752 then 35816 + (taxableIncome - 173205) * 0.29
    else 57144 + (taxableIncome - 246752) * 0.33
  else 0.

(** Provincial brackets (the Ontario schedule, whatever the province). *)
Definition provincialTax (taxableIncome : Q) : Q :=
  if 0 <? taxableIncome then
    if taxableIncome <=? 51446 then taxableIncome * 0.0505
    else if taxableIncome <=? 102894 then 2598 + (taxableIncome - 51446) * 0.0915
    else if taxableIncome <=? 150000 then 7307 + (taxableIncome - 102894) * 0.1116
    else if taxableIncome <=? 220000 then 12563 + (taxableIncome - 150000) * 0.1216
    else 21075 + (taxableIncome - 220000) * 0.1316
  else 0.

Definition basicPersonalAmount : Q := 15705.
Definition basicPersonalCredit : Q := basicPersonalAmount * 0.15.

Definition donationCredits (charitableDonations : list CharitableDonation.t) : Q :=
  reduce (fun sum d =>
            let amount := CharitableDonation.donationAmount d in
            if amount <=? 200 then sum + amount * 0.15
            else sum + 30 + (amount - 200) * 0.29)
         0 charitableDonations.

Definition medicalCredits (income : IncomeData.t) (deductions : Deductions.t) : Q :=
  Math_max 0
    ((reduce (fun sum e => sum + MedicalExpense.amount e) 0
             (Deductions.medicalExpenses deductions)
      - totalIncome income * 0.03) * 0.15).

Definition tuitionCredits (income : IncomeData.t) : Q :=
  reduce (fun sum slip => sum + T2202Slip.eligibleTuitionFees slip * 0.15) 0
         (IncomeData.t2202Slips income).

Definition studentLoanCredit (deductions : Deductions.t) : Q :=
  Deductions.studentLoanInterest deductions * 0.15.

Definition totalCredits (income : IncomeData.t) (deductions : Deductions.t) : Q :=
  basicPersonalCredit
  + donationCredits (Deductions.charitableDonations deductions)
  + medicalCredits income deductions
  + tuitionCredits income
  + studentLoanCredit deductions.

Definition t4TaxPaid (income : IncomeData.t) : Q :=
  reduce (fun sum slip => sum + T4Slip.incomeTaxDeducted slip) 0 (IncomeData.t4Slips income).
Definition t4aTaxPaid (income : IncomeData.t) : Q :=
  reduce (fun sum slip => sum + T4ASlip.incomeTaxDeducted slip) 0 (IncomeData.t4aSlips income).
Definition t4eTaxPaid (income : IncomeData.t) : Q :=
  reduce (fun sum slip => sum + T4ESlip.incomeTaxDeducted slip) 0 (IncomeData.t4eSlips income).
Definition t4rspTaxPaid (income : IncomeData.t) : Q :=
  reduce (fun sum slip => sum + T4RSPSlip.incomeTaxDeducted slip) 0 (IncomeData.t4rspSlips income).

Definition totalPaid (income : IncomeData.t) : Q :=
  t4TaxPaid income + t4aTaxPaid income + t4eTaxPaid income + t4rspTaxPaid income.

(** [state.currentFiling] is nullable; without a filing the summary is all
    zeros. *)
Definition calculateSummary (currentFiling : option TaxFiling.t) : TaxSummary.t :=
  match currentFiling with
  | None => TaxSummary.mk 0 0 0 0 0 0 0 0 0
  | Some filing =>
      let income := TaxFiling.income filing in
      let deductions := TaxFiling.deductions filing in
      let totalIncome := totalIncome income in
      let totalDeductions := totalDeductions deductions in
      let taxableIncome := taxableIncome income deductions in
      let federalTax := federalTax taxableIncome in
      let provincialTax := provincialTax taxableIncome in
      let totalCredits := totalCredits income deductions in
      let totalTax := Math_max 0 (federalTax + provincialTax - totalCredits) in
      let totalPaid := totalPaid income in
      let refundOrOwing := totalPaid - totalTax in
      {| TaxSummary.totalIncome := totalIncome;
         TaxSummary.totalDeductions := totalDeductions;
         TaxSummary.taxableIncome := taxableIncome;
         TaxSummary.federalTax := federalTax;
         TaxSummary.provincialTax := provincialTax;
         TaxSummary.totalTax := totalTax;
         TaxSummary.totalCredits := totalCredits;
         TaxSummary.totalPaid := totalPaid;
         TaxSummary.refundOrOwing := refundOrOwing |}
  end.

(** ** Suggestions and extracted documents (types/ai, lib/validation/cross-check) *)

Inductive SuggestionType :=
  | missing_deduction | validation_error | optimization | warning | info.

Inductive Priority := high | medium | low.

Module TaxSuggestion.
Record t := mk {
  id : string;
  type : SuggestionType;
  priority : Priority;
  title : string;
  description : string;
  affectedFields : list string;
  actionLabel : option string;
  actionRoute : option string;
  estimatedImpact : option Q }.
End TaxSuggestion.

(** A value of [Record<string, string | number>]. *)
Inductive FieldValue :=
  | VStr (s : string)
  | VNum (n : Q).

Module ExtractedDocumentData.
Record t := mk {
  documentType : DocumentType;
  fields : gmap string FieldValue;
  documentName : option string }.
End ExtractedDocumentData.

Module ValidationResult.
Record t := mk {
  isValid : bool;
  discrepancies : list TaxSuggestion.t;
  matches : list string }.
End ValidationResult.

(** The host functions the cross-check calls but does not define: string
    case folding, [Number(s)] on a string ([None] stands for NaN),
    [String(n)] and [n.toLocaleString()] on a number, and the identifier
    source behind [uuidv4()].  Everything proved below holds for every
    host. *)
Class Host := {
  toLowerCase : string -> string;
  parseNumber : string -> option Q;
  numberToString : Q -> string;
  toLocaleString : Q -> string;
  uuid : nat -> string }.

(** [uuidv4()] draws a fresh identifier: the position in the identifier
    source is threaded through every function that creates suggestions. *)
Definition Gen (A : Type) : Type := nat -> A * nat.

Definition ret {A : Type} (a : A) : Gen A := fun n => (a, n).

Definition bind {A B : Type} (m : Gen A) (k : A -> Gen B) : Gen B :=
  fun n => let (a, n') := m n in k a n'.

Notation "x <- m ;; k" := (bind m (fun x => k))
  (at level 100, m at next level, right associativity).

(** ** Binary64 numbers

    The IEEE-754 binary64 operations, from the standard library's
    [SpecFloat] (precision 53, infinities at exponent 1024, rounding to
    nearest, ties to even). *)
Module Binary64.
Definition prec : Z := 53.
Definition emax : Z := 1024.
Definition number : Type := spec_float.

(** The number nearest to a rational: the correctly rounded quotient of
    its numerator and denominator.  This is the number a decimal literal
    or a parsed decimal string denotes. *)
Definition ofQ (q : Q) : number :=
  let r := Qred q in
  let quotient (negative : bool) (n : positive) :=
    let '(m, e, l) := SFdiv_core_binary prec emax (Zpos n) 0 (Zpos (Qden r)) 0 in
    binary_round_aux prec emax negative m e l in
  match Qnum r with
  | Z0 => S754_zero false
  | Zpos n => quotient false n
  | Zneg n => quotient true n
  end.

(** The value of a finite number.  The infinities and NaN have none; they
    read as 0 here. *)
Definition toQ (x : number) : Q :=
  match x with
  | S754_finite negative m e => inject_Z (if negative then Zneg m else Zpos m) * 2 ^ e
  | _ => 0
  end.

Definition add : number -> number -> number := SFadd prec emax.
Definition sub : number -> number -> number := SFsub prec emax.
Definition mul : number -> number -> number := SFmul prec emax.
Definition div : number -> number -> number := SFdiv prec emax.

(** [x === y], [x < y], [x <= y] and [x > y]: false as soon as one side is
    NaN; the two zeros are equal. *)
Definition strictEq (x y : number) : bool := SFeqb x y.
Definition lt (x y : number) : bool := SFltb x y.
Definition le (x y : number) : bool := SFleb x y.
Definition gt (x y : number) : bool := SFltb y x.

Definition Math_abs (x : number) : number := SFabs x.

(** [Math.max] and [Math.min]: NaN if either argument is; +0 is larger
    than -0. *)
Definition Math_max (x y : number) : number :=
  match x, y with
  | S754_nan, _ | _, S754_nan => S754_nan
  | S754_zero sx, S754_zero sy => S754_zero (sx && sy)
  | _, _ => if SFltb x y then y else x
  end.

Definition Math_min (x y : number) : number :=
  match x, y with
  | S754_nan, _ | _, S754_nan => S754_nan
  | S754_zero sx, S754_zero sy => S754_zero (sx || sy)
  | _, _ => if SFltb y x then y else x
  end.
End Binary64.

Declare Scope binary64_scope.
Delimit Scope binary64_scope with binary64.
Infix "+" := Binary64.add : binary64_scope.
Infix "-" := Binary64.sub : binary64_scope.
Infix "*" := Binary64.mul : binary64_scope.
Infix "/" := Binary64.div : binary64_scope.
Infix "===" := Binary64.strictEq (at level 70, no associativity) : binary64_scope.
Infix "<" := Binary64.lt : binary64_scope.
Infix "<=" := Binary64.le : binary64_scope.
Infix ">" := Binary64.gt : binary64_scope.

Definition NUMERIC_TOLERANCE : Q := 0.01.
Definition PERCENTAGE_TOLERANCE : Q := 0.02.

(** [valuesMatch] on the numbers nearest to the two amounts. *)
Definition valuesMatch (extracted entered : Q) : bool :=
  let extracted := Binary64.ofQ extracted in
  let entered := Binary64.ofQ entered in
  (if extracted === entered then true
   else
     let diff := Binary64.Math_abs (extracted - entered) in
     if Binary64.Math_max extracted entered < Binary64.ofQ 100
     then diff <= Binary64.ofQ NUMERIC_TOLERANCE
     else diff / Binary64.Math_max extracted entered <= Binary64.ofQ PERCENTAGE_TOLERANCE
  )%binary64.

(** Truthiness of a string, and [s.includes(sub)]. *)
Definition truthy (s : string) : bool :=
  match s with EmptyString => false | String _ _ => true end.



Fixpoint includes (s sub : string) : bool :=
  if String.prefix sub s then true
  else match s with
       | EmptyString => false
       | String _ s' => includes s' sub
       end.

Definition nl_bullet : string := String "010"%char "• ".

Section CrossCheck.
Context `{Host}.

Definition uuidv4 : Gen string := fun n => (uuid n, S n).

(** [Number(v) || 0] on a possibly missing field. *)
Definition Number_or_0 (v : option FieldValue) : Q :=
  match v with
  | None => 0
  | Some (VNum n) => n
  | Some (VStr s) => match parseNumber s with Some n => n | None => 0 end
  end.

(** [String(v || '')] on a possibly missing field. *)
Definition String_or_empty (v : option FieldValue) : string :=
  match v with
  | None => EmptyString
  | Some (VStr s) => s
  | Some (VNum n) => if n =? 0 then EmptyString else numberToString n
  end.

(** The body of the scoring loop of [findMatchingT4] for one slip. *)
Definition t4Score (extractedData : gmap string FieldValue) (slip : T4Slip.t) : Z :=
  let score := 0%Z in
  let extractedEmployer := toLowerCase (String_or_empty (extractedData !! "employerName")) in
  let enteredEmployer := toLowerCase (T4Slip.employerName slip) in
  let score :=
    if truthy extractedEmployer && truthy enteredEmployer
       && (includes extractedEmployer enteredEmployer
           || includes enteredEmployer extractedEmployer)
    then (score + 3)%Z else score in
  let extractedIncome := Number_or_0 (extractedData !! "employmentIncome") in
  let score :=
    if (0 <? extractedIncome) && valuesMatch extractedIncome (T4Slip.employmentIncome slip)
    then (score + 2)%Z else score in
  let extractedTax := Number_or_0 (extractedData !! "incomeTaxDeducted") in
  let score :=
    if (0 <? extractedTax) && valuesMatch extractedTax (T4Slip.incomeTaxDeducted slip)
    then (score + 2)%Z else score in
  score.

Definition findMatchingT4 (extractedData : gmap string FieldValue)
           (t4Slips : list T4Slip.t) : option T4Slip.t * Z :=
  fold_left
    (fun '(bestMatch, bestScore) slip =>
       let score := t4Score extractedData slip in
       if (bestScore <? score)%Z then (Some slip, score) else (bestMatch, bestScore))
    t4Slips (None, 0%Z).

Definition documentLabel (documentName : option string) : string :=
  match documentName with
  | Some name => if truthy name then " (" ++ name ++ ")" else EmptyString
  | None => EmptyString
  end.

Definition push_if {A : Type} (c : bool) (x : A) (l : list A) : list A :=
  if c then l ++ [x] else l.

Definition validateT4 (extractedData : gmap string FieldValue) (filing : TaxFiling.t)
           (documentName : option string) : Gen (list TaxSuggestion.t) :=
  let t4Slips := IncomeData.t4Slips (TaxFiling.income filing) in
  let '(matchedSlip, matchScore) := findMatchingT4 extractedData t4Slips in
  let extractedIncome := Number_or_0 (extractedData !! "employmentIncome") in
  let extractedTax := Number_or_0 (extractedData !! "incomeTaxDeducted") in
  let extractedCPP := Number_or_0 (extractedData !! "cppContributions") in
  let extractedEI := Number_or_0 (extractedData !! "eiPremiums") in
  let unmatched : Gen (list TaxSuggestion.t) :=
    if (0 <? extractedIncome) && (0 <? length t4Slips)%nat then
      match find (fun slip => valuesMatch extractedIncome (T4Slip.employmentIncome slip))
                 t4Slips with
      | Some similarIncomeSlip =>
          id <- uuidv4 ;;
          ret [ {| TaxSuggestion.id := id;
                   TaxSuggestion.type := warning;
                   TaxSuggestion.priority := medium;
                   TaxSuggestion.title := "Possible Duplicate T4";
                   TaxSuggestion.description :=
                     "This T4 shows $" ++ toLocaleString extractedIncome
                     ++ " in employment income, which matches an existing T4 from "
                     ++ T4Slip.employerName similarIncomeSlip
                     ++ ". Please verify this isn't a duplicate entry.";
                   TaxSuggestion.affectedFields := ["income.t4Slips"];
                   TaxSuggestion.actionLabel := Some "Review T4s";
                   TaxSuggestion.actionRoute := Some "/file/income";
                   TaxSuggestion.estimatedImpact := None |} ]
      | None =>
          id <- uuidv4 ;;
          ret [ {| TaxSuggestion.id := id;
                   TaxSuggestion.type := info;
                   TaxSuggestion.priority := low;
                   TaxSuggestion.title := "New T4 Detected";
                   TaxSuggestion.description :=
                     "This document contains a T4 with $" ++ toLocaleString extractedIncome
                     ++ " in employment income that doesn't match any existing entries. Consider adding it to your return.";
                   TaxSuggestion.affectedFields := ["income.t4Slips"];
                   TaxSuggestion.actionLabel := Some "Add T4";
                   TaxSuggestion.actionRoute := Some "/file/income";
                   TaxSuggestion.estimatedImpact := None |} ]
      end
    else ret [] in
  match (if (3 <=? matchScore)%Z then matchedSlip else None) with
  | Some matchedSlip =>
      let discrepancies : list string := [] in
      let discrepancies :=
        push_if ((0 <? extractedIncome)
                 && negb (valuesMatch extractedIncome (T4Slip.employmentIncome matchedSlip)))
          (let diff := extractedIncome - T4Slip.employmentIncome matchedSlip in
           "Employment income: Document shows $" ++ toLocaleString extractedIncome
           ++ ", you entered $" ++ toLocaleString (T4Slip.employmentIncome matchedSlip)
           ++ " (difference: $" ++ toLocaleString (Math_abs diff) ++ ")")
          discrepancies in
      let discrepancies :=
        push_if ((0 <? extractedTax)
                 && negb (valuesMatch extractedTax (T4Slip.incomeTaxDeducted matchedSlip)))
          (let diff := extractedTax - T4Slip.incomeTaxDeducted matchedSlip in
           "Tax deducted: Document shows $" ++ toLocaleString extractedTax
           ++ ", you entered $" ++ toLocaleString (T4Slip.incomeTaxDeducted matchedSlip)
           ++ " (difference: $" ++ toLocaleString (Math_abs diff) ++ ")")
          discrepancies in
      let discrepancies :=
        push_if ((0 <? extractedCPP)
                 && negb (valuesMatch extractedCPP (T4Slip.cppContributions matchedSlip)))
          ("CPP contributions: Document shows $" ++ toLocaleString extractedCPP
           ++ ", you entered $" ++ toLocaleString (T4Slip.cppContributions matchedSlip))
          discrepancies in
      let discrepancies :=
        push_if ((0 <? extractedEI)
                 && negb (valuesMatch extractedEI (T4Slip.eiPremiums matchedSlip)))
          ("EI premiums: Document shows $" ++ toLocaleString extractedEI
           ++ ", you entered $" ++ toLocaleString (T4Slip.eiPremiums matchedSlip))
          discrepancies in
      if (0 <? length discrepancies)%nat then
        id <- uuidv4 ;;
        ret [ {| TaxSuggestion.id := id;
                 TaxSuggestion.type := validation_error;
                 TaxSuggestion.priority := high;
                 TaxSuggestion.title := "T4 Data Mismatch Detected";
                 TaxSuggestion.description :=
                   "The uploaded document" ++ documentLabel documentName
                   ++ " doesn't match your entered T4 for "
                   ++ T4Slip.employerName matchedSlip ++ ":" ++ nl_bullet
                   ++ String.concat nl_bullet discrepancies;
                 TaxSuggestion.affectedFields := ["income.t4Slips"];
                 TaxSuggestion.actionLabel := Some "Review Income";
                 TaxSuggestion.actionRoute := Some "/file/income";
                 TaxSuggestion.estimatedImpact := None |} ]
      else ret []
  | None => unmatched
  end.

Definition validateT5 (extractedData : gmap string FieldValue) (filing : TaxFiling.t)
           (documentName : option string) : Gen (list TaxSuggestion.t) :=
  let extractedDividends := Number_or_0 (extractedData !! "actualDividends") in
  let extractedInterest := Number_or_0 (extractedData !! "interestFromCanadianSources") in
  let totalExtracted := extractedDividends + extractedInterest in
  if totalExtracted =? 0 then ret []
  else
    match find (fun slip =>
                  let slipTotal :=
                    T5Slip.actualDividends slip + T5Slip.interestFromCanadianSources slip in
                  valuesMatch totalExtracted slipTotal)
               (IncomeData.t5Slips (TaxFiling.income filing)) with
    | Some matchedSlip =>
        let discrepancies : list string := [] in
        let discrepancies :=
          push_if ((0 <? extractedDividends)
                   && negb (valuesMatch extractedDividends (T5Slip.actualDividends matchedSlip)))
            ("Dividends: Document shows $" ++ toLocaleString extractedDividends
             ++ ", you entered $" ++ toLocaleString (T5Slip.actualDividends matchedSlip))
            discrepancies in
        let discrepancies :=
          push_if ((0 <? extractedInterest)
                   && negb (valuesMatch extractedInterest
                              (T5Slip.interestFromCanadianSources matchedSlip)))
            ("Interest: Document shows $" ++ toLocaleString extractedInterest
             ++ ", you entered $"
             ++ toLocaleString (T5Slip.interestFromCanadianSources matchedSlip))
            discrepancies in
        if (0 <? length discrepancies)%nat then
          id <- uuidv4 ;;
          ret [ {| TaxSuggestion.id := id;
                   TaxSuggestion.type := validation_error;
                   TaxSuggestion.priority := high;
                   TaxSuggestion.title := "T5 Data Mismatch Detected";
                   TaxSuggestion.description :=
                     "The uploaded investment slip" ++ documentLabel documentName
                     ++ " doesn't match your entered data:" ++ nl_bullet
                     ++ String.concat nl_bullet discrepancies;
                   TaxSuggestion.affectedFields := ["income.t5Slips"];
                   TaxSuggestion.actionLabel := Some "Review T5";
                   TaxSuggestion.actionRoute := Some "/file/income";
                   TaxSuggestion.estimatedImpact := None |} ]
        else ret []
    | None => ret []
    end.

Definition validateRRSP (extractedData : gmap string FieldValue) (filing : TaxFiling.t)
           (documentName : option string) : Gen (list TaxSuggestion.t) :=
  let extractedAmount := Number_or_0 (extractedData !! "contributionAmount") in
  if extractedAmount =? 0 then ret []
  else
    let rrspContributions := Deductions.rrspContributions (TaxFiling.deductions filing) in
    let totalEntered :=
      reduce (fun sum c => sum + RRSPContribution.contributionAmount c) 0 rrspContributions in
    let matchedContribution :=
      find (fun c => valuesMatch extractedAmount (RRSPContribution.contributionAmount c))
           rrspContributions in
    if negb (bool_decide (is_Some matchedContribution)) && (0 <? totalEntered) then
      id <- uuidv4 ;;
      ret [ {| TaxSuggestion.id := id;
               TaxSuggestion.type := info;
               TaxSuggestion.priority := medium;
               TaxSuggestion.title := "Additional RRSP Contribution Found";
               TaxSuggestion.description :=
                 "This receipt shows a $" ++ toLocaleString extractedAmount
                 ++ " RRSP contribution that may not be included in your current total of $"
                 ++ toLocaleString totalEntered ++ ".";
               TaxSuggestion.affectedFields := ["deductions.rrspContributions"];
               TaxSuggestion.actionLabel := Some "Review RRSPs";
               TaxSuggestion.actionRoute := Some "/file/deductions";
               TaxSuggestion.estimatedImpact := Some (extractedAmount * 0.25) |} ]
    else if negb (bool_decide (is_Some matchedContribution)) && (totalEntered =? 0) then
      id <- uuidv4 ;;
      ret [ {| TaxSuggestion.id := id;
               TaxSuggestion.type := missing_deduction;
               TaxSuggestion.priority := high;
               TaxSuggestion.title := "RRSP Contribution Not Claimed";
               TaxSuggestion.description :=
                 "You uploaded an RRSP receipt for $" ++ toLocaleString extractedAmount
                 ++ " but haven't entered any RRSP contributions. Don't miss this deduction!";
               TaxSuggestion.affectedFields := ["deductions.rrspContributions"];
               TaxSuggestion.actionLabel := Some "Add RRSP";
               TaxSuggestion.actionRoute := Some "/file/deductions";
               TaxSuggestion.estimatedImpact := Some (extractedAmount * 0.25) |} ]
    else ret [].

Definition validateDonation (extractedData : gmap string FieldValue) (filing : TaxFiling.t)
           (documentName : option string) : Gen (list TaxSuggestion.t) :=
  let extractedAmount := Number_or_0 (extractedData !! "donationAmount") in
  if extractedAmount =? 0 then ret []
  else
    let charitableDonations :=
      Deductions.charitableDonations (TaxFiling.deductions filing) in
    let totalEntered :=
      reduce (fun sum d => sum + CharitableDonation.donationAmount d) 0 charitableDonations in
    let matchedDonation :=
      find (fun d => valuesMatch extractedAmount (CharitableDonation.donationAmount d))
           charitableDonations in
    if negb (bool_decide (is_Some matchedDonation)) && (totalEntered =? 0) then
      id <- uuidv4 ;;
      ret [ {| TaxSuggestion.id := id;
               TaxSuggestion.type := missing_deduction;
               TaxSuggestion.priority := high;
               TaxSuggestion.title := "Donation Not Claimed";
               TaxSuggestion.description :=
                 "You uploaded a donation receipt for $" ++ toLocaleString extractedAmount
                 ++ " but haven't claimed any charitable donations.";
               TaxSuggestion.affectedFields := ["deductions.charitableDonations"];
               TaxSuggestion.actionLabel := Some "Add Donation";
               TaxSuggestion.actionRoute := Some "/file/deductions";
               TaxSuggestion.estimatedImpact := None |} ]
    else ret [].

Definition is_validation_error (d : TaxSuggestion.t) : bool :=
  match TaxSuggestion.type d with validation_error => true | _ => false end.

Definition crossCheckDocument (extracted : ExtractedDocumentData.t) (filing : TaxFiling.t)
  : Gen ValidationResult.t :=
  let fields := ExtractedDocumentData.fields extracted in
  let documentName := ExtractedDocumentData.documentName extracted in
  discrepancies <-
    match ExtractedDocumentData.documentType extracted with
    | t4 => validateT4 fields filing documentName
    | t5 => validateT5 fields filing documentName
    | rrsp_receipt => validateRRSP fields filing documentName
    | donation_receipt => validateDonation fields filing documentName
    | _ => ret []
    end ;;
  ret {| ValidationResult.isValid :=
           (length (List.filter is_validation_error discrepancies) =? 0)%nat;
         ValidationResult.discrepancies := discrepancies;
         ValidationResult.matches := [] |}.

(** The [for] loop of [validateAllDocuments]: one [crossCheckDocument] per
    document, its discrepancies pushed onto [allSuggestions]. *)
Fixpoint collectSuggestions (extractedDocuments : list ExtractedDocumentData.t)
         (filing : TaxFiling.t) (allSuggestions : list TaxSuggestion.t)
  : Gen (list TaxSuggestion.t) :=
  match extractedDocuments with
  | [] => ret allSuggestions
  | doc :: rest =>
      result <- crossCheckDocument doc filing ;;
      collectSuggestions rest filing
        (allSuggestions ++ ValidationResult.discrepancies result)
  end.

(** The closing [filter], whose callback consults and extends the set
    [seen] of titles. *)
Fixpoint filterSeen (seen : gset string) (suggestions : list TaxSuggestion.t)
  : list TaxSuggestion.t :=
  match suggestions with
  | [] => []
  | s :: rest =>
      if bool_decide (TaxSuggestion.title s ∈ seen) then filterSeen seen rest
      else s :: filterSeen ({[ TaxSuggestion.title s ]} ∪ seen) rest
  end.

Definition validateAllDocuments (extractedDocuments : list ExtractedDocumentData.t)
           (filing : TaxFiling.t) : Gen (list TaxSuggestion.t) :=
  allSuggestions <- collectSuggestions extractedDocuments filing [] ;;
  ret (filterSeen ∅ allSuggestions).
End CrossCheck.

(** ** The submission transformer (lib/netfile) *)

Module Netfile.
Record PersonalInfo := mkPersonalInfo {
  sin : string;
  firstName : string;
  lastName : string;
  dateOfBirth : string;
  email : string;
  province : string;
  postalCode : string }.

Record Income := mkIncome {
  totalEmploymentIncome : Q;
  totalTaxWithheld : Q;
  totalCPPContributions : Q;
  totalEIPremiums : Q;
  investmentIncome : Q;
  selfEmploymentIncome : Q;
  otherIncome : Q }.

Record Deductions := mkDeductions {
  rrspContributions : Q;
  unionDues : Q;
  childcareExpenses : Q;
  movingExpenses : Q;
  otherDeductions : Q }.

Record Credits := mkCredits {
  basicPersonalAmount : Q;
  charitableDonations : Q;
  medicalExpenses : Q;
  tuitionFees : Q;
  studentLoanInterest : Q }.

Record Calculated := mkCalculated {
  totalIncome : Q;
  netIncome : Q;
  taxableIncome : Q;
  federalTax : Q;
  provincialTax : Q;
  totalTax : Q;
  totalCredits : Q;
  refundOrOwing : Q }.

Record SubmissionRequest := mkSubmissionRequest {
  filingId : string;
  taxYear : Q;
  personalInfo : PersonalInfo;
  income : Income;
  deductions : Deductions;
  credits : Credits;
  calculated : Calculated }.
End Netfile.

Definition transformFilingToNetfile (filing : TaxFiling.t) (summary : TaxSummary.t)
  : Netfile.SubmissionRequest :=
  let personalInfo := TaxFiling.personalInfo filing in
  let income := TaxFiling.income filing in
  let deductions := TaxFiling.deductions filing in
  let totalEmploymentIncome :=
    reduce (fun sum slip => sum + T4Slip.employmentIncome slip) 0 (IncomeData.t4Slips income) in
  let totalTaxWithheld :=
    reduce (fun sum slip => sum + T4Slip.incomeTaxDeducted slip) 0 (IncomeData.t4Slips income)
    + reduce (fun sum slip => sum + T4ASlip.incomeTaxDeducted slip) 0 (IncomeData.t4aSlips income)
    + reduce (fun sum slip => sum + T4ESlip.incomeTaxDeducted slip) 0 (IncomeData.t4eSlips income) in
  let totalCPPContributions :=
    reduce (fun sum slip => sum + T4Slip.cppContributions slip) 0 (IncomeData.t4Slips income) in
  let totalEIPremiums :=
    reduce (fun sum slip => sum + T4Slip.eiPremiums slip) 0 (IncomeData.t4Slips income) in
  let investmentIncome :=
    reduce (fun sum slip =>
              sum + T5Slip.actualDividends slip + T5Slip.interestFromCanadianSources slip)
           0 (IncomeData.t5Slips income)
    + reduce (fun sum slip =>
                sum + T3Slip.capitalGains slip * 0.5 + T3Slip.eligibleDividends slip)
             0 (IncomeData.t3Slips income) in
  let rrspContributions :=
    reduce (fun sum c => sum + RRSPContribution.contributionAmount c) 0
           (Deductions.rrspContributions deductions) in
  let unionDues :=
    reduce (fun sum slip => sum + T4Slip.unionDues slip) 0 (IncomeData.t4Slips income) in
  let charitableDonations :=
    reduce (fun sum d => sum + CharitableDonation.donationAmount d) 0
           (Deductions.charitableDonations deductions) in
  let medicalExpenses :=
    reduce (fun sum e => sum + MedicalExpense.amount e) 0
           (Deductions.medicalExpenses deductions) in
  let tuitionFees :=
    reduce (fun sum slip => sum + T2202Slip.eligibleTuitionFees slip) 0
           (IncomeData.t2202Slips income) in
  {| Netfile.filingId := TaxFiling.id filing;
     Netfile.taxYear := TaxFiling.year filing;
     Netfile.personalInfo :=
       {| Netfile.sin := PersonalInfo.sin personalInfo;
          Netfile.firstName := PersonalInfo.firstName personalInfo;
          Netfile.lastName := PersonalInfo.lastName personalInfo;
          Netfile.dateOfBirth := PersonalInfo.dateOfBirth personalInfo;
          Netfile.email := PersonalInfo.email personalInfo;
          Netfile.province := PersonalInfo.province personalInfo;
          Netfile.postalCode := Address.postalCode (PersonalInfo.address personalInfo) |};
     Netfile.income :=
       {| Netfile.totalEmploymentIncome := totalEmploymentIncome;
          Netfile.totalTaxWithheld := totalTaxWithheld;
          Netfile.totalCPPContributions := totalCPPContributions;
          Netfile.totalEIPremiums := totalEIPremiums;
          Netfile.investmentIncome := investmentIncome;
          Netfile.selfEmploymentIncome := IncomeData.selfEmploymentIncome income;
          Netfile.otherIncome := IncomeData.otherIncome income |};
     Netfile.deductions :=
       {| Netfile.rrspContributions := rrspContributions;
          Netfile.unionDues := unionDues;
          Netfile.childcareExpenses := Deductions.childcareExpenses deductions;
          Netfile.movingExpenses := Deductions.movingExpenses deductions;
          Netfile.otherDeductions := Deductions.professionalDues deductions |};
     Netfile.credits :=
       {| Netfile.basicPersonalAmount := 15705;
          Netfile.charitableDonations := charitableDonations;
          Netfile.medicalExpenses := medicalExpenses;
          Netfile.tuitionFees := tuitionFees;
          Netfile.studentLoanInterest := Deductions.studentLoanInterest deductions |};
     Netfile.calculated :=
       {| Netfile.totalIncome := TaxSummary.totalIncome summary;
          Netfile.netIncome := TaxSummary.totalIncome summary - TaxSummary.totalDeductions summary;
          Netfile.taxableIncome := TaxSummary.taxableIncome summary;
          Netfile.federalTax := TaxSummary.federalTax summary;
          Netfile.provincialTax := TaxSummary.provincialTax summary;
          Netfile.totalTax := TaxSummary.totalTax summary;
          Netfile.totalCredits := TaxSummary.totalCredits summary;
          Netfile.refundOrOwing := TaxSummary.refundOrOwing summary |} |}.

(** [createEmptyFiling] of the filing context; the fresh identifier and the
    clock reading are passed in. *)
Definition createEmptyFiling (id now : string) (year : Q) : TaxFiling.t :=
  {| TaxFiling.id := id;
     TaxFiling.year := year;
     TaxFiling.status := not_started;
     TaxFiling.personalInfo :=
       {| PersonalInfo.firstName := EmptyString;
          PersonalInfo.lastName := EmptyString;
          PersonalInfo.sin := EmptyString;
          PersonalInfo.dateOfBirth := EmptyString;
          PersonalInfo.email := EmptyString;
          PersonalInfo.phone := EmptyString;
          PersonalInfo.province := EmptyString;
          PersonalInfo.maritalStatus := EmptyString;
          PersonalInfo.address :=
            {| Address.street := EmptyString;
               Address.city := EmptyString;
               Address.province := EmptyString;
               Address.postalCode := EmptyString |} |};
     TaxFiling.income :=
       {| IncomeData.t4Slips := [];
          IncomeData.t4aSlips := [];
          IncomeData.t4eSlips := [];
          IncomeData.t5Slips := [];
          IncomeData.t3Slips := [];
          IncomeData.t2202Slips := [];
          IncomeData.t4rspSlips := [];
          IncomeData.t5008Slips := [];
          IncomeData.selfEmploymentIncome := 0;
          IncomeData.otherIncome := 0 |};
     TaxFiling.deductions :=
       {| Deductions.rrspContributions := [];
          Deductions.charitableDonations := [];
          Deductions.medicalExpenses := [];
          Deductions.childcareExpenses := 0;
          Deductions.homeOfficeDays := 0;
          Deductions.homeOfficeMethod := method_unset;
          Deductions.movingExpenses := 0;
          Deductions.studentLoanInterest := 0;
          Deductions.professionalDues := 0 |};
     TaxFiling.summary := None;
     TaxFiling.confirmationNumber := None;
     TaxFiling.submittedAt := None;
     TaxFiling.createdAt := now;
     TaxFiling.updatedAt := now |}.

(** The reducer's [updateIncome] and [updateDeductions] replace one part of
    the current filing. *)
Definition updateIncome (filing : TaxFiling.t) (income : IncomeData.t) : TaxFiling.t :=
  {| TaxFiling.id := TaxFiling.id filing;
     TaxFiling.year := TaxFiling.year filing;
     TaxFiling.status := TaxFiling.status filing;
     TaxFiling.personalInfo := TaxFiling.personalInfo filing;
     TaxFiling.income := income;
     TaxFiling.deductions := TaxFiling.deductions filing;
     TaxFiling.summary := TaxFiling.summary filing;
     TaxFiling.confirmationNumber := TaxFiling.confirmationNumber filing;
     TaxFiling.submittedAt := TaxFiling.submittedAt filing;
     TaxFiling.createdAt := TaxFiling.createdAt filing;
     TaxFiling.updatedAt := TaxFiling.updatedAt filing |}.

Definition updateDeductions (filing : TaxFiling.t) (deductions : Deductions.t) : TaxFiling.t :=
  {| TaxFiling.id := TaxFiling.id filing;
     TaxFiling.year := TaxFiling.year filing;
     TaxFiling.status := TaxFiling.status filing;
     TaxFiling.personalInfo := TaxFiling.personalInfo filing;
     TaxFiling.income := TaxFiling.income filing;
     TaxFiling.deductions := deductions;
     TaxFiling.summary := TaxFiling.summary filing;
     TaxFiling.confirmationNumber := TaxFiling.confirmationNumber filing;
     TaxFiling.submittedAt := TaxFiling.submittedAt filing;
     TaxFiling.createdAt := TaxFiling.createdAt filing;
     TaxFiling.updatedAt := TaxFiling.updatedAt filing |}.

(** ** A reference host

    Used to run the cross-check on concrete documents: ASCII case folding,
    plain decimal literals, and amounts printed with at most three decimals
    (en-US grouping for [toLocaleString]). *)
Module RefHost.
Definition lower_ascii (c : ascii) : ascii :=
  let n := nat_of_ascii c in
  if (65 <=? n)%nat && (n <=? 90)%nat then ascii_of_nat (n + 32) else c.

Fixpoint lower (s : string) : string :=
  match s with
  | EmptyString => EmptyString
  | String c s' => String (lower_ascii c) (lower s')
  end.

Definition digit (c : ascii) : option Z :=
  let n := nat_of_ascii c in
  if (48 <=? n)%nat && (n <=? 57)%nat then Some (Z.of_nat (n - 48)) else None.

Fixpoint parse_frac (s : string) (num : Z) (den : positive) : option Q :=
  match s with
  | EmptyString => Some (num # den)
  | String c s' =>
      match digit c with
      | Some d => parse_frac s' (10 * num + d)%Z (10 * den)%positive
      | None => None
      end
  end.

Fixpoint parse_int (s : string) (num : Z) : option Q :=
  match s with
  | EmptyString => Some (num # 1)
  | String c s' =>
      if Ascii.eqb c "."%char then parse_frac s' num 1
      else match digit c with
           | Some d => parse_int s' (10 * num + d)%Z
           | None => None
           end
  end.

Fixpoint has_digit (s : string) : bool :=
  match s with
  | EmptyString => false
  | String c s' => bool_decide (is_Some (digit c)) || has_digit s'
  end.

Definition parse (s : string) : option Q :=
  match s with
  | EmptyString => Some 0
  | String c s' =>
      if negb (has_digit s) then None
      else if Ascii.eqb c "-"%char then option_map Qopp (parse_int s' 0)
      else parse_int s 0
  end.

Definition digits (n : N) : string := NilZero.string_of_uint (N.to_uint n).

(** Thousandths of [|q|], rounded half away from zero. *)
Definition thousandths (q : Q) : N :=
  Z.to_N ((2 * 1000 * Z.abs (Qnum q) + Z.pos (Qden q)) / (2 * Z.pos (Qden q))).

Fixpoint strip_zeros (rev_digits : list ascii) : list ascii :=
  match rev_digits with
  | c :: rest => if Ascii.eqb c "0"%char then strip_zeros rest else rev_digits
  | [] => []
  end.

Definition fraction (m : N) : string :=
  let padded := digits (1000 + m mod 1000) in
  match strip_zeros (rev (list_ascii_of_string (substring 1 3 padded))) with
  | [] => EmptyString
  | ds => "." ++ string_of_list_ascii (rev ds)
  end.

Fixpoint group (rev_digits : list ascii) (k : nat) : list ascii :=
  match rev_digits with
  | [] => []
  | c :: rest =>
      match k, rest with
      | 2%nat, _ :: _ => c :: ","%char :: group rest 0
      | _, _ => c :: group rest (S k)
      end
  end.

Definition sign (q : Q) (m : N) : string :=
  if (Qnum q <? 0)%Z && negb (m =? 0)%N then "-" else EmptyString.

Definition render (grouped : bool) (q : Q) : string :=
  let m := thousandths q in
  let whole := digits (m / 1000) in
  let whole :=
    if grouped
    then string_of_list_ascii (rev (group (rev (list_ascii_of_string whole)) 0))
    else whole in
  sign q m ++ whole ++ fraction m.

#[global] Instance host : Host :=
  {| toLowerCase := lower;
     parseNumber := parse;
     numberToString := render false;
     toLocaleString := render true;
     uuid := fun n => "id-" ++ digits (N.of_nat n) |}.
End RefHost.

(** ** The bracket schedules, as the specification words them

    A schedule is a list of brackets in ascending order; each bracket has a
    lower threshold, the fixed base amount charged at that threshold, and a
    marginal rate.  Tax is the base of the bracket the income falls in plus
    the marginal rate on the income above the bracket's threshold; nothing
    is charged on an income of zero or less. *)

Record Bracket := mkBracket {
  lowerThreshold : Q;
  baseAmount : Q;
  marginalRate : Q }.

Definition bracketFormula (b : Bracket) (income : Q) : Q :=
  baseAmount b + (income - lowerThreshold b) * marginalRate b.

Fixpoint bracketAt (current : Bracket) (higher : list Bracket) (income : Q) : Bracket :=
  match higher with
  | [] => current
  | b :: rest =>
      if lowerThreshold b <? income then bracketAt b rest income else current
  end.

Definition bracketInterpolation (schedule : list Bracket) (income : Q) : Q :=
  match schedule with
  | [] => 0
  | lowest :: higher =>
      if income <=? 0 then 0 else bracketFormula (bracketAt lowest higher income) income
  end.

Definition federalSchedule : list Bracket :=
  [ mkBracket 0 0 0.15;
    mkBracket 55867 8380 0.205;
    mkBracket 111733 19833 0.26;
    mkBracket 173205 35816 0.29;
    mkBracket 246752 57144 0.33 ].

(** The federal schedule as the specification gives it: the marginal rates
    and thresholds, the base 8380 of its worked scenario, and further fixed
    base amounts that it does not spell out. *)
Definition federalBrackets (base3 base4 base5 : Q) : list Bracket :=
  [ mkBracket 0 0 0.15;
    mkBracket 55867 8380 0.205;
    mkBracket 111733 base3 0.26;
    mkBracket 173205 base4 0.29;
    mkBracket 246752 base5 0.33 ].

(** Base amounts are cumulative when each bracket's base is what the
    schedule has charged up to the bracket's threshold, to the whole
    unit. *)
Definition cumulativeBases (schedule : list Bracket) : Prop :=
  Forall (fun next =>
            Qabs (bracketInterpolation schedule (lowerThreshold next) - baseAmount next) < 1)
         (tl schedule).

Definition provincialSchedule : list Bracket :=
  [ mkBracket 0 0 0.0505;
    mkBracket 51446 2598 0.0915;
    mkBracket 102894 7307 0.1116;
    mkBracket 150000 12563 0.1216;
    mkBracket 220000 21075 0.1316 ].

(** The boundaries of a schedule are the thresholds of all brackets but the
    lowest.  At the boundary of bracket [next] the engine still charges by
    the bracket below ([<=] in the source); the jump is what it charges
    there minus what [next]'s formula gives at the same point. *)
Definition jumpAt (tax : Q -> Q) (next : Bracket) : Q :=
  tax (lowerThreshold next) - bracketFormula next (lowerThreshold next).

Definition continuousAt (tax : Q -> Q) (next : Bracket) : Prop :=
  tax (lowerThreshold next) == bracketFormula next (lowerThreshold next).


(** The two-tier donation credit of one record, as the specification words
    it: the first 200 at 15%, what exceeds 200 at 29%. *)
Definition twoTierCredit (amount : Q) : Q :=
  Qmin amount 200 * 0.15 + Qmax 0 (amount - 200) * 0.29.

Definition sumQ (xs : list Q) : Q := fold_right Qplus 0 xs.

(** The specification's wording of [validateAllDocuments]: run the
    cross-check per document and concatenate the suggestions in document
    order ... *)
Fixpoint perDocumentSuggestions `{Host} (extractedDocuments : list ExtractedDocumentData.t)
         (filing : TaxFiling.t) : Gen (list TaxSuggestion.t) :=
  match extractedDocuments with
  | [] => ret []
  | doc :: rest =>
      result <- crossCheckDocument doc filing ;;
      later <- perDocumentSuggestions rest filing ;;
      ret (ValidationResult.discrepancies result ++ later)%list
  end.

(** ... then keep a suggestion exactly when no suggestion before it in the
    list bears the same title. *)
Fixpoint keepFirstAfter (before suggestions : list TaxSuggestion.t) : list TaxSuggestion.t :=
  match suggestions with
  | [] => []
  | s :: rest =>
      ((if bool_decide (TaxSuggestion.title s ∈ map TaxSuggestion.title before)
        then [] else [s])
       ++ keepFirstAfter (before ++ [s]) rest)%list
  end.

Definition keepFirstByTitle (suggestions : list TaxSuggestion.t) : list TaxSuggestion.t :=
  keepFirstAfter [] suggestions.

(** How many suggestions of a list bear a given title. *)
Definition countTitle (title : string) (suggestions : list TaxSuggestion.t) : nat :=
  length (List.filter (fun s => String.eqb (TaxSuggestion.title s) title) suggestions).

(** ** Sample filings and documents *)

Definition emptyFiling : TaxFiling.t :=
  createEmptyFiling "filing-1" "2024-04-30T00:00:00.000Z" 2024.

(** The worked example of the specification: one employment slip with income
    50000 and 8000 withheld, nothing else. *)
Definition filingWithT4 (income withheld : Q) : TaxFiling.t :=
  updateIncome emptyFiling
    {| IncomeData.t4Slips :=
         [ T4Slip.mk "slip-1" "Acme Corporation" EmptyString income withheld 0 0 0 0 0 ];
       IncomeData.t4aSlips := [];
       IncomeData.t4eSlips := [];
       IncomeData.t5Slips := [];
       IncomeData.t3Slips := [];
       IncomeData.t2202Slips := [];
       IncomeData.t4rspSlips := [];
       IncomeData.t5008Slips := [];
       IncomeData.selfEmploymentIncome := 0;
       IncomeData.otherIncome := 0 |}.

Definition donation (amount : Q) : CharitableDonation.t :=
  CharitableDonation.mk "donation-1" "Food Bank" "11892 9355 RR0001" amount cash.

Definition filingWithDonation (amount : Q) : TaxFiling.t :=
  updateDeductions emptyFiling
    {| Deductions.rrspContributions := [];
       Deductions.charitableDonations := [donation amount];
       Deductions.medicalExpenses := [];
       Deductions.childcareExpenses := 0;
       Deductions.homeOfficeDays := 0;
       Deductions.homeOfficeMethod := method_unset;
       Deductions.movingExpenses := 0;
       Deductions.studentLoanInterest := 0;
       Deductions.professionalDues := 0 |}.


Definition t4Document (employer : string) (income withheld : Q) : ExtractedDocumentData.t :=
  {| ExtractedDocumentData.documentType := t4;
     ExtractedDocumentData.fields :=
       <[ "employerName" := VStr employer ]>
         (<[ "employmentIncome" := VNum income ]>
            (<[ "incomeTaxDeducted" := VNum withheld ]> ∅));
     ExtractedDocumentData.documentName := Some "t4-2024.pdf" |}.

Definition rrspReceipt (name : string) (amount : Q) : ExtractedDocumentData.t :=
  {| ExtractedDocumentData.documentType := rrsp_receipt;
     ExtractedDocumentData.fields := <[ "contributionAmount" := VNum amount ]> ∅;
     ExtractedDocumentData.documentName := Some name |}.

(** ** Static suggestion rules (src/lib/suggestions/rules.ts) and the
    sanitizer that feeds them (lib/sanitize) *)

Module SuggestionsRequest.
Record Income := mkIncome {
  t4Total : Q;
  t4aTotal : Q;
  t4eTotal : Q;
  t5Total : Q;
  t3Total : Q;
  selfEmploymentIncome : Q;
  otherIncome : Q }.

Record Deductions := mkDeductions {
  rrspTotal : Q;
  donationsTotal : Q;
  medicalTotal : Q;
  childcareExpenses : Q;
  homeOfficeDays : Q;
  homeOfficeMethod : string;
  movingExpenses : Q;
  studentLoanInterest : Q;
  professionalDues : Q }.

Record t := mk {
  income : Income;
  deductions : Deductions;
  province : string;
  hasSpouse : bool;
  hasDependents : bool }.
End SuggestionsRequest.

(** The string a home-office method is stored as. *)
Definition homeOfficeMethodString (method : HomeOfficeMethod) : string :=
  match method with
  | flat_rate => "flat-rate"
  | detailed => "detailed"
  | method_unset => EmptyString
  end.

Definition sanitizeForSuggestions (filing : TaxFiling.t) : SuggestionsRequest.t :=
  let income := TaxFiling.income filing in
  let deductions := TaxFiling.deductions filing in
  let personalInfo := TaxFiling.personalInfo filing in
  let t4Total :=
    reduce (fun sum slip => sum + T4Slip.employmentIncome slip) 0 (IncomeData.t4Slips income) in
  let t4aTotal :=
    reduce (fun sum slip =>
              sum + T4ASlip.pensionIncome slip + T4ASlip.lumpSumPayments slip
              + T4ASlip.selfEmployedCommissions slip + T4ASlip.otherIncome slip)
           0 (IncomeData.t4aSlips income) in
  let t4eTotal :=
    reduce (fun sum slip => sum + T4ESlip.eiBenefits slip) 0 (IncomeData.t4eSlips income) in
  let t5Total :=
    reduce (fun sum slip =>
              sum + T5Slip.actualDividends slip + T5Slip.interestFromCanadianSources slip
              + T5Slip.capitalGainsDividends slip)
           0 (IncomeData.t5Slips income) in
  let t3Total :=
    reduce (fun sum slip =>
              sum + T3Slip.capitalGains slip * 0.5 + T3Slip.eligibleDividends slip
              + T3Slip.otherDividends slip + T3Slip.otherIncome slip)
           0 (IncomeData.t3Slips income) in
  let rrspTotal :=
    reduce (fun sum c => sum + RRSPContribution.contributionAmount c) 0
           (Deductions.rrspContributions deductions) in
  let donationsTotal :=
    reduce (fun sum d => sum + CharitableDonation.donationAmount d) 0
           (Deductions.charitableDonations deductions) in
  let medicalTotal :=
    reduce (fun sum e => sum + MedicalExpense.amount e) 0
           (Deductions.medicalExpenses deductions) in
  {| SuggestionsRequest.income :=
       {| SuggestionsRequest.t4Total := t4Total;
          SuggestionsRequest.t4aTotal := t4aTotal;
          SuggestionsRequest.t4eTotal := t4eTotal;
          SuggestionsRequest.t5Total := t5Total;
          SuggestionsRequest.t3Total := t3Total;
          SuggestionsRequest.selfEmploymentIncome := IncomeData.selfEmploymentIncome income;
          SuggestionsRequest.otherIncome := IncomeData.otherIncome income |};
     SuggestionsRequest.deductions :=
       {| SuggestionsRequest.rrspTotal := rrspTotal;
          SuggestionsRequest.donationsTotal := donationsTotal;
          SuggestionsRequest.medicalTotal := medicalTotal;
          SuggestionsRequest.childcareExpenses := Deductions.childcareExpenses deductions;
          SuggestionsRequest.homeOfficeDays := Deductions.homeOfficeDays deductions;
          SuggestionsRequest.homeOfficeMethod :=
            homeOfficeMethodString (Deductions.homeOfficeMethod deductions);
          SuggestionsRequest.movingExpenses := Deductions.movingExpenses deductions;
          SuggestionsRequest.studentLoanInterest := Deductions.studentLoanInterest deductions;
          SuggestionsRequest.professionalDues := Deductions.professionalDues deductions |};
     SuggestionsRequest.province := PersonalInfo.province personalInfo;
     SuggestionsRequest.hasSpouse :=
       String.eqb (PersonalInfo.maritalStatus personalInfo) "married"
       || String.eqb (PersonalInfo.maritalStatus personalInfo) "common-law";
     SuggestionsRequest.hasDependents := false |}.

Definition RRSP_LIMIT_2024 : Q := 31560.
Definition RRSP_RATE : Q := 0.18.

Definition Math_min (a b : Q) : Q := Qmin a b.

(** [Array.prototype.sort] with a comparator is stable: an element is
    placed before the first later element it does not compare greater
    than. *)
Fixpoint sortInsert {A : Type} (compare : A -> A -> Q) (x : A) (sorted : list A) : list A :=
  match sorted with
  | [] => [x]
  | y :: rest =>
      if compare x y <=? 0 then x :: y :: rest else y :: sortInsert compare x rest
  end.

Definition Array_sort {A : Type} (compare : A -> A -> Q) (xs : list A) : list A :=
  fold_right (sortInsert compare) [] xs.

Definition priorityOrder (p : Priority) : Q :=
  match p with high => 0 | medium => 1 | low => 2 end.

Section StaticRules.
Context `{Host}.
(** [x.toFixed(0)], on a number. *)
Variable toFixed0 : Binary64.number -> string.

Definition SuggestionRule : Type := SuggestionsRequest.t -> Gen (option TaxSuggestion.t).

(** The income is summed, compared and scaled in binary64: the sum of three
    amounts can exceed 30000 by its rounding alone. *)
Definition checkRRSPOpportunity : SuggestionRule := fun data =>
  let t4Total := Binary64.ofQ (SuggestionsRequest.t4Total (SuggestionsRequest.income data)) in
  let t4aTotal := Binary64.ofQ (SuggestionsRequest.t4aTotal (SuggestionsRequest.income data)) in
  let selfEmploymentIncome :=
    Binary64.ofQ (SuggestionsRequest.selfEmploymentIncome (SuggestionsRequest.income data)) in
  let rrspTotal :=
    Binary64.ofQ (SuggestionsRequest.rrspTotal (SuggestionsRequest.deductions data)) in
  let totalIncome := (t4Total + t4aTotal + selfEmploymentIncome)%binary64 in
  if (totalIncome > Binary64.ofQ 30000)%binary64
     && (rrspTotal === Binary64.ofQ 0)%binary64 then
    let maxContribution :=
      Binary64.Math_min (totalIncome * Binary64.ofQ RRSP_RATE)%binary64
                        (Binary64.ofQ RRSP_LIMIT_2024) in
    let estimatedSavings := (maxContribution * Binary64.ofQ 0.25)%binary64 in
    id <- uuidv4 ;;
    ret (Some {| TaxSuggestion.id := id;
                 TaxSuggestion.type := missing_deduction;
                 TaxSuggestion.priority := high;
                 TaxSuggestion.title := "RRSP Contribution Opportunity";
                 TaxSuggestion.description :=
                   "You haven't claimed any RRSP contributions. Based on your income, you may be able to contribute up to $"
                   ++ toLocaleString (Binary64.toQ maxContribution)
                   ++ " and potentially save around $"
                   ++ toLocaleString (Binary64.toQ estimatedSavings) ++ " in taxes.";
                 TaxSuggestion.affectedFields := ["deductions.rrspContributions"];
                 TaxSuggestion.actionLabel := Some "Add RRSP";
                 TaxSuggestion.actionRoute := Some "/file/deductions";
                 TaxSuggestion.estimatedImpact := Some (Binary64.toQ estimatedSavings) |})
  else ret None.

Definition checkHomeOfficeOpportunity : SuggestionRule := fun data =>
  if (0 <? SuggestionsRequest.t4Total (SuggestionsRequest.income data))
     && (SuggestionsRequest.homeOfficeDays (SuggestionsRequest.deductions data) =? 0) then
    let potentialDeduction := 250 * 2 in
    id <- uuidv4 ;;
    ret (Some {| TaxSuggestion.id := id;
                 TaxSuggestion.type := info;
                 TaxSuggestion.priority := medium;
                 TaxSuggestion.title := "Home Office Deduction";
                 TaxSuggestion.description :=
                   "If you worked from home during the tax year, you may be able to claim up to $500 using the flat rate method ($2/day for up to 250 days).";
                 TaxSuggestion.affectedFields :=
                   ["deductions.homeOfficeDays"; "deductions.homeOfficeMethod"];
                 TaxSuggestion.actionLabel := Some "Add Home Office";
                 TaxSuggestion.actionRoute := Some "/file/deductions";
                 TaxSuggestion.estimatedImpact := Some (potentialDeduction * 0.25) |})
  else ret None.

(** The totals are summed and divided in binary64: the quotient of totals
    in the exact ratio 40% can come out above the number 0.4. *)
Definition checkHighDeductionRatio : SuggestionRule := fun data =>
  let income (field : SuggestionsRequest.Income -> Q) :=
    Binary64.ofQ (field (SuggestionsRequest.income data)) in
  let deductions (field : SuggestionsRequest.Deductions -> Q) :=
    Binary64.ofQ (field (SuggestionsRequest.deductions data)) in
  let totalIncome :=
    (income SuggestionsRequest.t4Total
     + income SuggestionsRequest.t4aTotal
     + income SuggestionsRequest.t4eTotal
     + income SuggestionsRequest.t5Total
     + income SuggestionsRequest.t3Total
     + income SuggestionsRequest.selfEmploymentIncome
     + income SuggestionsRequest.otherIncome)%binary64 in
  let totalDeductions :=
    (deductions SuggestionsRequest.rrspTotal
     + deductions SuggestionsRequest.donationsTotal
     + deductions SuggestionsRequest.medicalTotal
     + deductions SuggestionsRequest.childcareExpenses
     + deductions SuggestionsRequest.movingExpenses
     + deductions SuggestionsRequest.professionalDues)%binary64 in
  if (totalIncome > Binary64.ofQ 0)%binary64
     && (totalDeductions / totalIncome > Binary64.ofQ 0.4)%binary64 then
    id <- uuidv4 ;;
    ret (Some {| TaxSuggestion.id := id;
                 TaxSuggestion.type := warning;
                 TaxSuggestion.priority := high;
                 TaxSuggestion.title := "High Deduction Ratio";
                 TaxSuggestion.description :=
                   "Your deductions ("
                   ++ toFixed0 (totalDeductions / totalIncome * Binary64.ofQ 100)%binary64
                   ++ "% of income) are higher than typical. Please ensure you have documentation to support all claimed deductions.";
                 TaxSuggestion.affectedFields := ["deductions"];
                 TaxSuggestion.actionLabel := None;
                 TaxSuggestion.actionRoute := None;
                 TaxSuggestion.estimatedImpact := None |})
  else ret None.

Definition checkMedicalExpenseThreshold : SuggestionRule := fun data =>
  let totalIncome :=
    SuggestionsRequest.t4Total (SuggestionsRequest.income data)
    + SuggestionsRequest.t4aTotal (SuggestionsRequest.income data)
    + SuggestionsRequest.selfEmploymentIncome (SuggestionsRequest.income data) in
  let threshold := Math_min (totalIncome * 0.03) 2635 in
  let medicalTotal := SuggestionsRequest.medicalTotal (SuggestionsRequest.deductions data) in
  if (0 <? medicalTotal) && (medicalTotal <? threshold) then
    id <- uuidv4 ;;
    ret (Some {| TaxSuggestion.id := id;
                 TaxSuggestion.type := info;
                 TaxSuggestion.priority := low;
                 TaxSuggestion.title := "Medical Expense Threshold";
                 TaxSuggestion.description :=
                   "Your medical expenses ($" ++ toLocaleString medicalTotal
                   ++ ") are below the claim threshold ($" ++ toLocaleString threshold
                   ++ "). You won't receive a credit unless your total exceeds this amount.";
                 TaxSuggestion.affectedFields := ["deductions.medicalExpenses"];
                 TaxSuggestion.actionLabel := None;
                 TaxSuggestion.actionRoute := None;
                 TaxSuggestion.estimatedImpact := None |})
  else ret None.

Definition checkDonationCredit : SuggestionRule := fun data =>
  let donationsTotal := SuggestionsRequest.donationsTotal (SuggestionsRequest.deductions data) in
  if (0 <? donationsTotal) && (donationsTotal <? 200) then
    id <- uuidv4 ;;
    ret (Some {| TaxSuggestion.id := id;
                 TaxSuggestion.type := optimization;
                 TaxSuggestion.priority := low;
                 TaxSuggestion.title := "Donation Credit Tip";
                 TaxSuggestion.description :=
                   "Donations over $200 receive a higher tax credit (29% vs 15%). Consider combining this year's donations with next year's for a better credit.";
                 TaxSuggestion.affectedFields := ["deductions.charitableDonations"];
                 TaxSuggestion.actionLabel := None;
                 TaxSuggestion.actionRoute := None;
                 TaxSuggestion.estimatedImpact := None |})
  else ret None.

Definition checkProfessionalDues : SuggestionRule := fun data =>
  if (60000 <? SuggestionsRequest.t4Total (SuggestionsRequest.income data))
     && (SuggestionsRequest.professionalDues (SuggestionsRequest.deductions data) =? 0) then
    id <- uuidv4 ;;
    ret (Some {| TaxSuggestion.id := id;
                 TaxSuggestion.type := info;
                 TaxSuggestion.priority := low;
                 TaxSuggestion.title := "Professional Dues";
                 TaxSuggestion.description :=
                   "If you pay membership fees to a professional association required for your work (e.g., CPA, P.Eng), these may be deductible.";
                 TaxSuggestion.affectedFields := ["deductions.professionalDues"];
                 TaxSuggestion.actionLabel := Some "Add Dues";
                 TaxSuggestion.actionRoute := Some "/file/deductions";
                 TaxSuggestion.estimatedImpact := None |})
  else ret None.

Definition checkStudentLoanInterest : SuggestionRule := fun data =>
  let totalDeductions :=
    SuggestionsRequest.rrspTotal (SuggestionsRequest.deductions data)
    + SuggestionsRequest.donationsTotal (SuggestionsRequest.deductions data)
    + SuggestionsRequest.studentLoanInterest (SuggestionsRequest.deductions data) in
  if (30000 <? SuggestionsRequest.t4Total (SuggestionsRequest.income data))
     && (totalDeductions <? 1000)
     && (SuggestionsRequest.studentLoanInterest (SuggestionsRequest.deductions data) =? 0) then
    id <- uuidv4 ;;
    ret (Some {| TaxSuggestion.id := id;
                 TaxSuggestion.type := info;
                 TaxSuggestion.priority := low;
                 TaxSuggestion.title := "Student Loan Interest";
                 TaxSuggestion.description :=
                   "Interest paid on qualifying student loans is eligible for a 15% federal tax credit. Don't forget to claim it if applicable.";
                 TaxSuggestion.affectedFields := ["deductions.studentLoanInterest"];
                 TaxSuggestion.actionLabel := None;
                 TaxSuggestion.actionRoute := None;
                 TaxSuggestion.estimatedImpact := None |})
  else ret None.

Definition checkProvinceSet : SuggestionRule := fun data =>
  if negb (truthy (SuggestionsRequest.province data)) then
    id <- uuidv4 ;;
    ret (Some {| TaxSuggestion.id := id;
                 TaxSuggestion.type := validation_error;
                 TaxSuggestion.priority := high;
                 TaxSuggestion.title := "Province Required";
                 TaxSuggestion.description :=
                   "Please set your province of residence to calculate accurate provincial tax.";
                 TaxSuggestion.affectedFields := ["personalInfo.province"];
                 TaxSuggestion.actionLabel := Some "Set Province";
                 TaxSuggestion.actionRoute := Some "/file/personal-info";
                 TaxSuggestion.estimatedImpact := None |})
  else ret None.

Definition rules : list SuggestionRule :=
  [ checkProvinceSet;
    checkRRSPOpportunity;
    checkHomeOfficeOpportunity;
    checkHighDeductionRatio;
    checkMedicalExpenseThreshold;
    checkDonationCredit;
    checkProfessionalDues;
    checkStudentLoanInterest ].

(** The [for] loop of [getStaticSuggestions]. *)
Fixpoint runRules (rules : list SuggestionRule) (data : SuggestionsRequest.t)
         (suggestions : list TaxSuggestion.t) : Gen (list TaxSuggestion.t) :=
  match rules with
  | [] => ret suggestions
  | rule :: rest =>
      suggestion <- rule data ;;
      runRules rest data
        (match suggestion with
         | Some s => (suggestions ++ [s])%list
         | None => suggestions
         end)
  end.

Definition getStaticSuggestions (data : SuggestionsRequest.t) : Gen (list TaxSuggestion.t) :=
  suggestions <- runRules rules data [] ;;
  ret (Array_sort
         (fun a b => priorityOrder (TaxSuggestion.priority a)
                     - priorityOrder (TaxSuggestion.priority b))
         suggestions).
End StaticRules.

(** A reference [toFixed(0)] on finite numbers: the sign first, then the
    magnitude rounded to the nearest integer, halves upwards. *)
Definition toFixed0_ref (x : Binary64.number) : string :=
  let q := Binary64.toQ x in
  (if (Qnum q <? 0)%Z then "-" else EmptyString)
  ++ RefHost.digits (Z.to_N ((2 * Z.abs (Qnum q) + Z.pos (Qden q)) / (2 * Z.pos (Qden q)))).

(** ** The mock filing provider (src/lib/netfile/providers/mock-provider.ts)
    and the service entry points that call it

    The provider's methods are asynchronous only to simulate latency; what
    they compute is modelled.  The module-level [mockSubmissions] map is the
    store threaded through [submitFiling], the timer callback and
    [checkStatus]; clock readings are passed in. *)

Module NetfileFilingStatus.
Inductive t := pending | submitted | accepted | rejected | error.
End NetfileFilingStatus.

Module NetfileSubmissionResponse.
Record Error := mkError {
  code : string;
  message : string;
  field : option string }.

Record t := mk {
  success : bool;
  confirmationNumber : option string;
  status : NetfileFilingStatus.t;
  timestamp : string;
  errors : option (list Error);
  warnings : option (list string) }.
End NetfileSubmissionResponse.

Module NetfileStatusResponse.
Record t := mk {
  filingId : string;
  confirmationNumber : option string;
  status : NetfileFilingStatus.t;
  lastUpdated : string;
  craAssessmentDate : option string;
  noticeOfAssessment : option string }.
End NetfileStatusResponse.

Module FilingValidation.
Record t := mk {
  valid : bool;
  errors : list string }.
End FilingValidation.

(** An entry of [mockSubmissions]. *)
Module MockSubmission.
Record t := mk {
  request : Netfile.SubmissionRequest;
  status : NetfileFilingStatus.t;
  confirmationNumber : string;
  submittedAt : string }.
End MockSubmission.

Definition validateFiling (currentYear : Q) (request : Netfile.SubmissionRequest)
  : FilingValidation.t :=
  let personalInfo := Netfile.personalInfo request in
  let errors : list string := [] in
  let errors :=
    push_if (negb (truthy (Netfile.sin personalInfo))
             || negb (String.length (Netfile.sin personalInfo) =? 11)%nat)
            "Invalid SIN format" errors in
  let errors :=
    push_if (negb (truthy (Netfile.firstName personalInfo))
             || negb (truthy (Netfile.lastName personalInfo)))
            "Name is required" errors in
  let errors :=
    push_if (Netfile.totalIncome (Netfile.calculated request) <? 0)
            "Total income cannot be negative" errors in
  let errors :=
    push_if ((Netfile.taxYear request <? 2020) || (currentYear <? Netfile.taxYear request))
            "Invalid tax year" errors in
  {| FilingValidation.valid := (length errors =? 0)%nat;
     FilingValidation.errors := errors |}.

Section Provider.
Context `{Host}.
(** [s.toUpperCase()]. *)
Variable toUpperCase : string -> string.

(** [submitFiling]: the store after the call and the response.  The two
    clock readings are those of the stored record and of the response. *)
Definition submitFiling (currentYear : Q) (storedAt respondedAt : string)
           (request : Netfile.SubmissionRequest)
           (mockSubmissions : gmap string MockSubmission.t)
  : Gen (NetfileSubmissionResponse.t * gmap string MockSubmission.t) :=
  let validation := validateFiling currentYear request in
  if negb (FilingValidation.valid validation) then
    ret ({| NetfileSubmissionResponse.success := false;
            NetfileSubmissionResponse.confirmationNumber := None;
            NetfileSubmissionResponse.status := NetfileFilingStatus.rejected;
            NetfileSubmissionResponse.timestamp := respondedAt;
            NetfileSubmissionResponse.errors :=
              Some (imap (fun idx msg =>
                            {| NetfileSubmissionResponse.code :=
                                 "VALIDATION_" ++ numberToString (inject_Z (Z.of_nat idx) + 1);
                               NetfileSubmissionResponse.message := msg;
                               NetfileSubmissionResponse.field := None |})
                         (FilingValidation.errors validation));
            NetfileSubmissionResponse.warnings := None |},
         mockSubmissions)
  else
    id <- uuidv4 ;;
    let confirmationNumber :=
      "CRA-" ++ numberToString (Netfile.taxYear request) ++ "-"
      ++ toUpperCase (substring 0 8 id) in
    ret ({| NetfileSubmissionResponse.success := true;
            NetfileSubmissionResponse.confirmationNumber := Some confirmationNumber;
            NetfileSubmissionResponse.status := NetfileFilingStatus.submitted;
            NetfileSubmissionResponse.timestamp := respondedAt;
            NetfileSubmissionResponse.errors := None;
            NetfileSubmissionResponse.warnings :=
              Some [ "This is a mock submission for development purposes.";
                     "In production, connect to a certified NETFILE partner." ] |},
         <[ confirmationNumber :=
              {| MockSubmission.request := request;
                 MockSubmission.status := NetfileFilingStatus.submitted;
                 MockSubmission.confirmationNumber := confirmationNumber;
                 MockSubmission.submittedAt := storedAt |} ]> mockSubmissions).

(** The callback [submitFiling] schedules five seconds after a successful
    submission. *)
Definition acceptSubmission (confirmationNumber : string)
           (mockSubmissions : gmap string MockSubmission.t)
  : gmap string MockSubmission.t :=
  match mockSubmissions !! confirmationNumber with
  | Some submission =>
      <[ confirmationNumber :=
           {| MockSubmission.request := MockSubmission.request submission;
              MockSubmission.status := NetfileFilingStatus.accepted;
              MockSubmission.confirmationNumber :=
                MockSubmission.confirmationNumber submission;
              MockSubmission.submittedAt := MockSubmission.submittedAt submission |} ]>
        mockSubmissions
  | None => mockSubmissions
  end.

Definition checkStatus (now inFourteenDays : string) (confirmationNumber : string)
           (mockSubmissions : gmap string MockSubmission.t) : NetfileStatusResponse.t :=
  match mockSubmissions !! confirmationNumber with
  | None =>
      {| NetfileStatusResponse.filingId := EmptyString;
         NetfileStatusResponse.confirmationNumber := None;
         NetfileStatusResponse.status := NetfileFilingStatus.error;
         NetfileStatusResponse.lastUpdated := now;
         NetfileStatusResponse.craAssessmentDate := None;
         NetfileStatusResponse.noticeOfAssessment := None |}
  | Some submission =>
      {| NetfileStatusResponse.filingId := Netfile.filingId (MockSubmission.request submission);
         NetfileStatusResponse.confirmationNumber := Some confirmationNumber;
         NetfileStatusResponse.status := MockSubmission.status submission;
         NetfileStatusResponse.lastUpdated := now;
         NetfileStatusResponse.craAssessmentDate :=
           match MockSubmission.status submission with
           | NetfileFilingStatus.accepted => Some inFourteenDays
           | _ => None
           end;
         NetfileStatusResponse.noticeOfAssessment := None |}
  end.

(** The service entry points; the only registered provider is the mock
    one, which [getProvider] also falls back to. *)
Definition validateForNetfile (currentYear : Q) (filing : TaxFiling.t) (summary : TaxSummary.t)
  : FilingValidation.t :=
  validateFiling currentYear (transformFilingToNetfile filing summary).

Definition submitToNetfile (currentYear : Q) (storedAt respondedAt : string)
           (filing : TaxFiling.t) (summary : TaxSummary.t)
           (mockSubmissions : gmap string MockSubmission.t)
  : Gen (NetfileSubmissionResponse.t * gmap string MockSubmission.t) :=
  submitFiling currentYear storedAt respondedAt
               (transformFilingToNetfile filing summary) mockSubmissions.

Definition checkNetfileStatus (now inFourteenDays : string) (confirmationNumber : string)
           (mockSubmissions : gmap string MockSubmission.t) : NetfileStatusResponse.t :=
  checkStatus now inFourteenDays confirmationNumber mockSubmissions.
End Provider.

(** ** Input formatting (lib/utils) *)

Definition isDigit (c : ascii) : bool :=
  let n := nat_of_ascii c in (48 <=? n)%nat && (n <=? 57)%nat.

(** [s.replace(/\D/g, '')]. *)
Fixpoint digitsOnly (s : string) : string :=
  match s with
  | EmptyString => EmptyString
  | String c s' => if isDigit c then String c (digitsOnly s') else digitsOnly s'
  end.

(** [s.slice(from, to)] and [s.slice(from)] for [0 <= from <= to]. *)
Definition slice (from to : nat) (s : string) : string := substring from (to - from) s.
Definition sliceFrom (from : nat) (s : string) : string :=
  substring from (String.length s - from) s.

Definition formatSIN (sin : string) : string :=
  let digits := digitsOnly sin in
  if (String.length digits <=? 3)%nat then digits
  else if (String.length digits <=? 6)%nat
       then slice 0 3 digits ++ "-" ++ sliceFrom 3 digits
       else slice 0 3 digits ++ "-" ++ slice 3 6 digits ++ "-" ++ slice 6 9 digits.

Definition formatPhoneNumber (phone : string) : string :=
  let digits := digitsOnly phone in
  if (String.length digits <=? 3)%nat then digits
  else if (String.length digits <=? 6)%nat
       then "(" ++ slice 0 3 digits ++ ") " ++ sliceFrom 3 digits
       else "(" ++ slice 0 3 digits ++ ") " ++ slice 3 6 digits ++ "-" ++ slice 6 10 digits.

(** A reference [toUpperCase], on ASCII letters. *)
Definition toUpperCase_ref (s : string) : string :=
  string_of_list_ascii
    (map (fun c => let n := nat_of_ascii c in
                   if (97 <=? n)%nat && (n <=? 122)%nat then ascii_of_nat (n - 32) else c)
         (list_ascii_of_string s)).

Definition personWith (sin firstName lastName : string) : PersonalInfo.t :=
  {| PersonalInfo.firstName := firstName;
     PersonalInfo.lastName := lastName;
     PersonalInfo.sin := sin;
     PersonalInfo.dateOfBirth := "1990-01-31";
     PersonalInfo.email := "pat@example.com";
     PersonalInfo.phone := "(416) 555-0199";
     PersonalInfo.province := "ON";
     PersonalInfo.maritalStatus := "single";
     PersonalInfo.address := Address.mk "1 Main St" "Toronto" "ON" "M5V 2T6" |}.

(** [updatePersonalInfo] on a filing, as [updateIncome] above. *)
Definition withPersonalInfo (filing : TaxFiling.t) (personalInfo : PersonalInfo.t)
  : TaxFiling.t :=
  {| TaxFiling.id := TaxFiling.id filing;
     TaxFiling.year := TaxFiling.year filing;
     TaxFiling.status := TaxFiling.status filing;
     TaxFiling.personalInfo := personalInfo;
     TaxFiling.income := TaxFiling.income filing;
     TaxFiling.deductions := TaxFiling.deductions filing;
     TaxFiling.summary := TaxFiling.summary filing;
     TaxFiling.confirmationNumber := TaxFiling.confirmationNumber filing;
     TaxFiling.submittedAt := TaxFiling.submittedAt filing;
     TaxFiling.createdAt := TaxFiling.createdAt filing;
     TaxFiling.updatedAt := TaxFiling.updatedAt filing |}.

Definition readyFiling : TaxFiling.t :=
  withPersonalInfo (filingWithT4 50000 8000) (personWith (formatSIN "046 454 286") "Pat" "Roy").

Definition readyRequest : Netfile.SubmissionRequest :=
  transformFilingToNetfile readyFiling (calculateSummary (Some readyFiling)).

Definition rejectedRequest : Netfile.SubmissionRequest :=
  transformFilingToNetfile (filingWithT4 50000 8000)
                           (calculateSummary (Some (filingWithT4 50000 8000))).

(** ** Sample data and auxiliary notions of the further properties *)

(** A suggestions request with the given totals, everything else zero. *)
Definition requestWith (t4Total t4aTotal selfEmploymentIncome rrspTotal : Q)
  : SuggestionsRequest.t :=
  {| SuggestionsRequest.income :=
       SuggestionsRequest.mkIncome t4Total t4aTotal 0 0 0 selfEmploymentIncome 0;
     SuggestionsRequest.deductions :=
       SuggestionsRequest.mkDeductions rrspTotal 0 0 0 0 EmptyString 0 0 0;
     SuggestionsRequest.province := "ON";
     SuggestionsRequest.hasSpouse := false;
     SuggestionsRequest.hasDependents := false |}.


Definition incomeWithT5008 (slips : list T5008Slip.t) : IncomeData.t :=
  IncomeData.mk [] [] [] [] [] [] [] slips 0 0.

Definition donationReceipt (amount : Q) : ExtractedDocumentData.t :=
  {| ExtractedDocumentData.documentType := donation_receipt;
     ExtractedDocumentData.fields := <[ "donationAmount" := VNum amount ]> ∅;
     ExtractedDocumentData.documentName := None |}.



(** The titles the cross-check can produce on a filing: the two
    retirement-contribution titles exclude each other. *)
Definition knownTitles (filing : TaxFiling.t) : list string :=
  [ "T4 Data Mismatch Detected";
    "Possible Duplicate T4";
    "New T4 Detected";
    "T5 Data Mismatch Detected";
    if 0 <? rrspDeductions (TaxFiling.deductions filing)
    then "Additional RRSP Contribution Found"
    else "RRSP Contribution Not Claimed";
    "Donation Not Claimed" ].

Definition byPriority (a b : TaxSuggestion.t) : Q :=
  priorityOrder (TaxSuggestion.priority a) - priorityOrder (TaxSuggestion.priority b).

(** The suggestions of one priority, in their order. *)
Definition tier (p : Priority) (suggestions : list TaxSuggestion.t) : list TaxSuggestion.t :=
  List.filter
    (fun s => match TaxSuggestion.priority s, p with
              | high, high | medium, medium | low, low => true
              | _, _ => false
              end)
    suggestions.

Definition filingWithMedical (income medical : Q) : TaxFiling.t :=
  updateDeductions (filingWithT4 income 0)
    {| Deductions.rrspContributions := [];
       Deductions.charitableDonations := [];
       Deductions.medicalExpenses := [ MedicalExpense.mk "m-1" "Dental" medical for_self ];
       Deductions.childcareExpenses := 0;
       Deductions.homeOfficeDays := 0;
       Deductions.homeOfficeMethod := method_unset;
       Deductions.movingExpenses := 0;
       Deductions.studentLoanInterest := 0;
       Deductions.professionalDues := 0 |}.

Definition validationMessages : list string :=
  [ "Invalid SIN format"; "Name is required";
    "Total income cannot be negative"; "Invalid tax year" ].

(** * Properties *)

(** ** Comparisons and sums *)

Lemma Qleb_spec (a b : Q) : reflect (a <= b) (a <=? b).
Proof.
  destruct (a <=? b) eqn:E; constructor.
  - now apply Qle_bool_iff.
  - intros Hle. apply Qle_bool_iff in Hle. congruence.
Qed.

Lemma Qltb_spec (a b : Q) : reflect (a < b) (a <? b).
Proof.
  unfold Qltb. destruct (Qleb_spec b a); constructor; lra.
Qed.

Lemma Qeqb_spec (a b : Q) : reflect (a == b) (a =? b).
Proof.
  destruct (a =? b) eqn:E; constructor.
  - now apply Qeq_bool_iff.
  - now apply Qeq_bool_neq.
Qed.

(** Replace every boolean comparison of the goal by the fact it decides. *)
Ltac qcases :=
  repeat match goal with
         | |- context [?a <=? ?b] => destruct (Qleb_spec a b)
         | |- context [?a <? ?b] => destruct (Qltb_spec a b)
         | |- context [?a =? ?b] => destruct (Qeqb_spec a b)
         end.

Lemma Math_max_0_cases (x : Q) :
  (x <= 0 /\ Math_max 0 x == 0) \/ (0 < x /\ Math_max 0 x == x).
Proof.
  unfold Math_max. destruct (Q.max_spec 0 x) as [[? ?]|[? ?]]; [right | left]; auto.
Qed.

Lemma reduce_sum {A : Type} (f : Q -> A -> Q) (g : A -> Q) :
  (forall sum x, f sum x == sum + g x) ->
  forall xs init, reduce f init xs == init + sumQ (map g xs).
Proof.
  intros Hf xs. unfold reduce.
  induction xs as [|x xs IH]; intros init; simpl.
  - lra.
  - rewrite IH. rewrite Hf. lra.
Qed.

Lemma sumQ_nonneg (xs : list Q) : Forall (fun x => 0 <= x) xs -> 0 <= sumQ xs.
Proof.
  induction 1 as [|x xs Hx _ IH]; simpl; lra.
Qed.


(** ** The summary equations *)

(** Project a field out of [calculateSummary] without touching the
    arithmetic. *)
Ltac summary_fields :=
  cbn [calculateSummary TaxSummary.totalIncome TaxSummary.totalDeductions
       TaxSummary.taxableIncome TaxSummary.federalTax TaxSummary.provincialTax
       TaxSummary.totalTax TaxSummary.totalCredits TaxSummary.totalPaid
       TaxSummary.refundOrOwing].

(** C1.  For every filing (and for no filing at all) the summary returned by
    [calculateSummary] satisfies
    totalTax = max(0, federalTax + provincialTax - totalCredits) and
    refundOrOwing = totalPaid - totalTax, and totalTax is never negative. *)
Theorem calculateSummary_invariants (currentFiling : option TaxFiling.t) :
  let s := calculateSummary currentFiling in
  TaxSummary.totalTax s
  = Math_max 0 (TaxSummary.federalTax s + TaxSummary.provincialTax s
                - TaxSummary.totalCredits s)
  /\ TaxSummary.refundOrOwing s = TaxSummary.totalPaid s - TaxSummary.totalTax s
  /\ 0 <= TaxSummary.totalTax s.
Proof.
  destruct currentFiling as [filing|]; summary_fields.
  - repeat split. apply Q.le_max_l.
  - repeat split. discriminate.
Qed.

Example calculateSummary_one_slip :
  let s := calculateSummary (Some (filingWithT4 50000 8000)) in
  TaxSummary.totalIncome s == 50000 /\ TaxSummary.taxableIncome s == 50000
  /\ TaxSummary.federalTax s == 7500 /\ TaxSummary.provincialTax s == 2525
  /\ TaxSummary.totalCredits s == 2355.75 /\ TaxSummary.totalTax s == 7669.25
  /\ TaxSummary.totalPaid s == 8000 /\ TaxSummary.refundOrOwing s == 330.75.
Proof. vm_compute. repeat split. Qed.

(** ** Bracket schedules *)

Lemma federalTax_interpolation (income : Q) :
  federalTax income == bracketInterpolation federalSchedule income.
Proof.
  unfold federalTax, bracketInterpolation, federalSchedule, bracketAt, bracketFormula.
  cbn [lowerThreshold]. qcases; cbn [lowerThreshold baseAmount marginalRate]; lra.
Qed.

Lemma provincialTax_interpolation (income : Q) :
  provincialTax income == bracketInterpolation provincialSchedule income.
Proof.
  unfold provincialTax, bracketInterpolation, provincialSchedule, bracketAt, bracketFormula.
  cbn [lowerThreshold]. qcases; cbn [lowerThreshold baseAmount marginalRate]; lra.
Qed.

#[export] Instance federalTax_proper : Proper (Qeq ==> Qeq) federalTax.
Proof.
  intros x y Hxy. unfold federalTax. qcases; lra.
Qed.

(** Every non-negative amount is the taxable income of some filing. *)
Lemma taxableIncome_onto (amount : Q) :
  0 <= amount ->
  exists filing,
    TaxSummary.taxableIncome (calculateSummary (Some filing)) == amount.
Proof.
  intros Hpos.
  exists (updateIncome (createEmptyFiling EmptyString EmptyString 2024)
            (IncomeData.mk [] [] [] [] [] [] [] [] 0 amount)).
  unfold calculateSummary, taxableIncome, totalIncome, totalDeductions; simpl.
  unfold t4Income, t4aIncome, t4eIncome, t5Income, t3Income, t4rspIncome, t5008Gains,
    rrspDeductions, homeOfficeDeduction, reduce; simpl.
  destruct (Math_max_0_cases (0 + 0 + 0 + 0 + 0 + 0 + 0 + 0 + amount - (0 + 0 + 0 + 0 + 0)))
    as [[? ->]|[? ->]]; lra.
Qed.

(** C3.  For every taxable income the federal tax that [calculateSummary]
    computes follows the five-bracket interpolation schedule with marginal
    rates 15%, 20.5%, 26%, 29%, 33%, thresholds 55867, 111733, 173205,
    246752 and fixed cumulative base amounts, the second of them 8380:
    the tax of every summary is the schedule at the summary's taxable
    income, and every amount from 0 on is the taxable income of some
    filing, whose summary then carries the schedule's tax on that amount.
    The schedule charges nothing on an income of zero or less, and
    8380 + (70000 - 55867) * 0.205 = 11277.265 on 70000. *)
Theorem federalTax_follows_schedule :
  exists base3 base4 base5 : Q,
    let schedule := federalBrackets base3 base4 base5 in
    cumulativeBases schedule
    /\ (forall currentFiling : option TaxFiling.t,
          let s := calculateSummary currentFiling in
          TaxSummary.federalTax s
          == bracketInterpolation schedule (TaxSummary.taxableIncome s))
    /\ (forall income : Q, 0 <= income ->
          exists filing,
            let s := calculateSummary (Some filing) in
            TaxSummary.taxableIncome s == income
            /\ TaxSummary.federalTax s == bracketInterpolation schedule income)
    /\ (forall income : Q, income <= 0 -> bracketInterpolation schedule income == 0)
    /\ bracketInterpolation schedule 70000 == 8380 + (70000 - 55867) * 0.205
    /\ bracketInterpolation schedule 70000 == 11277.265.
Proof.
  exists 19833, 35816, 57144. cbv zeta.
  change (federalBrackets 19833 35816 57144) with federalSchedule.
  assert (Hsummary : forall currentFiling : option TaxFiling.t,
             TaxSummary.federalTax (calculateSummary currentFiling)
             == bracketInterpolation federalSchedule
                  (TaxSummary.taxableIncome (calculateSummary currentFiling))).
  { intros [filing|]; summary_fields.
    - apply federalTax_interpolation.
    - vm_compute. reflexivity. }
  split; [|split; [exact Hsummary|split; [|split; [|split]]]].
  - unfold cumulativeBases. cbn [tl federalSchedule].
    repeat constructor; vm_compute; reflexivity.
  - intros income Hincome.
    destruct (taxableIncome_onto income Hincome) as [filing Hfiling].
    exists filing. split; [exact Hfiling|].
    rewrite (Hsummary (Some filing)), <- !federalTax_interpolation.
    apply federalTax_proper, Hfiling.
  - intros income Hincome. rewrite <- federalTax_interpolation.
    unfold federalTax. qcases; lra.
  - vm_compute. reflexivity.
  - vm_compute. reflexivity.
Qed.

Lemma federalTax_follows_schedule_witness :
  0 <= 70000
  /\ exists filing,
       TaxSummary.taxableIncome (calculateSummary (Some filing)) == 70000
       /\ TaxSummary.federalTax (calculateSummary (Some filing)) == 11277.265.
Proof.
  split; [lra|].
  destruct federalTax_follows_schedule
    as (base3 & base4 & base5 & _ & _ & Honto & _ & _ & Hvalue).
  destruct (Honto 70000 ltac:(lra)) as (filing & Hincome & Htax).
  exists filing. split; [exact Hincome|].
  rewrite Htax. exact Hvalue.
Defined.

(** C2, as the code has it.  The base amounts are whole-unit constants, so
    at seven of the eight boundaries the amount charged from below differs
    from the next bracket's formula at the same point; every jump is smaller
    than 2 units, and only the provincial boundary 220000 is continuous. *)
Theorem bracket_boundary_jumps :
  Forall2 Qeq (map (jumpAt federalTax) (tl federalSchedule))
          [0.05; -0.47; -0.28; 0.63]
  /\ Forall2 Qeq (map (jumpAt provincialTax) (tl provincialSchedule))
             [0.023; -1.508; 1.0296; 0]
  /\ Forall (fun next => Qabs (jumpAt federalTax next) < 2) (tl federalSchedule)
  /\ Forall (fun next => Qabs (jumpAt provincialTax next) < 2) (tl provincialSchedule)
  /\ continuousAt provincialTax (mkBracket 220000 21075 0.1316).
Proof.
  repeat split; cbn [map tl federalSchedule provincialSchedule];
    repeat (constructor; try (vm_compute; reflexivity)).
Qed.

(** C2, as stated, fails at the first federal boundary: from below the
    engine charges 55867 * 0.15 = 8380.05, the next bracket's formula gives
    its base 8380. *)
Lemma bracket_continuity_fails_at_55867 :
  federalTax 55867 == 8380.05
  /\ bracketFormula (mkBracket 55867 8380 0.205) 55867 == 8380
  /\ In (mkBracket 55867 8380 0.205) (tl federalSchedule)
  /\ ~ continuousAt federalTax (mkBracket 55867 8380 0.205).
Proof.
  repeat split; try (vm_compute; reflexivity).
  - simpl. auto.
  - unfold continuousAt. vm_compute. discriminate.
Qed.

(** ** Donation credit *)

Lemma donation_step (sum : Q) (d : CharitableDonation.t) :
  (let amount := CharitableDonation.donationAmount d in
   if amount <=? 200 then sum + amount * 0.15
   else sum + 30 + (amount - 200) * 0.29)
  == sum + twoTierCredit (CharitableDonation.donationAmount d).
Proof.
  cbv zeta. unfold twoTierCredit.
  set (amount := CharitableDonation.donationAmount d).
  destruct (Qleb_spec amount 200).
  - rewrite (Q.min_l amount 200), (Q.max_l 0 (amount - 200)); lra.
  - rewrite (Q.min_r amount 200), (Q.max_r 0 (amount - 200)); lra.
Qed.

(** C5.  The donation credit is the sum over the donation records of the
    two-tier credit of each record (first 200 at 15%, remainder at 29%); it
    enters the total credits as is; a single record of exactly 200 earns 30
    and a single record of 300 earns 30 + 100 * 0.29 = 59. *)
Theorem donationCredits_per_record (filing : TaxFiling.t) :
  let donations := Deductions.charitableDonations (TaxFiling.deductions filing) in
  donationCredits donations
  == sumQ (map (fun d => twoTierCredit (CharitableDonation.donationAmount d)) donations)
  /\ TaxSummary.totalCredits (calculateSummary (Some filing))
     = basicPersonalCredit + donationCredits donations
       + medicalCredits (TaxFiling.income filing) (TaxFiling.deductions filing)
       + tuitionCredits (TaxFiling.income filing)
       + studentLoanCredit (TaxFiling.deductions filing)
  /\ (forall d, donations = [d] -> CharitableDonation.donationAmount d == 200 ->
                donationCredits donations == 200 * 0.15 /\ donationCredits donations == 30)
  /\ (forall d, donations = [d] -> CharitableDonation.donationAmount d == 300 ->
                donationCredits donations == 30 + 100 * 0.29
                /\ donationCredits donations == 59).
Proof.
  cbv zeta. set (donations := Deductions.charitableDonations _).
  assert (Hsum : forall ds, donationCredits ds
                 == sumQ (map (fun d => twoTierCredit (CharitableDonation.donationAmount d)) ds)).
  { intros ds. unfold donationCredits.
    rewrite (reduce_sum _ (fun d => twoTierCredit (CharitableDonation.donationAmount d))).
    - lra.
    - intros sum d. apply donation_step. }
  split; [apply Hsum|]. split; [reflexivity|].
  split; intros d -> Hd; rewrite Hsum; cbn [map sumQ fold_right];
    unfold twoTierCredit; rewrite Hd; split; vm_compute; reflexivity.
Qed.

Lemma donationCredits_per_record_witness :
  donationCredits [donation 200] == 30 /\ donationCredits [donation 300] == 59.
Proof.
  split.
  - apply (donationCredits_per_record (filingWithDonation 200)) with (d := donation 200);
      reflexivity.
  - apply (donationCredits_per_record (filingWithDonation 300)) with (d := donation 300);
      reflexivity.
Defined.

(** ** Tax withheld: the transformer against the engine *)




(** ** Numeric tolerance: [valuesMatch] *)

(** *** Facts on binary64 rounding and comparison *)

Section Binary64Facts.
Import Binary64.
Local Open Scope Z_scope.

Lemma shr_1_nonneg (mrs : shr_record) : 0 <= shr_m mrs -> 0 <= shr_m (shr_1 mrs).
Proof.
  destruct mrs as [m r s]. destruct m as [|[p|p|]|[p|p|]]; cbn; lia.
Qed.

Lemma iter_pos_shr_1_nonneg (p : positive) (mrs : shr_record) :
  0 <= shr_m mrs -> 0 <= shr_m (SpecFloat.iter_pos shr_1 p mrs).
Proof.
  revert mrs. induction p as [p IH|p IH|]; intros mrs Hm; cbn [SpecFloat.iter_pos].
  - apply IH, IH, shr_1_nonneg, Hm.
  - apply IH, IH, Hm.
  - apply shr_1_nonneg, Hm.
Qed.

Lemma shr_fexp_nonneg (m e : Z) (l : location) :
  0 <= m -> 0 <= shr_m (fst (shr_fexp prec emax m e l)).
Proof.
  intros Hm. unfold shr_fexp, shr.
  assert (Hrecord : 0 <= shr_m (shr_record_of_loc m l))
    by (destruct l as [|[| |]]; exact Hm).
  destruct (fexp prec emax (Zdigits2 m + e) - e) as [|p|p]; cbn [fst];
    [assumption | apply iter_pos_shr_1_nonneg; assumption | assumption].
Qed.

Lemma round_nearest_even_nonneg (m : Z) (l : location) :
  0 <= m -> 0 <= round_nearest_even m l.
Proof.
  intros Hm. unfold round_nearest_even.
  destruct l as [|[| |]]; [| destruct (Z.even m) | |]; lia.
Qed.

(** Rounding a non-negative mantissa never gives NaN. *)
Lemma binary_round_aux_not_nan (s : bool) (m e : Z) (l : location) :
  0 <= m -> binary_round_aux prec emax s m e l <> S754_nan.
Proof.
  intros Hm. unfold binary_round_aux.
  pose proof (shr_fexp_nonneg m e l Hm) as Hfirst.
  destruct (shr_fexp prec emax m e l) as [mrs' e']. cbn [fst] in Hfirst.
  pose proof (shr_fexp_nonneg _ e' loc_Exact
                (round_nearest_even_nonneg _ (loc_of_shr_record mrs') Hfirst)) as Hsecond.
  destruct (shr_fexp prec emax _ e' loc_Exact) as [mrs'' e'']. cbn [fst] in Hsecond.
  destruct (shr_m mrs'') as [|p|p]; [discriminate | | lia].
  destruct (e'' <=? emax - prec); discriminate.
Qed.

(** The sign passed to the rounding only ends up in the result's sign. *)
Lemma binary_round_aux_abs (s s' : bool) (m e : Z) (l : location) :
  SFabs (binary_round_aux prec emax s m e l) = SFabs (binary_round_aux prec emax s' m e l).
Proof.
  unfold binary_round_aux.
  destruct (shr_fexp prec emax m e l) as [mrs' e'].
  destruct (shr_fexp prec emax _ e' loc_Exact) as [mrs'' e''].
  destruct (shr_m mrs''); [reflexivity | | reflexivity].
  destruct (e'' <=? emax - prec); reflexivity.
Qed.

Lemma binary_normalize_abs_opp (m e : Z) :
  SFabs (binary_normalize prec emax (- m) e false)
  = SFabs (binary_normalize prec emax m e false).
Proof.
  destruct m as [|p|p]; [reflexivity | |];
    change (- Z.pos p)%Z with (Z.neg p) || change (- Z.neg p)%Z with (Z.pos p);
    unfold binary_normalize, binary_round; destruct (shl_align _ _ _);
    apply binary_round_aux_abs.
Qed.

Lemma SFdiv_core_binary_nonneg (n d : positive) :
  0 <= (SFdiv_core_binary prec emax (Z.pos n) 0 (Z.pos d) 0).1.1.
Proof.
  unfold SFdiv_core_binary. cbv zeta.
  set (shift := (0 - 0 - _)%Z).
  set (numerator := match shift with Z0 => Z.pos n | Z.pos _ => Z.shiftl (Z.pos n) shift
                                     | Z.neg _ => 0 end).
  assert (Hnum : 0 <= numerator).
  { subst numerator. destruct shift; [lia | apply Z.shiftl_nonneg; lia | lia]. }
  pose proof (Z_div_mod numerator (Z.pos d) ltac:(lia)) as Hdiv.
  destruct (Z.div_eucl numerator (Z.pos d)) as [quotient remainder]. cbn [fst]. nia.
Qed.

Lemma ofQ_not_nan (q : Q) : ofQ q <> S754_nan.
Proof.
  unfold ofQ. cbv zeta.
  destruct (Qnum (Qred q)) as [|n|n]; [discriminate | |];
    pose proof (SFdiv_core_binary_nonneg n (Qden (Qred q))) as Hcore;
    destruct (SFdiv_core_binary prec emax (Z.pos n) 0 (Z.pos (Qden (Qred q))) 0)
      as [[m e] l];
    apply binary_round_aux_not_nan; exact Hcore.
Qed.

Lemma ofQ_proper (q q' : Q) : (q == q')%Q -> ofQ q = ofQ q'.
Proof.
  intros Heq. unfold ofQ. rewrite (Qred_complete _ _ Heq). reflexivity.
Qed.

Lemma SFcompare_antisym (x y : number) :
  SFcompare y x = option_map CompOpp (SFcompare x y).
Proof.
  destruct x as [sx|sx| |sx mx ex], y as [sy|sy| |sy my ey];
    try reflexivity; try (destruct sx; reflexivity); try (destruct sy; reflexivity);
    try (destruct sx, sy; reflexivity).
  cbn [SFcompare option_map]. f_equal.
  assert (Hm : Pos.compare_cont Eq my mx = CompOpp (Pos.compare_cont Eq mx my))
    by (rewrite Pos.compare_cont_antisym; reflexivity).
  rewrite (Z.compare_antisym ex ey), Hm.
  destruct sx, sy; try reflexivity;
    destruct (ex ?= ey); cbn [CompOpp]; try reflexivity;
    destruct (Pos.compare_cont Eq mx my); reflexivity.
Qed.

Lemma SFcompare_refl (x : number) : x <> S754_nan -> SFcompare x x = Some Eq.
Proof.
  destruct x as [s|s| |s m e]; intros Hnan; [reflexivity | destruct s; reflexivity | congruence |].
  cbn [SFcompare]. rewrite Z.compare_refl, Pos.compare_cont_refl. destruct s; reflexivity.
Qed.

(** Numbers that compare equal are the same number, up to the sign of
    zero. *)
Lemma SFcompare_Eq (x y : number) :
  SFcompare x y = Some Eq ->
  x = y \/ exists sx sy, x = S754_zero sx /\ y = S754_zero sy.
Proof.
  destruct x as [sx|sx| |sx mx ex], y as [sy|sy| |sy my ey]; cbn [SFcompare];
    try discriminate; try (destruct sx; discriminate); try (destruct sy; discriminate).
  - intros _. right. eauto.
  - destruct sx, sy; try discriminate; intros _; left; reflexivity.
  - intros Hcmp. left.
    assert (Hsame : sx = sy /\ (ex ?= ey) = Eq /\ Pos.compare_cont Eq mx my = Eq).
    { destruct sx, sy; try discriminate; destruct (ex ?= ey); try discriminate;
        destruct (Pos.compare_cont Eq mx my); try discriminate; auto. }
    destruct Hsame as (-> & He & Hm).
    apply Z.compare_eq in He. apply Pos.compare_eq in Hm. congruence.
Qed.

Lemma strictEq_comm (x y : number) : strictEq x y = strictEq y x.
Proof.
  unfold strictEq, SFeqb. rewrite (SFcompare_antisym x y).
  destruct (SFcompare x y) as [[| |]|]; reflexivity.
Qed.

Lemma Math_max_comm (x y : number) : Math_max x y = Math_max y x.
Proof.
  destruct (SFcompare x y) as [c|] eqn:Hcmp.
  - pose proof (SFcompare_antisym x y) as Hanti. rewrite Hcmp in Hanti. cbn in Hanti.
    destruct c.
    + destruct (SFcompare_Eq _ _ Hcmp) as [->|(sx & sy & -> & ->)]; [reflexivity|].
      cbn. destruct sx, sy; reflexivity.
    + unfold Math_max, SFltb. rewrite Hcmp, Hanti.
      destruct x as [sx|sx| |sx mx ex], y as [sy|sy| |sy my ey]; try reflexivity;
        discriminate.
    + unfold Math_max, SFltb. rewrite Hcmp, Hanti.
      destruct x as [sx|sx| |sx mx ex], y as [sy|sy| |sy my ey]; try reflexivity;
        discriminate.
  - destruct x as [sx|sx| |sx mx ex], y as [sy|sy| |sy my ey]; try reflexivity;
      cbn in Hcmp; try discriminate; destruct sx; try discriminate; destruct sy; discriminate.
Qed.

Lemma sub_abs_comm (x y : number) : Math_abs (sub x y) = Math_abs (sub y x).
Proof.
  unfold Math_abs, sub.
  destruct x as [sx|sx| |sx mx ex], y as [sy|sy| |sy my ey]; try reflexivity;
    try (destruct sx, sy; reflexivity).
  cbn [SFsub]. rewrite (Z.min_comm ey ex).
  set (a := cond_Zopp sx _). set (b := cond_Zopp sy _).
  replace (b - a) with (- (a - b)) by lia.
  symmetry. apply binary_normalize_abs_opp.
Qed.
End Binary64Facts.

Lemma valuesMatch_sym (a b : Q) : valuesMatch a b = valuesMatch b a.
Proof.
  unfold valuesMatch. cbv zeta.
  rewrite (strictEq_comm (Binary64.ofQ a) (Binary64.ofQ b)),
    (Math_max_comm (Binary64.ofQ a) (Binary64.ofQ b)),
    (sub_abs_comm (Binary64.ofQ a) (Binary64.ofQ b)).
  reflexivity.
Qed.


(** C8.  [valuesMatch] is reflexive and symmetric. *)
Theorem valuesMatch_reflexive_symmetric :
  (forall x : Q, valuesMatch x x = true)
  /\ (forall a b : Q, valuesMatch a b = valuesMatch b a).
Proof.
  split.
  - intros x. unfold valuesMatch, Binary64.strictEq, SFeqb. cbv zeta.
    rewrite (SFcompare_refl _ (ofQ_not_nan x)). reflexivity.
  - exact valuesMatch_sym.
Qed.

(** [valuesMatch] does not tell equal fractions apart. *)
#[export] Instance valuesMatch_proper : Proper (Qeq ==> Qeq ==> eq) valuesMatch.
Proof.
  intros a a' Ha b b' Hb. unfold valuesMatch.
  rewrite (ofQ_proper _ _ Ha), (ofQ_proper _ _ Hb). reflexivity.
Qed.

Example valuesMatch_samples :
  valuesMatch 50000 50000 = true /\ valuesMatch 8500 8000 = false
  /\ valuesMatch 50 50.01 = true /\ valuesMatch 50 50.02 = false
  /\ valuesMatch 1000 1020 = true /\ valuesMatch 1000 1021 = false.
Proof. vm_compute. repeat split. Qed.

(** ** Cross-checking one document *)

Section CrossCheckFacts.
Context `{Host}.

Lemma crossCheckDocument_t4 (extracted : ExtractedDocumentData.t)
      (filing : TaxFiling.t) (n : nat) :
  ExtractedDocumentData.documentType extracted = t4 ->
  ValidationResult.discrepancies (crossCheckDocument extracted filing n).1
  = (validateT4 (ExtractedDocumentData.fields extracted) filing
                (ExtractedDocumentData.documentName extracted) n).1.
Proof.
  intros Htype. unfold crossCheckDocument, bind, ret. rewrite Htype.
  destruct (validateT4 _ _ _ n) as [discrepancies n']. reflexivity.
Qed.

(** C9.  A document whose type is none of t4, t5, rrsp-receipt and
    donation-receipt validates silently: [isValid] is true, there are no
    discrepancies and no matches (and no identifier is drawn). *)
Theorem crossCheckDocument_other_types (extracted : ExtractedDocumentData.t)
        (filing : TaxFiling.t) (n : nat) :
  ExtractedDocumentData.documentType extracted <> t4 ->
  ExtractedDocumentData.documentType extracted <> t5 ->
  ExtractedDocumentData.documentType extracted <> rrsp_receipt ->
  ExtractedDocumentData.documentType extracted <> donation_receipt ->
  crossCheckDocument extracted filing n
  = ({| ValidationResult.isValid := true;
        ValidationResult.discrepancies := [];
        ValidationResult.matches := [] |}, n).
Proof.
  intros Ht4 Ht5 Hrrsp Hdonation.
  unfold crossCheckDocument.
  destruct (ExtractedDocumentData.documentType extracted); try contradiction; reflexivity.
Qed.

(** *** Scoring employment slips *)

(** The loop keeps the running maximum of the scores. *)
Lemma findMatchingT4_score_from (extractedData : gmap string FieldValue)
      (t4Slips : list T4Slip.t) (bestMatch : option T4Slip.t) (bestScore : Z) :
  (fold_left
     (fun '(bestMatch, bestScore) slip =>
        let score := t4Score extractedData slip in
        if (bestScore <? score)%Z then (Some slip, score) else (bestMatch, bestScore))
     t4Slips (bestMatch, bestScore)).2
  = fold_left Z.max (map (t4Score extractedData) t4Slips) bestScore.
Proof.
  revert bestMatch bestScore.
  induction t4Slips as [|slip rest IH]; intros bestMatch bestScore; [reflexivity|].
  cbn [fold_left map]. cbv zeta.
  destruct (Z.ltb_spec bestScore (t4Score extractedData slip)).
  - rewrite IH. f_equal. lia.
  - rewrite IH. f_equal. lia.
Qed.

Lemma findMatchingT4_score (extractedData : gmap string FieldValue)
      (t4Slips : list T4Slip.t) :
  (findMatchingT4 extractedData t4Slips).2
  = fold_left Z.max (map (t4Score extractedData) t4Slips) 0%Z.
Proof. apply findMatchingT4_score_from. Qed.

Lemma fold_max_below (bound : Z) (scores : list Z) (start : Z) :
  (start < bound)%Z -> Forall (fun score => (score < bound)%Z) scores ->
  (fold_left Z.max scores start < bound)%Z.
Proof.
  intros Hstart Hall. revert start Hstart.
  induction Hall as [|score scores Hscore _ IH]; intros start Hstart; [exact Hstart|].
  cbn [fold_left]. apply IH. lia.
Qed.

Lemma fold_max_reaches (bound : Z) (scores : list Z) (start : Z) :
  Exists (fun score => (bound <= score)%Z) scores ->
  (bound <= fold_left Z.max scores start)%Z.
Proof.
  assert (Hmono : forall l s, (s <= fold_left Z.max l s)%Z).
  { induction l as [|x l IHl]; intros s; cbn [fold_left]; [lia|].
    specialize (IHl (Z.max s x)). lia. }
  intros Hex. revert start.
  induction Hex as [score scores Hscore|score scores _ IH]; intros start; cbn [fold_left].
  - specialize (Hmono scores (Z.max start score)). lia.
  - apply IH.
Qed.

Lemma fold_max_reached (bound : Z) (scores : list Z) (start : Z) :
  (bound <= fold_left Z.max scores start)%Z ->
  (bound <= start)%Z \/ Exists (fun score => (bound <= score)%Z) scores.
Proof.
  revert start. induction scores as [|score scores IH]; intros start; cbn [fold_left].
  - auto.
  - intros Hbest. apply IH in Hbest as [Hmax|Hex].
    + destruct (Z.max_spec start score) as [[_ Heq]|[_ Heq]]; rewrite Heq in Hmax.
      * right. now constructor.
      * now left.
    + right. now constructor 2.
Qed.

(** The best score reaches 3 exactly when some slip's score does. *)
Lemma findMatchingT4_confident (extractedData : gmap string FieldValue)
      (t4Slips : list T4Slip.t) :
  (3 <= (findMatchingT4 extractedData t4Slips).2)%Z
  <-> Exists (fun slip => (3 <= t4Score extractedData slip)%Z) t4Slips.
Proof.
  rewrite findMatchingT4_score. split.
  - intros Hbest. apply fold_max_reached in Hbest as [Hstart|Hex]; [lia|].
    rewrite Exists_map in Hex. exact Hex.
  - intros Hex. apply fold_max_reaches. rewrite Exists_map. exact Hex.
Qed.

Lemma find_none_iff {A : Type} (p : A -> bool) (xs : list A) :
  find p xs = None <-> Forall (fun x => p x = false) xs.
Proof.
  induction xs as [|x xs IH]; cbn [find].
  - split; [constructor | reflexivity].
  - destruct (p x) eqn:E.
    + split; [discriminate | intros Hall; inversion Hall; congruence].
    + rewrite IH. split; [now constructor | intros Hall; now inversion Hall].
Qed.
End CrossCheckFacts.

(** *** New employment records *)

(** C4, as the code has it.  For an extracted employment document whose
    income is present, when no employment slip of the filing scores 3 or
    more and none has a matching income: if the filing has at least one
    employment slip, the cross-check emits exactly one suggestion, of type
    info and low priority, titled "New T4 Detected" and offering "Add T4";
    if the filing has no employment slip it emits nothing. *)
Theorem crossCheckDocument_new_T4 `{Host} (extracted : ExtractedDocumentData.t)
        (filing : TaxFiling.t) (n : nat) :
  let fields := ExtractedDocumentData.fields extracted in
  let extractedIncome := Number_or_0 (fields !! "employmentIncome") in
  let t4Slips := IncomeData.t4Slips (TaxFiling.income filing) in
  let discrepancies :=
    ValidationResult.discrepancies (crossCheckDocument extracted filing n).1 in
  ExtractedDocumentData.documentType extracted = t4 ->
  0 < extractedIncome ->
  Forall (fun slip => (t4Score fields slip < 3)%Z) t4Slips ->
  Forall (fun slip => valuesMatch extractedIncome (T4Slip.employmentIncome slip) = false)
         t4Slips ->
  (t4Slips <> [] ->
   exists suggestion,
     discrepancies = [suggestion]
     /\ TaxSuggestion.type suggestion = info
     /\ TaxSuggestion.priority suggestion = low
     /\ TaxSuggestion.title suggestion = "New T4 Detected"
     /\ TaxSuggestion.actionLabel suggestion = Some "Add T4"
     /\ TaxSuggestion.id suggestion = uuid n)
  /\ (t4Slips = [] -> discrepancies = []).
Proof.
  cbv zeta. intros Htype Hincome Hscores Hunlike.
  rewrite (crossCheckDocument_t4 _ _ _ Htype).
  set (fields := ExtractedDocumentData.fields extracted) in *.
  set (t4Slips := IncomeData.t4Slips (TaxFiling.income filing)) in *.
  assert (Hbest : (3 <=? (findMatchingT4 fields t4Slips).2)%Z = false).
  { apply Z.leb_gt. rewrite findMatchingT4_score.
    apply fold_max_below; [lia|]. now rewrite Forall_map. }
  unfold validateT4. fold fields. fold t4Slips.
  destruct (findMatchingT4 fields t4Slips) as [matchedSlip matchScore].
  cbn [snd] in Hbest. rewrite Hbest.
  destruct (Qltb_spec 0 (Number_or_0 (fields !! "employmentIncome"))) as [_|Hno];
    [|contradiction].
  apply find_none_iff in Hunlike. rewrite Hunlike.
  split.
  - intros Hsome. destruct t4Slips as [|slip rest]; [contradiction|].
    cbn [length Nat.ltb Nat.leb andb]. eexists. repeat split.
  - intros Hnone. rewrite Hnone. reflexivity.
Qed.

Lemma crossCheckDocument_new_T4_witness :
  exists suggestion,
    ValidationResult.discrepancies
      (crossCheckDocument (t4Document "Globex" 72000 11000) (filingWithT4 50000 8000) 0%nat).1
    = [suggestion]
    /\ TaxSuggestion.type suggestion = info
    /\ TaxSuggestion.priority suggestion = low
    /\ TaxSuggestion.title suggestion = "New T4 Detected"
    /\ TaxSuggestion.actionLabel suggestion = Some "Add T4"
    /\ TaxSuggestion.id suggestion = uuid 0%nat.
Proof.
  apply (crossCheckDocument_new_T4 (t4Document "Globex" 72000 11000)
                                   (filingWithT4 50000 8000) 0%nat).
  - reflexivity.
  - vm_compute. reflexivity.
  - repeat constructor.
  - repeat constructor.
  - discriminate.
Defined.

(** C4, as stated, fails on a filing without employment slips: the
    extracted income is present, no slip scores 3 or matches the income
    (there is none), and the cross-check emits no suggestion at all. *)
Lemma crossCheckDocument_new_T4_needs_a_slip :
  let extracted := t4Document "Acme Corp" 50000 8500 in
  let fields := ExtractedDocumentData.fields extracted in
  let extractedIncome := Number_or_0 (fields !! "employmentIncome") in
  let t4Slips := IncomeData.t4Slips (TaxFiling.income emptyFiling) in
  ExtractedDocumentData.documentType extracted = t4
  /\ 0 < extractedIncome
  /\ Forall (fun slip => (t4Score fields slip < 3)%Z) t4Slips
  /\ Forall (fun slip => valuesMatch extractedIncome (T4Slip.employmentIncome slip) = false)
            t4Slips
  /\ ValidationResult.discrepancies (crossCheckDocument extracted emptyFiling 0%nat).1 = [].
Proof.
  cbv zeta. repeat split; try constructor.
Qed.

Lemma crossCheckDocument_other_types_witness :
  crossCheckDocument
    {| ExtractedDocumentData.documentType := t4a;
       ExtractedDocumentData.fields := <[ "pensionIncome" := VNum 12000 ]> ∅;
       ExtractedDocumentData.documentName := None |}
    emptyFiling 0%nat
  = ({| ValidationResult.isValid := true;
        ValidationResult.discrepancies := [];
        ValidationResult.matches := [] |}, 0%nat).
Proof.
  apply crossCheckDocument_other_types; discriminate.
Defined.

(** The cross-check scenario of the specification: the names agree by
    containment (+3), the incomes match (+2), the withheld tax does not, and
    the single suggestion is a validation error. *)
Example crossCheckDocument_mismatch :
  let result := (crossCheckDocument (t4Document "Acme Corp" 50000 8500)
                                    (filingWithT4 50000 8000) 0%nat).1 in
  ValidationResult.isValid result = false
  /\ map TaxSuggestion.title (ValidationResult.discrepancies result)
     = ["T4 Data Mismatch Detected"]
  /\ map TaxSuggestion.description (ValidationResult.discrepancies result)
     = ["The uploaded document (t4-2024.pdf) doesn't match your entered T4 for Acme Corporation:"
        ++ nl_bullet
        ++ "Tax deducted: Document shows $8,500, you entered $8,000 (difference: $500)"].
Proof. vm_compute. repeat split. Qed.

(** ** Cross-checking all documents *)

Section Deduplication.
Context `{Host}.
Local Open Scope list_scope.

Lemma collectSuggestions_concat (extractedDocuments : list ExtractedDocumentData.t)
      (filing : TaxFiling.t) (allSuggestions : list TaxSuggestion.t) (n : nat) :
  collectSuggestions extractedDocuments filing allSuggestions n
  = (allSuggestions ++ (perDocumentSuggestions extractedDocuments filing n).1,
     (perDocumentSuggestions extractedDocuments filing n).2).
Proof.
  revert allSuggestions n.
  induction extractedDocuments as [|doc rest IH]; intros allSuggestions n.
  - cbn. now rewrite app_nil_r.
  - cbn [collectSuggestions perDocumentSuggestions]. unfold bind, ret.
    destruct (crossCheckDocument doc filing n) as [result n'].
    rewrite IH.
    destruct (perDocumentSuggestions rest filing n') as [later n''].
    cbn [fst snd]. now rewrite app_assoc.
Qed.

(** The set of seen titles and the list of suggestions already passed
    describe the same titles. *)
Lemma filterSeen_keepFirstAfter (seen : gset string) (before suggestions : list TaxSuggestion.t) :
  (forall title, title ∈ seen <-> title ∈ map TaxSuggestion.title before) ->
  filterSeen seen suggestions = keepFirstAfter before suggestions.
Proof.
  revert seen before.
  induction suggestions as [|s rest IH]; intros seen before Hseen; [reflexivity|].
  cbn [filterSeen keepFirstAfter].
  assert (Hiff := Hseen (TaxSuggestion.title s)).
  do 2 case_bool_decide; try tauto; cbn [app]; [|f_equal]; apply IH; intros title;
    rewrite map_app, elem_of_app; cbn [map]; rewrite list_elem_of_singleton;
    specialize (Hseen title).
  - split; [tauto | intros [?| ->]; tauto].
  - rewrite elem_of_union, elem_of_singleton. tauto.
Qed.

Lemma keepFirstAfter_titles (before suggestions : list TaxSuggestion.t) (title : string) :
  title ∈ map TaxSuggestion.title (keepFirstAfter before suggestions)
  <-> title ∈ map TaxSuggestion.title suggestions
      /\ title ∉ map TaxSuggestion.title before.
Proof.
  revert before.
  induction suggestions as [|s rest IH]; intros before; cbn [keepFirstAfter map].
  - split; [intros Hin; inversion Hin | intros [Hin _]; inversion Hin].
  - rewrite map_app, elem_of_app, IH, map_app, elem_of_app. cbn [map].
    rewrite list_elem_of_singleton, elem_of_cons.
    destruct (decide (title = TaxSuggestion.title s)) as [->|Hne].
    + case_bool_decide as Hin; cbn [map].
      * rewrite elem_of_nil. tauto.
      * rewrite list_elem_of_singleton. tauto.
    + case_bool_decide as Hin; cbn [map].
      * rewrite elem_of_nil. tauto.
      * rewrite list_elem_of_singleton. tauto.
Qed.

Lemma keepFirstAfter_NoDup (before suggestions : list TaxSuggestion.t) :
  NoDup (map TaxSuggestion.title (keepFirstAfter before suggestions)).
Proof.
  revert before.
  induction suggestions as [|s rest IH]; intros before; cbn [keepFirstAfter map].
  - constructor.
  - case_bool_decide; cbn [app map]; [apply IH|].
    constructor; [|apply IH].
    rewrite keepFirstAfter_titles, map_app, elem_of_app. cbn [map].
    rewrite list_elem_of_singleton. tauto.
Qed.

Lemma keepFirstAfter_sublist (before suggestions : list TaxSuggestion.t) :
  sublist (keepFirstAfter before suggestions) suggestions.
Proof.
  revert before.
  induction suggestions as [|s rest IH]; intros before; cbn [keepFirstAfter].
  - constructor.
  - case_bool_decide; cbn [app]; [apply sublist_cons | apply sublist_skip]; apply IH.
Qed.

Lemma countTitle_absent (title : string) (suggestions : list TaxSuggestion.t) :
  title ∉ map TaxSuggestion.title suggestions -> countTitle title suggestions = 0%nat.
Proof.
  unfold countTitle.
  induction suggestions as [|s rest IH]; cbn [List.filter map]; [reflexivity|].
  rewrite not_elem_of_cons. intros [Hne Hrest].
  destruct (String.eqb_spec (TaxSuggestion.title s) title); [congruence | now apply IH].
Qed.

Lemma countTitle_NoDup (title : string) (suggestions : list TaxSuggestion.t) :
  NoDup (map TaxSuggestion.title suggestions) ->
  title ∈ map TaxSuggestion.title suggestions ->
  countTitle title suggestions = 1%nat.
Proof.
  induction suggestions as [|s rest IH]; cbn [map]; intros Hnodup Hin.
  - inversion Hin.
  - apply NoDup_cons in Hnodup as [Hfresh Hnodup].
    unfold countTitle. cbn [List.filter].
    destruct (String.eqb_spec (TaxSuggestion.title s) title) as [<-|Hne].
    + cbn [length]. f_equal. now apply countTitle_absent.
    + apply elem_of_cons in Hin as [?|Hin]; [congruence|]. now apply IH.
Qed.
End Deduplication.

Section ValidateAll.
Context `{Host}.
Local Open Scope list_scope.

(** Decide every test a validator branches on; none of them reads the
    identifier source. *)
Ltac validator_branches :=
  repeat match goal with
         | |- context [if ?c then _ else _] => destruct c
         | |- context [match ?x with Some _ => _ | None => _ end] => destruct x
         end.

(** Which titles a document produces does not depend on the identifiers
    drawn. *)
Lemma crossCheckDocument_titles (doc : ExtractedDocumentData.t) (filing : TaxFiling.t)
      (n m : nat) :
  map TaxSuggestion.title (ValidationResult.discrepancies (crossCheckDocument doc filing n).1)
  = map TaxSuggestion.title (ValidationResult.discrepancies (crossCheckDocument doc filing m).1).
Proof.
  unfold crossCheckDocument.
  destruct (ExtractedDocumentData.documentType doc); try reflexivity.
  - unfold validateT4.
    destruct (findMatchingT4 _ _) as [matchedSlip matchScore].
    validator_branches; reflexivity.
  - unfold validateT5. validator_branches; reflexivity.
  - unfold validateRRSP. validator_branches; reflexivity.
  - unfold validateDonation. validator_branches; reflexivity.
Qed.

Lemma perDocumentSuggestions_titles (extractedDocuments : list ExtractedDocumentData.t)
      (filing : TaxFiling.t) (n : nat) (doc : ExtractedDocumentData.t) (m : nat)
      (title : string) :
  doc ∈ extractedDocuments ->
  title ∈ map TaxSuggestion.title
            (ValidationResult.discrepancies (crossCheckDocument doc filing m).1) ->
  title ∈ map TaxSuggestion.title (perDocumentSuggestions extractedDocuments filing n).1.
Proof.
  intros Hdoc Htitle. revert n.
  induction Hdoc as [doc rest|doc other rest _ IH]; intros n;
    cbn [perDocumentSuggestions]; unfold bind, ret.
  - rewrite (crossCheckDocument_titles doc filing m n) in Htitle.
    destruct (crossCheckDocument doc filing n) as [result n'].
    destruct (perDocumentSuggestions rest filing n') as [later n''].
    cbn [fst] in *. rewrite map_app, elem_of_app. now left.
  - specialize (IH Htitle).
    destruct (crossCheckDocument other filing n) as [result n'].
    specialize (IH n').
    destruct (perDocumentSuggestions rest filing n') as [later n''].
    cbn [fst] in *. rewrite map_app, elem_of_app. now right.
Qed.

(** C7.  [validateAllDocuments] returns the per-document suggestions,
    concatenated in document order, with only the first suggestion of each
    title kept: the result is an order-preserving sublist of the
    concatenation, no title occurs twice, and every title that some
    document produces occurs exactly once; in particular documents that
    each produce "RRSP Contribution Not Claimed" leave exactly one such
    suggestion. *)
Theorem validateAllDocuments_dedup (extractedDocuments : list ExtractedDocumentData.t)
        (filing : TaxFiling.t) (n : nat) :
  let all := (perDocumentSuggestions extractedDocuments filing n).1 in
  let result := (validateAllDocuments extractedDocuments filing n).1 in
  result = keepFirstByTitle all
  /\ sublist result all
  /\ NoDup (map TaxSuggestion.title result)
  /\ (forall doc m title,
        doc ∈ extractedDocuments ->
        title ∈ map TaxSuggestion.title
                  (ValidationResult.discrepancies (crossCheckDocument doc filing m).1) ->
        countTitle title result = 1%nat).
Proof.
  cbv zeta.
  assert (Hresult : (validateAllDocuments extractedDocuments filing n).1
                    = keepFirstByTitle (perDocumentSuggestions extractedDocuments filing n).1).
  { unfold validateAllDocuments, bind, ret. rewrite collectSuggestions_concat.
    cbn [fst app]. apply filterSeen_keepFirstAfter.
    intros title. cbn [map]. rewrite elem_of_nil, elem_of_empty. tauto. }
  rewrite Hresult. unfold keepFirstByTitle.
  split; [reflexivity|]. split; [apply keepFirstAfter_sublist|].
  split; [apply keepFirstAfter_NoDup|].
  intros doc m title Hdoc Htitle.
  apply countTitle_NoDup; [apply keepFirstAfter_NoDup|].
  apply keepFirstAfter_titles. split.
  - eapply perDocumentSuggestions_titles; eassumption.
  - cbn [map]. apply not_elem_of_nil.
Qed.
End ValidateAll.

Lemma validateAllDocuments_dedup_witness :
  countTitle "RRSP Contribution Not Claimed"
    (validateAllDocuments [rrspReceipt "rrsp-march.pdf" 5000; rrspReceipt "rrsp-june.pdf" 3000]
                          emptyFiling 0%nat).1
  = 1%nat.
Proof.
  destruct (validateAllDocuments_dedup
              [rrspReceipt "rrsp-march.pdf" 5000; rrspReceipt "rrsp-june.pdf" 3000]
              emptyFiling 0%nat) as (_ & _ & _ & Hcount).
  apply (Hcount (rrspReceipt "rrsp-june.pdf" 3000) 0%nat).
  - apply list_elem_of_In. right. left. reflexivity.
  - apply list_elem_of_In. left. reflexivity.
Defined.

(** The deduplication scenario of the specification, run: both receipts
    yield "RRSP Contribution Not Claimed", the first one's suggestion is
    the one returned. *)
Example validateAllDocuments_two_receipts :
  let docs := [rrspReceipt "rrsp-march.pdf" 5000; rrspReceipt "rrsp-june.pdf" 3000] in
  map TaxSuggestion.title (perDocumentSuggestions docs emptyFiling 0%nat).1
  = ["RRSP Contribution Not Claimed"; "RRSP Contribution Not Claimed"]
  /\ map (fun s => (TaxSuggestion.id s, TaxSuggestion.title s, TaxSuggestion.description s))
         (validateAllDocuments docs emptyFiling 0%nat).1
     = [("id-0", "RRSP Contribution Not Claimed",
         "You uploaded an RRSP receipt for $5,000 but haven't entered any RRSP contributions. Don't miss this deduction!")].
Proof. vm_compute. split; reflexivity. Qed.

(** * Further properties of the engine *)

(** ** The bracket schedules as functions of the taxable income *)

(** X1.  On a non-negative taxable income the federal tax lies between 15%
    of it less 0.05 and 33% of it, and the provincial tax between 5.05% of
    it less 0.023 and 13.16% of it: the effective rate stays between the
    lowest and the highest marginal rate, up to the rounding of the base
    amounts. *)
Theorem tax_between_marginal_rates (taxableIncome : Q) :
  0 <= taxableIncome ->
  (taxableIncome * 0.15 - 0.05 <= federalTax taxableIncome
   /\ federalTax taxableIncome <= taxableIncome * 0.33)
  /\ (taxableIncome * 0.0505 - 0.023 <= provincialTax taxableIncome
      /\ provincialTax taxableIncome <= taxableIncome * 0.1316).
Proof.
  intros Hpos. unfold federalTax, provincialTax. split; split; qcases; lra.
Qed.

Lemma tax_between_marginal_rates_witness :
  (70000 * 0.15 - 0.05 <= federalTax 70000 /\ federalTax 70000 <= 70000 * 0.33)
  /\ (70000 * 0.0505 - 0.023 <= provincialTax 70000
      /\ provincialTax 70000 <= 70000 * 0.1316).
Proof.
  apply (tax_between_marginal_rates 70000). vm_compute. discriminate.
Defined.

Lemma federalTax_drop_bound (a b : Q) :
  a <= b -> federalTax a <= federalTax b + 0.63.
Proof.
  intros Hab. unfold federalTax. qcases; lra.
Qed.

Lemma provincialTax_drop_bound (a b : Q) :
  a <= b -> provincialTax a <= provincialTax b + 1.0296.
Proof.
  intros Hab. unfold provincialTax. qcases; lra.
Qed.

(** X2.  Neither schedule is monotone, but nearly so: a higher taxable
    income never lowers the federal tax by more than 0.63 nor the provincial
    tax by more than 1.0296, and it does lower them across the boundaries
    246752 and 150000. *)
Theorem tax_monotone_up_to_rounding :
  (forall a b : Q, a <= b ->
     federalTax a <= federalTax b + 0.63
     /\ provincialTax a <= provincialTax b + 1.0296)
  /\ federalTax 246753 < federalTax 246752
  /\ provincialTax 150001 < provincialTax 150000.
Proof.
  split; [|split; vm_compute; reflexivity].
  intros a b Hab. split; [now apply federalTax_drop_bound | now apply provincialTax_drop_bound].
Qed.

Lemma tax_monotone_up_to_rounding_witness :
  federalTax 50000 <= federalTax 60000 + 0.63
  /\ provincialTax 50000 <= provincialTax 60000 + 1.0296.
Proof.
  apply (proj1 tax_monotone_up_to_rounding 50000 60000). vm_compute. discriminate.
Defined.

(** ** Securities, credits and the refund *)

Lemma sumQ_filter_zero {A : Type} (g : A -> Q) (keep : A -> bool) (xs : list A) :
  (forall x, keep x = false -> g x == 0) ->
  sumQ (map g (List.filter keep xs)) == sumQ (map g xs).
Proof.
  intros Hzero. induction xs as [|x xs IH]; cbn [List.filter map]; [reflexivity|].
  change (sumQ (g x :: map g xs)) with (g x + sumQ (map g xs)).
  destruct (keep x) eqn:Hkeep.
  - change (sumQ (map g (x :: List.filter keep xs)))
      with (g x + sumQ (map g (List.filter keep xs))).
    rewrite IH. reflexivity.
  - pose proof (Hzero x Hkeep). lra.
Qed.

Lemma t5008Gains_sum (income : IncomeData.t) :
  t5008Gains income
  == sumQ (map (fun slip => Math_max 0 (T5008Slip.proceeds slip - T5008Slip.costBase slip) * 0.5)
               (IncomeData.t5008Slips income)).
Proof.
  unfold t5008Gains.
  rewrite (reduce_sum _ (fun slip =>
             Math_max 0 (T5008Slip.proceeds slip - T5008Slip.costBase slip) * 0.5)).
  - lra.
  - intros; reflexivity.
Qed.

(** X3.  Securities dispositions never lower the total income: their
    contribution is non-negative whatever the slips hold, and it is the
    same as if every slip without a gain (proceeds not above cost base) had
    been left out, so a loss on one slip is not netted against the gain on
    another. *)
Theorem t5008Gains_ignore_losses (income withoutLosses : IncomeData.t) :
  IncomeData.t5008Slips withoutLosses
  = List.filter (fun slip => T5008Slip.costBase slip <? T5008Slip.proceeds slip)
                (IncomeData.t5008Slips income) ->
  0 <= t5008Gains income
  /\ t5008Gains withoutLosses == t5008Gains income.
Proof.
  intros Hkept. rewrite !t5008Gains_sum, Hkept. split.
  - apply sumQ_nonneg. rewrite Forall_map. apply Forall_forall. intros slip _.
    cbv beta. pose proof (Q.le_max_l 0 (T5008Slip.proceeds slip - T5008Slip.costBase slip)).
    unfold Math_max. lra.
  - apply sumQ_filter_zero. intros slip Hloss. cbv beta.
    destruct (Qltb_spec (T5008Slip.costBase slip) (T5008Slip.proceeds slip)) as [|Hle];
      [discriminate|].
    unfold Math_max. rewrite Q.max_l; lra.
Qed.

Lemma t5008Gains_ignore_losses_witness :
  let gain := T5008Slip.mk "s-1" "ACME common" 1500 1000 500 in
  let loss := T5008Slip.mk "s-2" "Globex common" 1000 4000 0 in
  0 <= t5008Gains (incomeWithT5008 [gain; loss])
  /\ t5008Gains (incomeWithT5008 [gain]) == t5008Gains (incomeWithT5008 [gain; loss]).
Proof.
  cbv zeta. apply t5008Gains_ignore_losses. reflexivity.
Defined.

Lemma donationCredits_sum (donations : list CharitableDonation.t) :
  donationCredits donations
  == sumQ (map (fun d => twoTierCredit (CharitableDonation.donationAmount d)) donations).
Proof.
  unfold donationCredits.
  rewrite (reduce_sum _ (fun d => twoTierCredit (CharitableDonation.donationAmount d))).
  - lra.
  - intros sum d. apply donation_step.
Qed.

Lemma twoTierCredit_cases (amount : Q) :
  (amount <= 200 /\ twoTierCredit amount == amount * 0.15)
  \/ (200 < amount /\ twoTierCredit amount == 30 + (amount - 200) * 0.29).
Proof.
  unfold twoTierCredit. destruct (Qlt_le_dec 200 amount) as [Hgt|Hle].
  - right. split; [assumption|]. rewrite (Q.min_r amount 200), (Q.max_r 0 (amount - 200)); lra.
  - left. split; [assumption|]. rewrite (Q.min_l amount 200), (Q.max_l 0 (amount - 200)); lra.
Qed.

Lemma twoTierCredit_superadditive (a b : Q) :
  0 <= a -> 0 <= b -> twoTierCredit a + twoTierCredit b <= twoTierCredit (a + b).
Proof.
  intros Ha Hb.
  destruct (twoTierCredit_cases a) as [[? ->]|[? ->]],
           (twoTierCredit_cases b) as [[? ->]|[? ->]],
           (twoTierCredit_cases (a + b)) as [[? ->]|[? ->]]; lra.
Qed.

(** X4.  Splitting the two-tier credit per donation record never gives more
    than applying it once to the year's total: for non-negative donation
    amounts the engine's donation credit is at most the two-tier credit of
    the summed amounts, and it can be strictly less (two records of 200
    earn 60 where the total of 400 would earn 88). *)
Theorem donationCredits_at_most_aggregate (donations : list CharitableDonation.t) :
  Forall (fun d => 0 <= CharitableDonation.donationAmount d) donations ->
  donationCredits donations
  <= twoTierCredit (sumQ (map CharitableDonation.donationAmount donations))
  /\ donationCredits [donation 200; donation 200] == 60
  /\ twoTierCredit (200 + 200) == 88.
Proof.
  intros Hnonneg. split; [|split; vm_compute; reflexivity].
  rewrite donationCredits_sum.
  induction Hnonneg as [|d rest Hd Hrest IH]; cbn [map sumQ fold_right].
  - vm_compute. discriminate.
  - fold (sumQ (map CharitableDonation.donationAmount rest)).
    fold (sumQ (map (fun d => twoTierCredit (CharitableDonation.donationAmount d)) rest)).
    assert (0 <= sumQ (map CharitableDonation.donationAmount rest)).
    { apply sumQ_nonneg. now rewrite Forall_map. }
    pose proof (twoTierCredit_superadditive (CharitableDonation.donationAmount d)
                  (sumQ (map CharitableDonation.donationAmount rest)) Hd ltac:(assumption)).
    lra.
Qed.

Lemma donationCredits_at_most_aggregate_witness :
  donationCredits [donation 150; donation 250]
  <= twoTierCredit (sumQ (map CharitableDonation.donationAmount [donation 150; donation 250])).
Proof.
  apply (donationCredits_at_most_aggregate [donation 150; donation 250]).
  repeat constructor; vm_compute; discriminate.
Defined.

Lemma tuitionCredits_nonneg (income : IncomeData.t) :
  Forall (fun slip => 0 <= T2202Slip.eligibleTuitionFees slip) (IncomeData.t2202Slips income) ->
  0 <= tuitionCredits income.
Proof.
  intros Hfees. unfold tuitionCredits.
  rewrite (reduce_sum _ (fun slip => T2202Slip.eligibleTuitionFees slip * 0.15));
    [|intros; reflexivity].
  assert (0 <= sumQ (map (fun slip => T2202Slip.eligibleTuitionFees slip * 0.15)
                         (IncomeData.t2202Slips income))); [|lra].
  apply sumQ_nonneg. rewrite Forall_map. eapply Forall_impl; [exact Hfees|].
  cbv beta. intros slip Hslip. lra.
Qed.

Lemma donationCredits_nonneg (donations : list CharitableDonation.t) :
  Forall (fun d => 0 <= CharitableDonation.donationAmount d) donations ->
  0 <= donationCredits donations.
Proof.
  intros Hnonneg. rewrite donationCredits_sum. apply sumQ_nonneg. rewrite Forall_map.
  eapply Forall_impl; [exact Hnonneg|]. cbv beta. intros d Hd.
  destruct (twoTierCredit_cases (CharitableDonation.donationAmount d)) as [[? ->]|[? ->]]; lra.
Qed.

(** X5.  The refund never exceeds the tax already paid.  When the taxable
    income is at most 11749 and no donation, tuition fee or student-loan
    interest is negative, the credits cover the whole tax: the total tax
    is zero and everything paid is refunded. *)
Theorem small_income_full_refund (filing : TaxFiling.t) :
  let income := TaxFiling.income filing in
  let deductions := TaxFiling.deductions filing in
  let s := calculateSummary (Some filing) in
  TaxSummary.refundOrOwing s <= TaxSummary.totalPaid s
  /\ (Forall (fun d => 0 <= CharitableDonation.donationAmount d)
             (Deductions.charitableDonations deductions) ->
      Forall (fun slip => 0 <= T2202Slip.eligibleTuitionFees slip)
             (IncomeData.t2202Slips income) ->
      0 <= Deductions.studentLoanInterest deductions ->
      TaxSummary.taxableIncome s <= 11749 ->
      TaxSummary.totalTax s == 0
      /\ TaxSummary.refundOrOwing s == TaxSummary.totalPaid s).
Proof.
  cbv zeta. summary_fields. split.
  - pose proof (Q.le_max_l 0 (federalTax (taxableIncome (TaxFiling.income filing)
                                                       (TaxFiling.deductions filing))
                              + provincialTax (taxableIncome (TaxFiling.income filing)
                                                             (TaxFiling.deductions filing))
                              - totalCredits (TaxFiling.income filing)
                                             (TaxFiling.deductions filing))).
    unfold Math_max. lra.
  - intros Hdonations Htuition Hloan Hsmall.
    set (ti := taxableIncome _ _) in *.
    assert (Hti : 0 <= ti) by apply Q.le_max_l.
    pose proof (donationCredits_nonneg _ Hdonations).
    pose proof (tuitionCredits_nonneg _ Htuition).
    assert (0 <= medicalCredits (TaxFiling.income filing) (TaxFiling.deductions filing))
      by apply Q.le_max_l.
    assert (Htax : federalTax ti + provincialTax ti
                   - totalCredits (TaxFiling.income filing) (TaxFiling.deductions filing) <= 0).
    { unfold totalCredits, basicPersonalCredit, basicPersonalAmount, studentLoanCredit.
      unfold federalTax, provincialTax. qcases; lra. }
    unfold Math_max. rewrite (Q.max_l _ _ Htax). split; lra.
Qed.

Lemma small_income_full_refund_witness :
  let s := calculateSummary (Some (filingWithT4 11000 900)) in
  TaxSummary.totalTax s == 0 /\ TaxSummary.refundOrOwing s == TaxSummary.totalPaid s.
Proof.
  apply (small_income_full_refund (filingWithT4 11000 900)).
  - constructor.
  - constructor.
  - vm_compute. discriminate.
  - vm_compute. discriminate.
Defined.

(** * Further properties of the cross-check *)

(** Decide every test a validator branches on. *)
Ltac decide_branches :=
  repeat match goal with
         | |- context [if ?c then _ else _] => destruct c
         | |- context [match ?x with Some _ => _ | None => _ end] => destruct x
         end.

Section CrossCheckMore.
Context `{Host}.
Local Open Scope list_scope.

(** X6.  Cross-checking one document emits at most one suggestion, and it
    draws an identifier exactly when it emits one: the suggestion then
    carries the identifier at the current position of the source, which
    advances by one. *)
Theorem crossCheckDocument_at_most_one (extracted : ExtractedDocumentData.t)
        (filing : TaxFiling.t) (n : nat) :
  let result := (crossCheckDocument extracted filing n).1 in
  let n' := (crossCheckDocument extracted filing n).2 in
  (ValidationResult.discrepancies result = [] /\ n' = n)
  \/ (exists suggestion,
        ValidationResult.discrepancies result = [suggestion]
        /\ TaxSuggestion.id suggestion = uuid n
        /\ n' = S n).
Proof.
  cbv zeta. unfold crossCheckDocument.
  destruct (ExtractedDocumentData.documentType extracted);
    try (left; split; reflexivity).
  - unfold validateT4. destruct (findMatchingT4 _ _) as [matchedSlip matchScore].
    decide_branches;
      solve [left; split; reflexivity | right; eexists; repeat split].
  - unfold validateT5.
    decide_branches;
      solve [left; split; reflexivity | right; eexists; repeat split].
  - unfold validateRRSP.
    decide_branches;
      solve [left; split; reflexivity | right; eexists; repeat split].
  - unfold validateDonation.
    decide_branches;
      solve [left; split; reflexivity | right; eexists; repeat split].
Qed.

(** X7.  Only an employment or investment document can make the cross-check
    fail: whenever [isValid] is false the document is a t4 or a t5 and the
    result holds exactly one suggestion, a high-priority validation error
    about mismatching data.  Receipts and all other documents always
    validate. *)
Theorem crossCheckDocument_invalid_only_on_mismatch (extracted : ExtractedDocumentData.t)
        (filing : TaxFiling.t) (n : nat) :
  let result := (crossCheckDocument extracted filing n).1 in
  ValidationResult.isValid result = false ->
  (ExtractedDocumentData.documentType extracted = t4
   \/ ExtractedDocumentData.documentType extracted = t5)
  /\ exists suggestion,
       ValidationResult.discrepancies result = [suggestion]
       /\ TaxSuggestion.type suggestion = validation_error
       /\ TaxSuggestion.priority suggestion = high
       /\ (TaxSuggestion.title suggestion = "T4 Data Mismatch Detected"
           \/ TaxSuggestion.title suggestion = "T5 Data Mismatch Detected").
Proof.
  cbv zeta. unfold crossCheckDocument.
  destruct (ExtractedDocumentData.documentType extracted); try discriminate.
  - unfold validateT4. destruct (findMatchingT4 _ _) as [matchedSlip matchScore].
    decide_branches; try discriminate; intros _;
      (split; [now left | eexists; repeat split; now left]).
  - unfold validateT5.
    decide_branches; try discriminate; intros _;
      (split; [now right | eexists; repeat split; now right]).
  - unfold validateRRSP. decide_branches; discriminate.
  - unfold validateDonation. decide_branches; discriminate.
Qed.
End CrossCheckMore.

Lemma crossCheckDocument_invalid_only_on_mismatch_witness :
  exists suggestion,
    ValidationResult.discrepancies
      (crossCheckDocument (t4Document "Acme Corp" 50000 8500) (filingWithT4 50000 8000) 0%nat).1
    = [suggestion]
    /\ TaxSuggestion.type suggestion = validation_error
    /\ TaxSuggestion.priority suggestion = high
    /\ (TaxSuggestion.title suggestion = "T4 Data Mismatch Detected"
        \/ TaxSuggestion.title suggestion = "T5 Data Mismatch Detected").
Proof.
  apply (crossCheckDocument_invalid_only_on_mismatch
           (t4Document "Acme Corp" 50000 8500) (filingWithT4 50000 8000) 0%nat).
  vm_compute. reflexivity.
Defined.

Section MatchingMore.
Context `{Host}.
Local Open Scope list_scope.

Lemma t4Score_values (extractedData : gmap string FieldValue) (slip : T4Slip.t) :
  In (t4Score extractedData slip) [0; 2; 3; 4; 5; 7]%Z.
Proof.
  unfold t4Score. cbv zeta. decide_branches; cbn; auto 10.
Qed.

Lemma t4Score_nonneg (extractedData : gmap string FieldValue) (slip : T4Slip.t) :
  (0 <= t4Score extractedData slip)%Z.
Proof.
  pose proof (t4Score_values extractedData slip) as Hin. cbn in Hin.
  destruct Hin as [<-|[<-|[<-|[<-|[<-|[<-|[]]]]]]]; lia.
Qed.

Lemma findMatchingT4_snoc (extractedData : gmap string FieldValue)
      (t4Slips : list T4Slip.t) (slip : T4Slip.t) :
  findMatchingT4 extractedData (t4Slips ++ [slip])
  = (if ((findMatchingT4 extractedData t4Slips).2 <? t4Score extractedData slip)%Z
     then (Some slip, t4Score extractedData slip)
     else findMatchingT4 extractedData t4Slips).
Proof.
  unfold findMatchingT4. rewrite fold_left_app. cbn [fold_left].
  destruct (fold_left _ t4Slips (None, 0%Z)) as [bestMatch bestScore]. reflexivity.
Qed.

(** X8.  [findMatchingT4] returns the first slip of highest score together
    with that score: every slip before it scores strictly less, no slip
    scores more, and the score is positive.  It returns no slip, with score
    0, exactly when every slip scores 0 (in particular on an empty list).
    A score is one of 0, 2, 3, 4, 5 and 7. *)
Theorem findMatchingT4_first_best (extractedData : gmap string FieldValue)
        (t4Slips : list T4Slip.t) :
  Forall (fun slip => In (t4Score extractedData slip) [0; 2; 3; 4; 5; 7]%Z) t4Slips
  /\ match findMatchingT4 extractedData t4Slips with
     | (Some slip, matchScore) =>
         t4Score extractedData slip = matchScore
         /\ (0 < matchScore)%Z
         /\ exists before after,
              t4Slips = before ++ slip :: after
              /\ Forall (fun other => (t4Score extractedData other < matchScore)%Z) before
              /\ Forall (fun other => (t4Score extractedData other <= matchScore)%Z) after
     | (None, matchScore) =>
         matchScore = 0%Z
         /\ Forall (fun other => t4Score extractedData other = 0%Z) t4Slips
     end.
Proof.
  split; [apply Forall_forall; intros slip _; apply t4Score_values|].
  induction t4Slips as [|slip t4Slips IH] using rev_ind.
  - cbn. split; [reflexivity | constructor].
  - rewrite findMatchingT4_snoc.
    destruct (findMatchingT4 extractedData t4Slips) as [[best|] bestScore]; cbn [snd].
    + destruct IH as (Hscore & Hpos & before & after & -> & Hbefore & Hafter).
      destruct (Z.ltb_spec bestScore (t4Score extractedData slip)) as [Hlt|Hge].
      * split; [reflexivity|]. split; [lia|].
        exists (before ++ best :: after), []. split; [reflexivity|]. split; [|constructor].
        rewrite Forall_app, Forall_cons. repeat split.
        -- eapply Forall_impl; [exact Hbefore|]. cbv beta. intros; lia.
        -- lia.
        -- eapply Forall_impl; [exact Hafter|]. cbv beta. intros; lia.
      * split; [exact Hscore|]. split; [exact Hpos|].
        exists before, (after ++ [slip]). split; [now rewrite <- app_assoc|].
        split; [exact Hbefore|]. rewrite Forall_app. split; [exact Hafter|].
        constructor; [lia | constructor].
    + destruct IH as (-> & Hzero).
      destruct (Z.ltb_spec 0 (t4Score extractedData slip)) as [Hlt|Hge].
      * split; [reflexivity|]. split; [lia|].
        exists t4Slips, []. split; [reflexivity|]. split; [|constructor].
        eapply Forall_impl; [exact Hzero|]. cbv beta. intros; lia.
      * split; [reflexivity|]. rewrite Forall_app. split; [exact Hzero|].
        constructor; [|constructor]. pose proof (t4Score_nonneg extractedData slip). lia.
Qed.
End MatchingMore.

Section ValidatorsMore.
Context `{Host}.
Local Open Scope list_scope.

Lemma find_first {A : Type} (p : A -> bool) (xs : list A) (x : A) :
  find p xs = Some x ->
  exists before after,
    xs = before ++ x :: after /\ Forall (fun y => p y = false) before /\ p x = true.
Proof.
  induction xs as [|y xs IH]; cbn [find]; [discriminate|].
  destruct (p y) eqn:Hy.
  - intros [= ->]. exists [], xs. repeat split; [constructor | exact Hy].
  - intros Hfind. destruct (IH Hfind) as (before & after & -> & Hbefore & Hx).
    exists (y :: before), after. repeat split; [now constructor | exact Hx].
Qed.

Lemma find_exists {A : Type} (p : A -> bool) (xs : list A) :
  Exists (fun x => p x = true) xs -> exists x, find p xs = Some x.
Proof.
  intros Hex. destruct (find p xs) as [x|] eqn:Hfind; [now exists x|].
  apply find_none_iff in Hfind. apply Exists_exists in Hex as (x & Hin & Hx).
  rewrite Forall_forall in Hfind. specialize (Hfind x Hin). congruence.
Qed.

Lemma crossCheckDocument_result (extracted : ExtractedDocumentData.t)
      (filing : TaxFiling.t) (n : nat) :
  let discrepancies := ValidationResult.discrepancies (crossCheckDocument extracted filing n).1 in
  (crossCheckDocument extracted filing n).1
  = {| ValidationResult.isValid :=
         (length (List.filter is_validation_error discrepancies) =? 0)%nat;
       ValidationResult.discrepancies := discrepancies;
       ValidationResult.matches := [] |}.
Proof.
  cbv zeta. unfold crossCheckDocument, bind, ret.
  destruct (match ExtractedDocumentData.documentType extracted with
            | t4 => validateT4 _ _ _
            | t5 => validateT5 _ _ _
            | rrsp_receipt => validateRRSP _ _ _
            | donation_receipt => validateDonation _ _ _
            | _ => fun n => ([], n)
            end n) as [discrepancies n'].
  reflexivity.
Qed.

(** X9.  The duplicate warning: for an employment document whose income is
    present, when no slip of the filing scores 3 or more but some slip's
    income matches the extracted income, the cross-check emits exactly one
    suggestion, a medium-priority warning titled "Possible Duplicate T4"
    that names the employer of the first slip with a matching income; the
    document still validates. *)
Theorem crossCheckDocument_possible_duplicate (extracted : ExtractedDocumentData.t)
        (filing : TaxFiling.t) (n : nat) :
  let fields := ExtractedDocumentData.fields extracted in
  let extractedIncome := Number_or_0 (fields !! "employmentIncome") in
  let t4Slips := IncomeData.t4Slips (TaxFiling.income filing) in
  let result := (crossCheckDocument extracted filing n).1 in
  ExtractedDocumentData.documentType extracted = t4 ->
  0 < extractedIncome ->
  Forall (fun slip => (t4Score fields slip < 3)%Z) t4Slips ->
  Exists (fun slip => valuesMatch extractedIncome (T4Slip.employmentIncome slip) = true)
         t4Slips ->
  exists suggestion similar before after,
    t4Slips = before ++ similar :: after
    /\ Forall (fun slip => valuesMatch extractedIncome (T4Slip.employmentIncome slip) = false)
              before
    /\ valuesMatch extractedIncome (T4Slip.employmentIncome similar) = true
    /\ ValidationResult.discrepancies result = [suggestion]
    /\ TaxSuggestion.type suggestion = warning
    /\ TaxSuggestion.priority suggestion = medium
    /\ TaxSuggestion.title suggestion = "Possible Duplicate T4"
    /\ TaxSuggestion.description suggestion
       = ("This T4 shows $" ++ toLocaleString extractedIncome
          ++ " in employment income, which matches an existing T4 from "
          ++ T4Slip.employerName similar
          ++ ". Please verify this isn't a duplicate entry.")%string
    /\ ValidationResult.isValid result = true.
Proof.
  cbv zeta. intros Htype Hincome Hscores Hlike.
  rewrite crossCheckDocument_result. cbn [ValidationResult.discrepancies ValidationResult.isValid].
  rewrite (crossCheckDocument_t4 _ _ _ Htype).
  set (fields := ExtractedDocumentData.fields extracted) in *.
  set (t4Slips := IncomeData.t4Slips (TaxFiling.income filing)) in *.
  assert (Hbest : (3 <=? (findMatchingT4 fields t4Slips).2)%Z = false).
  { apply Z.leb_gt. rewrite findMatchingT4_score.
    apply fold_max_below; [lia|]. now rewrite Forall_map. }
  unfold validateT4. fold fields. fold t4Slips.
  destruct (findMatchingT4 fields t4Slips) as [matchedSlip matchScore].
  cbn [snd] in Hbest. rewrite Hbest.
  destruct (Qltb_spec 0 (Number_or_0 (fields !! "employmentIncome"))) as [_|Hno];
    [|contradiction].
  destruct (find_exists _ _ Hlike) as [similar Hfind]. rewrite Hfind.
  destruct (find_first _ _ _ Hfind) as (before & after & Hsplit & Hbefore & Hsimilar).
  assert (Hlen : (0 <? length t4Slips)%nat = true).
  { rewrite Hsplit, length_app. cbn [length]. apply Nat.ltb_lt. lia. }
  rewrite Hlen. cbn [andb].
  eexists _, similar, before, after. repeat split; assumption.
Qed.
End ValidatorsMore.

Lemma crossCheckDocument_possible_duplicate_witness :
  exists suggestion,
    ValidationResult.discrepancies
      (crossCheckDocument (t4Document "Globex" 50000 0) (filingWithT4 50000 8000) 0%nat).1
    = [suggestion]
    /\ TaxSuggestion.title suggestion = "Possible Duplicate T4".
Proof.
  destruct (crossCheckDocument_possible_duplicate
              (t4Document "Globex" 50000 0) (filingWithT4 50000 8000) 0%nat)
    as (suggestion & similar & before & after & _ & _ & _ & Hd & _ & _ & Ht & _).
  - reflexivity.
  - vm_compute. reflexivity.
  - repeat constructor.
  - constructor. vm_compute. reflexivity.
  - exists suggestion. split; assumption.
Defined.

Section ValidatorsCases.
Context `{Host}.
Local Open Scope list_scope.


Lemma crossCheckDocument_rrsp (extracted : ExtractedDocumentData.t)
      (filing : TaxFiling.t) (n : nat) :
  ExtractedDocumentData.documentType extracted = rrsp_receipt ->
  ValidationResult.discrepancies (crossCheckDocument extracted filing n).1
  = (validateRRSP (ExtractedDocumentData.fields extracted) filing
                  (ExtractedDocumentData.documentName extracted) n).1.
Proof.
  intros Htype. unfold crossCheckDocument, bind, ret. rewrite Htype.
  destruct (validateRRSP _ _ _ n) as [discrepancies n']. reflexivity.
Qed.

Lemma crossCheckDocument_donation (extracted : ExtractedDocumentData.t)
      (filing : TaxFiling.t) (n : nat) :
  ExtractedDocumentData.documentType extracted = donation_receipt ->
  ValidationResult.discrepancies (crossCheckDocument extracted filing n).1
  = (validateDonation (ExtractedDocumentData.fields extracted) filing
                      (ExtractedDocumentData.documentName extracted) n).1.
Proof.
  intros Htype. unfold crossCheckDocument, bind, ret. rewrite Htype.
  destruct (validateDonation _ _ _ n) as [discrepancies n']. reflexivity.
Qed.

(** X10.  The confident match: when [findMatchingT4] returns a slip with a
    score of at least 3, the cross-check compares the extracted income, tax
    deducted, CPP contributions and EI premiums with that slip.  If every
    one of them that is present (> 0) matches, it emits nothing and the
    document validates; otherwise it emits exactly one high-priority
    validation error titled "T4 Data Mismatch Detected" and the document
    does not validate. *)
Theorem crossCheckDocument_confident_match (extracted : ExtractedDocumentData.t)
        (filing : TaxFiling.t) (n : nat) (matchedSlip : T4Slip.t) (matchScore : Z) :
  let fields := ExtractedDocumentData.fields extracted in
  let t4Slips := IncomeData.t4Slips (TaxFiling.income filing) in
  let result := (crossCheckDocument extracted filing n).1 in
  let differs (field : string) (entered : Q) :=
    (0 <? Number_or_0 (fields !! field))
    && negb (valuesMatch (Number_or_0 (fields !! field)) entered) in
  ExtractedDocumentData.documentType extracted = t4 ->
  findMatchingT4 fields t4Slips = (Some matchedSlip, matchScore) ->
  (3 <= matchScore)%Z ->
  if differs "employmentIncome" (T4Slip.employmentIncome matchedSlip)
     || differs "incomeTaxDeducted" (T4Slip.incomeTaxDeducted matchedSlip)
     || differs "cppContributions" (T4Slip.cppContributions matchedSlip)
     || differs "eiPremiums" (T4Slip.eiPremiums matchedSlip)
  then ValidationResult.isValid result = false
       /\ exists suggestion,
            ValidationResult.discrepancies result = [suggestion]
            /\ TaxSuggestion.type suggestion = validation_error
            /\ TaxSuggestion.priority suggestion = high
            /\ TaxSuggestion.title suggestion = "T4 Data Mismatch Detected"
  else ValidationResult.isValid result = true
       /\ ValidationResult.discrepancies result = [].
Proof.
  cbv zeta. intros Htype Hfind Hscore.
  rewrite crossCheckDocument_result.
  cbn [ValidationResult.discrepancies ValidationResult.isValid].
  rewrite (crossCheckDocument_t4 _ _ _ Htype).
  unfold validateT4. rewrite Hfind.
  assert (Hconfident : (3 <=? matchScore)%Z = true) by now apply Z.leb_le.
  rewrite Hconfident.
  set (fields := ExtractedDocumentData.fields extracted).
  destruct ((0 <? Number_or_0 (fields !! "employmentIncome"))
            && negb (valuesMatch (Number_or_0 (fields !! "employmentIncome"))
                                 (T4Slip.employmentIncome matchedSlip)));
    destruct ((0 <? Number_or_0 (fields !! "incomeTaxDeducted"))
              && negb (valuesMatch (Number_or_0 (fields !! "incomeTaxDeducted"))
                                   (T4Slip.incomeTaxDeducted matchedSlip)));
    destruct ((0 <? Number_or_0 (fields !! "cppContributions"))
              && negb (valuesMatch (Number_or_0 (fields !! "cppContributions"))
                                   (T4Slip.cppContributions matchedSlip)));
    destruct ((0 <? Number_or_0 (fields !! "eiPremiums"))
              && negb (valuesMatch (Number_or_0 (fields !! "eiPremiums"))
                                   (T4Slip.eiPremiums matchedSlip)));
    cbn [orb push_if app length Nat.ltb Nat.leb];
    first [ split; [reflexivity | eexists; repeat split] | split; reflexivity ].
Qed.

(** X11.  Retirement-contribution receipts.  A receipt without an amount, or
    whose amount matches an entered contribution, yields nothing.  An
    unmatched amount yields exactly one suggestion whose estimated impact is
    a quarter of the amount: "RRSP Contribution Not Claimed" (missing
    deduction, high priority) when the entered contributions sum to zero,
    "Additional RRSP Contribution Found" (info, medium priority) when they
    sum to more than zero; it yields nothing when they sum to less than
    zero. *)
Theorem crossCheckDocument_rrsp_receipt (extracted : ExtractedDocumentData.t)
        (filing : TaxFiling.t) (n : nat) :
  let amount :=
    Number_or_0 (ExtractedDocumentData.fields extracted !! "contributionAmount") in
  let contributions := Deductions.rrspContributions (TaxFiling.deductions filing) in
  let totalEntered := rrspDeductions (TaxFiling.deductions filing) in
  let matched :=
    Exists (fun c => valuesMatch amount (RRSPContribution.contributionAmount c) = true)
           contributions in
  let discrepancies :=
    ValidationResult.discrepancies (crossCheckDocument extracted filing n).1 in
  ExtractedDocumentData.documentType extracted = rrsp_receipt ->
  (amount == 0 \/ matched \/ totalEntered < 0 -> discrepancies = [])
  /\ (~ amount == 0 -> ~ matched -> totalEntered == 0 ->
      exists suggestion,
        discrepancies = [suggestion]
        /\ TaxSuggestion.type suggestion = missing_deduction
        /\ TaxSuggestion.priority suggestion = high
        /\ TaxSuggestion.title suggestion = "RRSP Contribution Not Claimed"
        /\ TaxSuggestion.estimatedImpact suggestion = Some (amount * 0.25))
  /\ (~ amount == 0 -> ~ matched -> 0 < totalEntered ->
      exists suggestion,
        discrepancies = [suggestion]
        /\ TaxSuggestion.type suggestion = info
        /\ TaxSuggestion.priority suggestion = medium
        /\ TaxSuggestion.title suggestion = "Additional RRSP Contribution Found"
        /\ TaxSuggestion.estimatedImpact suggestion = Some (amount * 0.25)).
Proof.
  cbv zeta. intros Htype. rewrite (crossCheckDocument_rrsp _ _ _ Htype).
  unfold validateRRSP, rrspDeductions.
  set (amount := Number_or_0 _).
  set (contributions := Deductions.rrspContributions _).
  set (totalEntered := reduce _ 0 contributions).
  destruct (Qeqb_spec amount 0) as [Hzero|Hamount].
  { split; [reflexivity|]. split; intros; contradiction. }
  destruct (find _ contributions) as [c|] eqn:Hfind.
  - assert (Hmatched : Exists (fun c => valuesMatch amount
                                 (RRSPContribution.contributionAmount c) = true) contributions).
    { apply find_first in Hfind as (before & after & -> & _ & Hc).
      apply Exists_app. right. now constructor. }
    cbn [negb andb]. replace (bool_decide (is_Some (Some c))) with true by reflexivity.
    cbn [negb andb]. split; [reflexivity|]. split; intros; contradiction.
  - assert (Hunmatched : ~ Exists (fun c => valuesMatch amount
                                     (RRSPContribution.contributionAmount c) = true)
                           contributions).
    { intros Hex. apply find_exists in Hex as [c Hc].
      rewrite Hfind in Hc. discriminate. }
    replace (bool_decide (is_Some (@None RRSPContribution.t))) with false by reflexivity.
    cbn [negb andb].
    destruct (Qltb_spec 0 totalEntered) as [Hpos|Hnotpos].
    + split; [intros [?|[?|?]]; [contradiction | contradiction | lra]|].
      split; [intros _ _ Heq; lra|].
      intros _ _ _. eexists. repeat split.
    + destruct (Qeqb_spec totalEntered 0) as [Hnone|Hneg].
      * split; [intros [?|[?|?]]; [contradiction | contradiction | lra]|].
        split; [|intros _ _ ?; lra].
        intros _ _ _. eexists. repeat split.
      * split; [reflexivity|]. split; [intros _ _ ?; contradiction | intros _ _ ?; lra].
Qed.

(** X12.  Donation receipts.  A donation receipt yields a suggestion, the
    high-priority missing deduction "Donation Not Claimed", exactly when
    its amount is present, matches no entered donation and the entered
    donations sum to zero.  Once the entered donations sum to anything but
    zero, no donation receipt yields a suggestion. *)
Theorem crossCheckDocument_donation_receipt (extracted : ExtractedDocumentData.t)
        (filing : TaxFiling.t) (n : nat) :
  let amount :=
    Number_or_0 (ExtractedDocumentData.fields extracted !! "donationAmount") in
  let donations := Deductions.charitableDonations (TaxFiling.deductions filing) in
  let totalEntered :=
    sumQ (map CharitableDonation.donationAmount donations) in
  let matched :=
    Exists (fun d => valuesMatch amount (CharitableDonation.donationAmount d) = true)
           donations in
  let discrepancies :=
    ValidationResult.discrepancies (crossCheckDocument extracted filing n).1 in
  ExtractedDocumentData.documentType extracted = donation_receipt ->
  (amount == 0 \/ matched \/ ~ totalEntered == 0 -> discrepancies = [])
  /\ (~ amount == 0 -> ~ matched -> totalEntered == 0 ->
      exists suggestion,
        discrepancies = [suggestion]
        /\ TaxSuggestion.type suggestion = missing_deduction
        /\ TaxSuggestion.priority suggestion = high
        /\ TaxSuggestion.title suggestion = "Donation Not Claimed"
        /\ TaxSuggestion.estimatedImpact suggestion = None).
Proof.
  cbv zeta. intros Htype. rewrite (crossCheckDocument_donation _ _ _ Htype).
  unfold validateDonation.
  set (amount := Number_or_0 _).
  set (donations := Deductions.charitableDonations _).
  assert (Htotal : reduce (fun sum d => sum + CharitableDonation.donationAmount d) 0 donations
                   == sumQ (map CharitableDonation.donationAmount donations)).
  { rewrite (reduce_sum _ CharitableDonation.donationAmount); [lra | intros; reflexivity]. }
  set (totalEntered := reduce _ 0 donations) in *.
  destruct (Qeqb_spec amount 0) as [Hzero|Hamount].
  { split; [reflexivity | intros; contradiction]. }
  destruct (find _ donations) as [d|] eqn:Hfind.
  - assert (Hmatched : Exists (fun d => valuesMatch amount
                                 (CharitableDonation.donationAmount d) = true) donations).
    { apply find_first in Hfind as (before & after & -> & _ & Hd).
      apply Exists_app. right. now constructor. }
    replace (bool_decide (is_Some (Some d))) with true by reflexivity.
    cbn [negb andb]. split; [reflexivity | intros; contradiction].
  - assert (Hunmatched : ~ Exists (fun d => valuesMatch amount
                                     (CharitableDonation.donationAmount d) = true) donations).
    { intros Hex. apply find_exists in Hex as [d Hd].
      rewrite Hfind in Hd. discriminate. }
    replace (bool_decide (is_Some (@None CharitableDonation.t))) with false by reflexivity.
    cbn [negb andb].
    destruct (Qeqb_spec totalEntered 0) as [Hnone|Hsome].
    + split; [intros [?|[?|Hne]]; [contradiction | contradiction | ]|].
      * exfalso. apply Hne. rewrite <- Htotal. exact Hnone.
      * intros _ _ _. eexists. repeat split.
    + split; [reflexivity|]. intros _ _ Heq. exfalso. apply Hsome.
      rewrite Htotal. exact Heq.
Qed.
End ValidatorsCases.

Lemma crossCheckDocument_confident_match_witness :
  let result := (crossCheckDocument (t4Document "Acme Corp" 50000 8500)
                                    (filingWithT4 50000 8000) 0%nat).1 in
  ValidationResult.isValid result = false
  /\ exists suggestion,
       ValidationResult.discrepancies result = [suggestion]
       /\ TaxSuggestion.type suggestion = validation_error
       /\ TaxSuggestion.priority suggestion = high
       /\ TaxSuggestion.title suggestion = "T4 Data Mismatch Detected".
Proof.
  exact (crossCheckDocument_confident_match
           (t4Document "Acme Corp" 50000 8500) (filingWithT4 50000 8000) 0%nat
           (T4Slip.mk "slip-1" "Acme Corporation" EmptyString 50000 8000 0 0 0 0 0) 5%Z
           eq_refl eq_refl ltac:(discriminate)).
Defined.

Lemma crossCheckDocument_rrsp_receipt_witness :
  exists suggestion,
    ValidationResult.discrepancies
      (crossCheckDocument (rrspReceipt "rrsp-march.pdf" 5000) emptyFiling 0%nat).1
    = [suggestion]
    /\ TaxSuggestion.type suggestion = missing_deduction
    /\ TaxSuggestion.priority suggestion = high
    /\ TaxSuggestion.title suggestion = "RRSP Contribution Not Claimed"
    /\ TaxSuggestion.estimatedImpact suggestion = Some (5000 * 0.25).
Proof.
  destruct (crossCheckDocument_rrsp_receipt (rrspReceipt "rrsp-march.pdf" 5000)
              emptyFiling 0%nat eq_refl) as (_ & Hunclaimed & _).
  apply Hunclaimed.
  - vm_compute. discriminate.
  - intros Hmatched. inversion Hmatched.
  - reflexivity.
Defined.

Lemma crossCheckDocument_donation_receipt_witness :
  exists suggestion,
    ValidationResult.discrepancies
      (crossCheckDocument (donationReceipt 250) emptyFiling 0%nat).1
    = [suggestion]
    /\ TaxSuggestion.type suggestion = missing_deduction
    /\ TaxSuggestion.priority suggestion = high
    /\ TaxSuggestion.title suggestion = "Donation Not Claimed"
    /\ TaxSuggestion.estimatedImpact suggestion = None.
Proof.
  destruct (crossCheckDocument_donation_receipt (donationReceipt 250)
              emptyFiling 0%nat eq_refl) as (_ & Hunclaimed).
  apply Hunclaimed.
  - vm_compute. discriminate.
  - intros Hmatched. inversion Hmatched.
  - reflexivity.
Defined.

Section InvestmentSlips.
Context `{Host}.
Local Open Scope list_scope.

End InvestmentSlips.


Section ValidateAllMore.
Context `{Host}.
Local Open Scope list_scope.

Lemma crossCheckDocument_known_titles (doc : ExtractedDocumentData.t)
      (filing : TaxFiling.t) (n : nat) (title : string) :
  In title (map TaxSuggestion.title
              (ValidationResult.discrepancies (crossCheckDocument doc filing n).1)) ->
  In title (knownTitles filing).
Proof.
  unfold crossCheckDocument, knownTitles.
  destruct (ExtractedDocumentData.documentType doc); try (intros []).
  - unfold validateT4. destruct (findMatchingT4 _ _) as [matchedSlip matchScore].
    decide_branches; cbn; intros Hin; tauto.
  - unfold validateT5. decide_branches; cbn; intros Hin; tauto.
  - unfold validateRRSP, rrspDeductions.
    destruct (_ =? 0); [intros []|].
    destruct (negb _); cbn [andb]; [|intros []].
    destruct (0 <? _); [cbn; intros Hin; tauto|].
    destruct (_ =? 0); cbn; intros Hin; tauto.
  - unfold validateDonation. decide_branches; cbn; intros Hin; tauto.
Qed.

Lemma perDocumentSuggestions_app (docs extra : list ExtractedDocumentData.t)
      (filing : TaxFiling.t) (n : nat) :
  (perDocumentSuggestions (docs ++ extra) filing n).1
  = (perDocumentSuggestions docs filing n).1
    ++ (perDocumentSuggestions extra filing (perDocumentSuggestions docs filing n).2).1.
Proof.
  revert n. induction docs as [|doc docs IH]; intros n; [reflexivity|].
  cbn [app perDocumentSuggestions]. unfold bind, ret.
  destruct (crossCheckDocument doc filing n) as [result n'].
  specialize (IH n').
  destruct (perDocumentSuggestions (docs ++ extra) filing n') as [all n''].
  destruct (perDocumentSuggestions docs filing n') as [first n3].
  cbn [fst snd] in *. rewrite IH. now rewrite app_assoc.
Qed.

Lemma perDocumentSuggestions_origin (docs : list ExtractedDocumentData.t)
      (filing : TaxFiling.t) (n : nat) (title : string) :
  In title (map TaxSuggestion.title (perDocumentSuggestions docs filing n).1) ->
  exists doc m,
    In doc docs
    /\ In title (map TaxSuggestion.title
                   (ValidationResult.discrepancies (crossCheckDocument doc filing m).1)).
Proof.
  revert n. induction docs as [|doc docs IH]; intros n; [intros []|].
  cbn [perDocumentSuggestions]. unfold bind, ret.
  destruct (crossCheckDocument doc filing n) as [result n'] eqn:Hdoc.
  specialize (IH n').
  destruct (perDocumentSuggestions docs filing n') as [later n''].
  cbn [fst]. rewrite map_app, in_app_iff. intros [Hhere|Hlater].
  - exists doc, n. split; [now left|]. now rewrite Hdoc.
  - destruct (IH Hlater) as (other & m & Hin & Htitle).
    exists other, m. split; [now right | exact Htitle].
Qed.

Lemma keepFirstAfter_app (before first second : list TaxSuggestion.t) :
  keepFirstAfter before (first ++ second)
  = keepFirstAfter before first ++ keepFirstAfter (before ++ first) second.
Proof.
  revert before. induction first as [|s first IH]; intros before.
  - cbn. now rewrite app_nil_r.
  - cbn [app keepFirstAfter]. rewrite IH, <- !app_assoc. reflexivity.
Qed.

Lemma keepFirstAfter_all_seen (before suggestions : list TaxSuggestion.t) :
  (forall title, In title (map TaxSuggestion.title suggestions) ->
                 In title (map TaxSuggestion.title before)) ->
  keepFirstAfter before suggestions = [].
Proof.
  revert before. induction suggestions as [|s rest IH]; intros before Hseen; [reflexivity|].
  cbn [keepFirstAfter]. rewrite bool_decide_eq_true_2.
  - cbn [app]. apply IH. intros title Hin.
    rewrite map_app, in_app_iff. left. apply Hseen. now right.
  - apply list_elem_of_In. apply Hseen. now left.
Qed.

Lemma validateAllDocuments_keepFirst (docs : list ExtractedDocumentData.t)
      (filing : TaxFiling.t) (n : nat) :
  (validateAllDocuments docs filing n).1
  = keepFirstByTitle (perDocumentSuggestions docs filing n).1.
Proof.
  unfold validateAllDocuments, bind, ret. rewrite collectSuggestions_concat.
  cbn [fst app]. apply filterSeen_keepFirstAfter.
  intros title. cbn [map]. rewrite elem_of_nil, elem_of_empty. tauto.
Qed.

(** X14.  However many documents are checked, [validateAllDocuments]
    returns at most six suggestions, at most one of each title the
    cross-check can produce on the filing: a second document with
    mismatching data, a second new slip or a second unclaimed receipt is
    not reported. *)
Theorem validateAllDocuments_at_most_six (extractedDocuments : list ExtractedDocumentData.t)
        (filing : TaxFiling.t) (n : nat) :
  let result := (validateAllDocuments extractedDocuments filing n).1 in
  (length result <= 6)%nat
  /\ Forall (fun s => In (TaxSuggestion.title s) (knownTitles filing)) result
  /\ NoDup (map TaxSuggestion.title result).
Proof.
  cbv zeta. rewrite validateAllDocuments_keepFirst. unfold keepFirstByTitle.
  set (all := (perDocumentSuggestions extractedDocuments filing n).1).
  assert (Hknown : Forall (fun s => In (TaxSuggestion.title s) (knownTitles filing))
                          (keepFirstAfter [] all)).
  { apply Forall_forall. intros s Hs.
    assert (Htitle : TaxSuggestion.title s ∈ map TaxSuggestion.title (keepFirstAfter [] all)).
    { apply list_elem_of_In, in_map, list_elem_of_In, Hs. }
    apply keepFirstAfter_titles in Htitle as [Htitle _].
    apply list_elem_of_In, perDocumentSuggestions_origin in Htitle
      as (doc & m & _ & Htitle).
    eapply crossCheckDocument_known_titles. exact Htitle. }
  split; [|split; [exact Hknown | apply keepFirstAfter_NoDup]].
  rewrite <- (length_map TaxSuggestion.title).
  change 6%nat with (length (knownTitles filing)).
  apply NoDup_incl_length.
  - apply NoDup_ListNoDup, keepFirstAfter_NoDup.
  - intros title Hin. apply in_map_iff in Hin as (s & <- & Hs).
    rewrite Forall_forall in Hknown. now apply Hknown, list_elem_of_In.
Qed.

(** X15.  Checking again documents that are already in the list changes
    nothing: appending documents that all occur earlier leaves the result of
    [validateAllDocuments] as it was. *)
Theorem validateAllDocuments_repeated (extractedDocuments again : list ExtractedDocumentData.t)
        (filing : TaxFiling.t) (n : nat) :
  Forall (fun doc => In doc extractedDocuments) again ->
  (validateAllDocuments (extractedDocuments ++ again) filing n).1
  = (validateAllDocuments extractedDocuments filing n).1.
Proof.
  intros Hagain. rewrite !validateAllDocuments_keepFirst. unfold keepFirstByTitle.
  rewrite perDocumentSuggestions_app, keepFirstAfter_app.
  set (first := (perDocumentSuggestions extractedDocuments filing n).1).
  set (second := (perDocumentSuggestions again filing _).1).
  assert (Hseen : keepFirstAfter ([] ++ first) second = []); [|now rewrite Hseen, app_nil_r].
  apply keepFirstAfter_all_seen.
  intros title Htitle. cbn [app]. unfold first, second in *.
  apply perDocumentSuggestions_origin in Htitle as (doc & m & Hdoc & Htitle).
  rewrite Forall_forall in Hagain. apply list_elem_of_In, Hagain in Hdoc.
  apply list_elem_of_In.
  eapply perDocumentSuggestions_titles; apply list_elem_of_In; eassumption.
Qed.
End ValidateAllMore.

Lemma validateAllDocuments_repeated_witness :
  (validateAllDocuments
     ([rrspReceipt "rrsp-march.pdf" 5000; donationReceipt 250]
      ++ [donationReceipt 250; rrspReceipt "rrsp-march.pdf" 5000])
     emptyFiling 0%nat).1
  = (validateAllDocuments [rrspReceipt "rrsp-march.pdf" 5000; donationReceipt 250]
                          emptyFiling 0%nat).1.
Proof.
  apply validateAllDocuments_repeated.
  constructor; [right; left; reflexivity|].
  constructor; [left; reflexivity | constructor].
Defined.

Section Identifiers.
Context `{Host}.
Local Open Scope list_scope.




End Identifiers.


(** * Further properties of the submission transformer *)

Lemma sumQ_plus {A : Type} (f g : A -> Q) (xs : list A) :
  sumQ (map (fun x => f x + g x) xs) == sumQ (map f xs) + sumQ (map g xs).
Proof.
  induction xs as [|x xs IH]; [reflexivity|].
  change (sumQ (map (fun x => f x + g x) (x :: xs)))
    with (f x + g x + sumQ (map (fun x => f x + g x) xs)).
  change (sumQ (map f (x :: xs))) with (f x + sumQ (map f xs)).
  change (sumQ (map g (x :: xs))) with (g x + sumQ (map g xs)).
  rewrite IH. lra.
Qed.

(** X17.  The income categories of the submission request do not add up to
    the total income it reports.  The reported total exceeds employment,
    investment, self-employment and other income by exactly what the
    transformer leaves out: pension/other, benefits and retirement income,
    securities gains, the capital-gains dividends of investment slips and
    the other dividends and other income of trust slips. *)
Theorem transformFilingToNetfile_income_gap (filing : TaxFiling.t) :
  let income := TaxFiling.income filing in
  let request := transformFilingToNetfile filing (calculateSummary (Some filing)) in
  Netfile.totalIncome (Netfile.calculated request)
  == Netfile.totalEmploymentIncome (Netfile.income request)
     + Netfile.investmentIncome (Netfile.income request)
     + Netfile.selfEmploymentIncome (Netfile.income request)
     + Netfile.otherIncome (Netfile.income request)
     + (t4aIncome income + t4eIncome income + t4rspIncome income + t5008Gains income
        + sumQ (map T5Slip.capitalGainsDividends (IncomeData.t5Slips income))
        + sumQ (map (fun slip => T3Slip.otherDividends slip + T3Slip.otherIncome slip)
                    (IncomeData.t3Slips income))).
Proof.
  cbv zeta.
  cbn [transformFilingToNetfile Netfile.calculated Netfile.income Netfile.totalIncome
       Netfile.totalEmploymentIncome Netfile.investmentIncome Netfile.selfEmploymentIncome
       Netfile.otherIncome].
  summary_fields. unfold totalIncome, t4Income, t5Income, t3Income.
  set (income := TaxFiling.income filing).
  rewrite (reduce_sum
             (fun sum slip => sum + T5Slip.actualDividends slip
                              + T5Slip.interestFromCanadianSources slip
                              + T5Slip.capitalGainsDividends slip)
             (fun slip => T5Slip.actualDividends slip
                          + T5Slip.interestFromCanadianSources slip
                          + T5Slip.capitalGainsDividends slip))
    by (intros; lra).
  rewrite (reduce_sum
             (fun sum slip => sum + T5Slip.actualDividends slip
                              + T5Slip.interestFromCanadianSources slip)
             (fun slip => T5Slip.actualDividends slip
                          + T5Slip.interestFromCanadianSources slip))
    by (intros; lra).
  rewrite (reduce_sum
             (fun sum slip => sum + T3Slip.capitalGains slip * 0.5
                              + T3Slip.eligibleDividends slip
                              + T3Slip.otherDividends slip + T3Slip.otherIncome slip)
             (fun slip => T3Slip.capitalGains slip * 0.5 + T3Slip.eligibleDividends slip
                          + (T3Slip.otherDividends slip + T3Slip.otherIncome slip)))
    by (intros; lra).
  rewrite (reduce_sum
             (fun sum slip => sum + T3Slip.capitalGains slip * 0.5
                              + T3Slip.eligibleDividends slip)
             (fun slip => T3Slip.capitalGains slip * 0.5 + T3Slip.eligibleDividends slip))
    by (intros; lra).
  rewrite (sumQ_plus (fun slip => T5Slip.actualDividends slip
                                  + T5Slip.interestFromCanadianSources slip)
                     T5Slip.capitalGainsDividends).
  rewrite (sumQ_plus (fun slip => T3Slip.capitalGains slip * 0.5
                                  + T3Slip.eligibleDividends slip)
                     (fun slip => T3Slip.otherDividends slip + T3Slip.otherIncome slip)).
  lra.
Qed.

(** X18.  The net income of the submission request is the reported total
    income less the reported retirement contributions, childcare, moving
    and other deductions and less the home-office deduction, which the
    request does not carry; the union dues it carries are not deducted.
    The taxable income it reports is the net income floored at zero. *)
Theorem transformFilingToNetfile_net_income (filing : TaxFiling.t) :
  let request := transformFilingToNetfile filing (calculateSummary (Some filing)) in
  let calculated := Netfile.calculated request in
  let deductions := Netfile.deductions request in
  Netfile.netIncome calculated
  == Netfile.totalIncome calculated
     - (Netfile.rrspContributions deductions + Netfile.childcareExpenses deductions
        + Netfile.movingExpenses deductions + Netfile.otherDeductions deductions)
     - homeOfficeDeduction (TaxFiling.deductions filing)
  /\ Netfile.taxableIncome calculated = Math_max 0 (Netfile.netIncome calculated).
Proof.
  cbv zeta.
  cbn [transformFilingToNetfile Netfile.calculated Netfile.deductions Netfile.netIncome
       Netfile.totalIncome Netfile.taxableIncome Netfile.rrspContributions
       Netfile.childcareExpenses Netfile.movingExpenses Netfile.otherDeductions].
  summary_fields. split; [|reflexivity].
  unfold totalDeductions, rrspDeductions. lra.
Qed.

(** * Properties of the static suggestion rules *)

Section SortByPriority.
Local Open Scope list_scope.

Lemma sortInsert_first (x : TaxSuggestion.t) (sorted : list TaxSuggestion.t) :
  match sorted with [] => True | y :: _ => byPriority x y <= 0 end ->
  sortInsert byPriority x sorted = x :: sorted.
Proof.
  destruct sorted as [|y rest]; [reflexivity|]. cbn [sortInsert]. intros Hle.
  destruct (Qleb_spec (byPriority x y) 0); [reflexivity | contradiction].
Qed.

Lemma sortInsert_after (x : TaxSuggestion.t) (smaller rest : list TaxSuggestion.t) :
  Forall (fun y => 0 < byPriority x y) smaller ->
  sortInsert byPriority x (smaller ++ rest) = smaller ++ sortInsert byPriority x rest.
Proof.
  induction 1 as [|y smaller Hy _ IH]; [reflexivity|].
  cbn [app sortInsert]. destruct (Qleb_spec (byPriority x y) 0); [exfalso; lra|]. now rewrite IH.
Qed.

Lemma tier_cons (p : Priority) (s : TaxSuggestion.t) (rest : list TaxSuggestion.t) :
  tier p (s :: rest)
  = if match TaxSuggestion.priority s, p with
       | high, high | medium, medium | low, low => true
       | _, _ => false
       end
    then s :: tier p rest else tier p rest.
Proof. reflexivity. Qed.

Lemma tier_priority (p : Priority) (suggestions : list TaxSuggestion.t) :
  Forall (fun s => TaxSuggestion.priority s = p) (tier p suggestions).
Proof.
  apply Forall_forall. intros s Hs. apply list_elem_of_In, filter_In in Hs as [_ Hs].
  destruct (TaxSuggestion.priority s), p; congruence.
Qed.

Lemma Array_sort_tiers (suggestions : list TaxSuggestion.t) :
  Array_sort byPriority suggestions
  = tier high suggestions ++ tier medium suggestions ++ tier low suggestions.
Proof.
  induction suggestions as [|s rest IH]; [reflexivity|].
  unfold Array_sort in *. cbn [fold_right]. rewrite IH. unfold tier at 4 5 6.
  cbn [List.filter].
  pose proof (tier_priority high rest) as Hhigh.
  pose proof (tier_priority medium rest) as Hmedium.
  pose proof (tier_priority low rest) as Hlow.
  fold (tier high rest) (tier medium rest) (tier low rest).
  destruct (TaxSuggestion.priority s) eqn:Hp; cbn [app].
  - apply sortInsert_first.
    destruct (tier high rest ++ tier medium rest ++ tier low rest) as [|y ?]; [exact I|].
    unfold byPriority. rewrite Hp. destruct (TaxSuggestion.priority y); vm_compute; discriminate.
  - rewrite sortInsert_after.
    + f_equal. apply sortInsert_first.
      destruct (tier medium rest) as [|y ?] eqn:Hm; cbn [app].
      * destruct (tier low rest) as [|y ?]; [exact I|].
        apply Forall_cons in Hlow as [Hy _].
        unfold byPriority. rewrite Hp, Hy. vm_compute. discriminate.
      * apply Forall_cons in Hmedium as [Hy _].
        unfold byPriority. rewrite Hp, Hy. vm_compute. discriminate.
    + eapply Forall_impl; [exact Hhigh|]. cbv beta. intros y Hy.
      unfold byPriority. rewrite Hp, Hy. vm_compute. reflexivity.
  - rewrite sortInsert_after.
    + f_equal. rewrite sortInsert_after.
      * f_equal. apply sortInsert_first.
        destruct (tier low rest) as [|y ?]; [exact I|].
        apply Forall_cons in Hlow as [Hy _].
        unfold byPriority. rewrite Hp, Hy. vm_compute. discriminate.
      * eapply Forall_impl; [exact Hmedium|]. cbv beta. intros y Hy.
        unfold byPriority. rewrite Hp, Hy. vm_compute. reflexivity.
    + eapply Forall_impl; [exact Hhigh|]. cbv beta. intros y Hy.
      unfold byPriority. rewrite Hp, Hy. vm_compute. reflexivity.
Qed.
End SortByPriority.

Section StaticRulesFacts.
Context `{Host}.
Variable toFixed0 : Binary64.number -> string.
Local Open Scope list_scope.

Lemma runRules_from (rs : list SuggestionRule) (data : SuggestionsRequest.t)
      (suggestions : list TaxSuggestion.t) (n : nat) :
  (runRules rs data suggestions n).1 = suggestions ++ (runRules rs data [] n).1
  /\ (length (runRules rs data [] n).1 <= length rs)%nat.
Proof.
  revert suggestions n. induction rs as [|rule rest IH]; intros suggestions n.
  - cbn. split; [now rewrite app_nil_r | lia].
  - cbn [runRules]. unfold bind.
    destruct (rule data n) as [[s|] n'].
    + destruct (IH (suggestions ++ [s]) n') as [-> _].
      destruct (IH ([] ++ [s]) n') as [-> Hlen]. cbn [app length].
      split; [now rewrite <- app_assoc | lia].
    + destruct (IH suggestions n') as [-> Hlen]. cbn [length]. split; [reflexivity | lia].
Qed.

Lemma runRules_cons (rule : SuggestionRule) (rest : list SuggestionRule)
      (data : SuggestionsRequest.t) (suggestions : list TaxSuggestion.t) (n : nat) :
  runRules (rule :: rest) data suggestions n
  = runRules rest data
      (match (rule data n).1 with
       | Some s => suggestions ++ [s]
       | None => suggestions
       end)
      (rule data n).2.
Proof.
  cbn [runRules]. unfold bind. destruct (rule data n) as [suggestion n']. reflexivity.
Qed.

(** X19.  [getStaticSuggestions] returns what the rules emitted, at most
    eight suggestions, regrouped by priority: all high-priority suggestions
    first, then the medium ones, then the low ones, each group in the order
    in which the rules ran. *)
Theorem getStaticSuggestions_tiers (data : SuggestionsRequest.t) (n : nat) :
  let emitted := (runRules (rules toFixed0) data [] n).1 in
  let result := (getStaticSuggestions toFixed0 data n).1 in
  result = tier high emitted ++ tier medium emitted ++ tier low emitted
  /\ length result = length emitted
  /\ (length result <= 8)%nat.
Proof.
  cbv zeta. unfold getStaticSuggestions, bind, ret.
  destruct (runRules_from (rules toFixed0) data [] n) as [_ Hlen].
  destruct (runRules (rules toFixed0) data [] n) as [emitted n']. cbn [fst] in *.
  fold byPriority. rewrite Array_sort_tiers.
  assert (Hsame : length (tier high emitted ++ tier medium emitted ++ tier low emitted)
                  = length emitted).
  { clear Hlen. induction emitted as [|s rest IH]; [reflexivity|].
    rewrite !length_app in *. rewrite !tier_cons.
    destruct (TaxSuggestion.priority s); cbn [length]; lia. }
  split; [reflexivity|]. split; [exact Hsame|]. rewrite Hsame. exact Hlen.
Qed.

(** X20.  While the province is not set, the first suggestion returned is
    the validation error "Province Required", carrying the first identifier
    drawn. *)
Theorem getStaticSuggestions_province_first (data : SuggestionsRequest.t) (n : nat) :
  SuggestionsRequest.province data = EmptyString ->
  exists suggestion others,
    (getStaticSuggestions toFixed0 data n).1 = suggestion :: others
    /\ TaxSuggestion.title suggestion = "Province Required"
    /\ TaxSuggestion.type suggestion = validation_error
    /\ TaxSuggestion.priority suggestion = high
    /\ TaxSuggestion.id suggestion = uuid n.
Proof.
  intros Hprovince. unfold getStaticSuggestions, rules.
  unfold bind at 1. rewrite runRules_cons.
  assert (Hrule : exists suggestion,
             checkProvinceSet data n = (Some suggestion, S n)
             /\ TaxSuggestion.title suggestion = "Province Required"
             /\ TaxSuggestion.type suggestion = validation_error
             /\ TaxSuggestion.priority suggestion = high
             /\ TaxSuggestion.id suggestion = uuid n).
  { unfold checkProvinceSet. rewrite Hprovince. eexists. repeat split. }
  destruct Hrule as (suggestion & -> & Htitle & Htype & Hpriority & Hid). cbn [app fst snd].
  match goal with
  | |- context [runRules ?rs data [?s] (S n)] =>
      destruct (runRules_from rs data [s] (S n)) as [Hfrom _];
      destruct (runRules rs data [s] (S n)) as [emitted n'];
      cbn [fst] in Hfrom |- *; subst emitted
  end.
  unfold ret. cbn [fst app]. fold byPriority.
  rewrite Array_sort_tiers, (tier_cons high), Hpriority. cbn [app].
  eexists _, _. repeat split; assumption.
Qed.
End StaticRulesFacts.

Lemma getStaticSuggestions_province_first_witness :
  exists suggestion others,
    (getStaticSuggestions toFixed0_ref (sanitizeForSuggestions (filingWithT4 50000 8000))
                          0%nat).1
    = suggestion :: others
    /\ TaxSuggestion.title suggestion = "Province Required"
    /\ TaxSuggestion.type suggestion = validation_error
    /\ TaxSuggestion.priority suggestion = high
    /\ TaxSuggestion.id suggestion = uuid 0%nat.
Proof.
  apply (getStaticSuggestions_province_first toFixed0_ref
           (sanitizeForSuggestions (filingWithT4 50000 8000)) 0%nat).
  reflexivity.
Defined.

(** The pipeline of the suggestions panel on the worked example: sanitize
    the filing, run the rules, sort. *)
Example getStaticSuggestions_one_slip :
  map (fun s => (TaxSuggestion.priority s, TaxSuggestion.title s))
      (getStaticSuggestions toFixed0_ref (sanitizeForSuggestions (filingWithT4 50000 8000))
                            0%nat).1
  = [ (high, "Province Required"); (high, "RRSP Contribution Opportunity");
      (medium, "Home Office Deduction"); (low, "Student Loan Interest") ].
Proof. vm_compute. reflexivity. Qed.

(** The two rules that sum and divide decide on binary64 results.  The
    incomes 88.33, 29185.34 and 726.33 add up to 30000 exactly, their
    binary64 sum is 30000.000000000004 and the retirement-contribution rule
    fires; on a single income of 30000 it does not.  Deductions of 16384.08
    are exactly 40% of an income of 40960.2, the binary64 quotient is
    0.4000000000000001 and the high-deduction warning fires; on 20000 of
    50000 it does not. *)
Example rules_decide_on_rounded_results :
  88.33 + 29185.34 + 726.33 == 30000
  /\ (checkRRSPOpportunity (requestWith 88.33 29185.34 726.33 0) 0%nat).1 <> None
  /\ (checkRRSPOpportunity (requestWith 30000 0 0 0) 0%nat).1 = None
  /\ 16384.08 / 40960.2 == 0.4
  /\ (checkHighDeductionRatio toFixed0_ref (requestWith 40960.2 0 0 16384.08) 0%nat).1 <> None
  /\ (checkHighDeductionRatio toFixed0_ref (requestWith 50000 0 0 20000) 0%nat).1 = None.
Proof.
  repeat split; try (vm_compute; reflexivity); vm_compute; discriminate.
Qed.

Section RuleFacts.
Context `{Host}.
Local Open Scope list_scope.

Lemma sanitized_medicalTotal (filing : TaxFiling.t) :
  SuggestionsRequest.medicalTotal
    (SuggestionsRequest.deductions (sanitizeForSuggestions filing))
  = reduce (fun sum e => sum + MedicalExpense.amount e) 0
           (Deductions.medicalExpenses (TaxFiling.deductions filing)).
Proof. reflexivity. Qed.

(** X23.  The medical-expense note and the engine agree: whenever the rule
    reports, on the sanitized filing, that the medical expenses are below
    the claim threshold, the engine grants no medical credit, provided the
    benefits, investment, trust, retirement and other income of the filing
    do not add up to a negative amount. *)
Theorem checkMedicalExpenseThreshold_no_credit (filing : TaxFiling.t) (n : nat) :
  let income := TaxFiling.income filing in
  0 <= t4eIncome income + t5Income income + t3Income income + t4rspIncome income
       + IncomeData.otherIncome income ->
  (checkMedicalExpenseThreshold (sanitizeForSuggestions filing) n).1 <> None ->
  medicalCredits income (TaxFiling.deductions filing) == 0.
Proof.
  cbv zeta. intros Hother. unfold checkMedicalExpenseThreshold.
  rewrite sanitized_medicalTotal.
  cbn [sanitizeForSuggestions SuggestionsRequest.income SuggestionsRequest.t4Total
       SuggestionsRequest.t4aTotal SuggestionsRequest.selfEmploymentIncome].
  fold (t4Income (TaxFiling.income filing)) (t4aIncome (TaxFiling.income filing)).
  set (medical := reduce _ 0 _).
  set (ruleIncome := t4Income _ + t4aIncome _ + _).
  destruct (Qltb_spec 0 medical) as [Hsome|Hnone]; cbn [andb];
    [|intros Hfired; now contradiction Hfired].
  destruct (Qltb_spec medical (Math_min (ruleIncome * 0.03) 2635)) as [Hbelow|Habove];
    [|intros Hfired; now contradiction Hfired].
  intros _. unfold medicalCredits. fold medical.
  assert (Hgains : 0 <= t5008Gains (TaxFiling.income filing)).
  { rewrite t5008Gains_sum. apply sumQ_nonneg. rewrite Forall_map. apply Forall_forall.
    intros slip _. cbv beta.
    pose proof (Q.le_max_l 0 (T5008Slip.proceeds slip - T5008Slip.costBase slip)).
    unfold Math_max. lra. }
  assert (Hmin : Math_min (ruleIncome * 0.03) 2635 <= ruleIncome * 0.03)
    by apply Q.le_min_l.
  unfold Math_max. rewrite Q.max_l; [reflexivity|].
  unfold totalIncome. unfold ruleIncome in *. lra.
Qed.

(** X24.  The donation tip and the engine agree: whenever the rule fires on
    the sanitized filing (total donations above 0 and below 200) and no
    donation is negative, every record falls in the first tier, so the
    engine's donation credit is exactly 15% of the total. *)
Theorem checkDonationCredit_flat_credit (filing : TaxFiling.t) (n : nat) :
  let donations := Deductions.charitableDonations (TaxFiling.deductions filing) in
  Forall (fun d => 0 <= CharitableDonation.donationAmount d) donations ->
  (checkDonationCredit (sanitizeForSuggestions filing) n).1 <> None ->
  donationCredits donations
  == sumQ (map CharitableDonation.donationAmount donations) * 0.15.
Proof.
  cbv zeta. intros Hnonneg. unfold checkDonationCredit.
  cbn [sanitizeForSuggestions SuggestionsRequest.deductions SuggestionsRequest.donationsTotal].
  set (donations := Deductions.charitableDonations (TaxFiling.deductions filing)) in *.
  assert (Htotal : reduce (fun sum d => sum + CharitableDonation.donationAmount d) 0 donations
                   == sumQ (map CharitableDonation.donationAmount donations)).
  { rewrite (reduce_sum _ CharitableDonation.donationAmount); [lra | intros; reflexivity]. }
  set (total := reduce _ 0 donations) in *.
  destruct (Qltb_spec 0 total) as [_|_]; cbn [andb];
    [|intros Hfired; now contradiction Hfired].
  destruct (Qltb_spec total 200) as [Hsmall|_]; [|intros Hfired; now contradiction Hfired].
  intros _. rewrite donationCredits_sum. rewrite Htotal in Hsmall. clear Htotal total.
  induction Hnonneg as [|d rest Hd Hrest IH].
  - vm_compute. reflexivity.
  - change (sumQ (map CharitableDonation.donationAmount (d :: rest)))
      with (CharitableDonation.donationAmount d
            + sumQ (map CharitableDonation.donationAmount rest)) in *.
    change (sumQ (map (fun d => twoTierCredit (CharitableDonation.donationAmount d)) (d :: rest)))
      with (twoTierCredit (CharitableDonation.donationAmount d)
            + sumQ (map (fun d => twoTierCredit (CharitableDonation.donationAmount d)) rest)).
    assert (0 <= sumQ (map CharitableDonation.donationAmount rest)).
    { apply sumQ_nonneg. now rewrite Forall_map. }
    rewrite IH by lra.
    destruct (twoTierCredit_cases (CharitableDonation.donationAmount d)) as [[? ->]|[? ->]]; lra.
Qed.
End RuleFacts.

Lemma checkMedicalExpenseThreshold_no_credit_witness :
  medicalCredits (TaxFiling.income (filingWithMedical 50000 800))
                 (TaxFiling.deductions (filingWithMedical 50000 800)) == 0.
Proof.
  apply (checkMedicalExpenseThreshold_no_credit (filingWithMedical 50000 800) 0%nat).
  - vm_compute. discriminate.
  - vm_compute. discriminate.
Defined.

Lemma checkDonationCredit_flat_credit_witness :
  donationCredits [donation 150]
  == sumQ (map CharitableDonation.donationAmount [donation 150]) * 0.15.
Proof.
  apply (checkDonationCredit_flat_credit (filingWithDonation 150) 0%nat).
  - repeat constructor. vm_compute. discriminate.
  - vm_compute. discriminate.
Defined.

(** * Properties of the input formatters *)

Section Strings.
Local Open Scope string_scope.
Local Open Scope nat_scope.

Lemma append_cons (c : ascii) (a b : string) : String c a ++ b = String c (a ++ b).
Proof. reflexivity. Qed.

Lemma append_nil (b : string) : EmptyString ++ b = b.
Proof. reflexivity. Qed.

Lemma length_append (a b : string) :
  String.length (a ++ b) = String.length a + String.length b.
Proof.
  induction a as [|c a IH]; [reflexivity|].
  rewrite append_cons. cbn [String.length plus]. now rewrite IH.
Qed.

Lemma digitsOnly_append (a b : string) :
  digitsOnly (a ++ b) = digitsOnly a ++ digitsOnly b.
Proof.
  induction a as [|c a IH]; [reflexivity|].
  rewrite append_cons. cbn [digitsOnly].
  destruct (isDigit c); rewrite ?append_cons; now rewrite IH.
Qed.

Lemma digitsOnly_idempotent (s : string) : digitsOnly (digitsOnly s) = digitsOnly s.
Proof.
  induction s as [|c s IH]; cbn [digitsOnly]; [reflexivity|].
  destruct (isDigit c) eqn:Hc; [|exact IH]. cbn [digitsOnly]. now rewrite Hc, IH.
Qed.

Lemma digitsOnly_substring (from len : nat) (d : string) :
  digitsOnly d = d -> digitsOnly (substring from len d) = substring from len d.
Proof.
  revert from len. induction d as [|c d IH]; intros from len Hd.
  - destruct from, len; reflexivity.
  - cbn [digitsOnly] in Hd. destruct (isDigit c) eqn:Hc.
    + injection Hd as Hd. destruct from as [|from]; cbn [substring].
      * destruct len as [|len]; [reflexivity|]. cbn [digitsOnly]. rewrite Hc.
        f_equal. now apply IH.
      * now apply IH.
    + exfalso. assert (Hlen : String.length (digitsOnly d) <= String.length d).
      { clear. induction d as [|c' d IHd]; cbn [digitsOnly String.length]; [lia|].
        destruct (isDigit c'); cbn [String.length]; lia. }
      rewrite Hd in Hlen. cbn [String.length] in Hlen. lia.
Qed.

Lemma substring_all (d : string) (len : nat) :
  String.length d <= len -> substring 0 len d = d.
Proof.
  revert len. induction d as [|c d IH]; intros len Hlen.
  - destruct len; reflexivity.
  - destruct len as [|len]; cbn [String.length] in Hlen; [lia|].
    cbn [substring]. f_equal. apply IH. lia.
Qed.

Lemma substring_join (from a b : nat) (d : string) :
  substring from a d ++ substring (from + a) b d = substring from (a + b) d.
Proof.
  revert from a. induction d as [|c d IH]; intros from a.
  - destruct from, a, b; reflexivity.
  - destruct from as [|from].
    + destruct a as [|a]; cbn [plus substring]; [reflexivity|].
      rewrite append_cons. f_equal. apply (IH 0 a).
    + cbn [plus substring]. apply IH.
Qed.

Lemma length_substring (from len : nat) (d : string) :
  String.length (substring from len d) = Nat.min len (String.length d - from).
Proof.
  revert from len. induction d as [|c d IH]; intros from len.
  - destruct from, len; reflexivity.
  - destruct from as [|from]; cbn [substring String.length].
    + destruct len as [|len]; [reflexivity|]. cbn [String.length]. rewrite (IH 0 len). lia.
    + rewrite IH. reflexivity.
Qed.

Lemma substring_substring (from len limit : nat) (d : string) :
  from + len <= limit ->
  substring from len (substring 0 limit d) = substring from len d.
Proof.
  revert from len limit. induction d as [|c d IH]; intros from len limit Hle.
  - destruct limit, from, len; reflexivity.
  - destruct limit as [|limit].
    + assert (from = 0) by lia. assert (len = 0) by lia. subst. reflexivity.
    + cbn [substring]. destruct from as [|from].
      * destruct len as [|len]; [reflexivity|]. cbn [substring]. f_equal.
        apply (IH 0 len limit). lia.
      * cbn [substring]. apply IH. lia.
Qed.
Lemma get_lt (s : string) (i : nat) (c : ascii) :
  String.get i s = Some c -> i < String.length s.
Proof.
  revert i. induction s as [|c' s IH]; intros i; [discriminate|].
  destruct i as [|i]; cbn [String.get String.length]; [lia|].
  intros Hget. apply IH in Hget. lia.
Qed.

Lemma get_append (a b : string) (i : nat) :
  String.get i (a ++ b)
  = if i <? String.length a then String.get i a else String.get (i - String.length a) b.
Proof.
  revert i. induction a as [|c a IH]; intros i.
  - rewrite append_nil. cbn [String.length]. rewrite Nat.sub_0_r. reflexivity.
  - rewrite append_cons. destruct i as [|i]; [reflexivity|].
    cbn [String.get String.length Nat.sub]. rewrite IH. reflexivity.
Qed.

(** A character of [a ++ String separator rest] is a character of [a],
    the separator right after [a], or a character of [rest]. *)
Lemma get_separated (a rest : string) (separator : ascii) (i : nat) (c : ascii) :
  String.get i (a ++ String separator rest) = Some c ->
  (i < String.length a /\ String.get i a = Some c)
  \/ (i = String.length a /\ c = separator)
  \/ (String.length a < i /\ String.get (i - String.length a - 1) rest = Some c).
Proof.
  rewrite get_append. destruct (Nat.ltb_spec i (String.length a)) as [Hlt|Hge].
  - intros Hget. left. split; assumption.
  - destruct (i - String.length a) as [|j] eqn:Hdiff; cbn [String.get].
    + intros [= <-]. right. left. split; [lia | reflexivity].
    + intros Hget. right. right. split; [lia|].
      replace (S j - 1) with j by lia. exact Hget.
Qed.

Lemma digitsOnly_get (s : string) (i : nat) (c : ascii) :
  String.get i (digitsOnly s) = Some c -> isDigit c = true.
Proof.
  revert i. induction s as [|c' s IH]; intros i; [discriminate|].
  cbn [digitsOnly]. destruct (isDigit c') eqn:Hdigit; [|apply IH].
  destruct i as [|i]; cbn [String.get]; [intros [= <-]; exact Hdigit | apply IH].
Qed.

Lemma substring_get (from len : nat) (s : string) (i : nat) (c : ascii) :
  String.get i (substring from len s) = Some c ->
  String.get (from + i) s = Some c.
Proof.
  revert from len i. induction s as [|c' s IH]; intros from len i.
  - destruct from, len; discriminate.
  - destruct from as [|from]; cbn [substring].
    + destruct len as [|len]; [discriminate|].
      destruct i as [|i]; cbn [String.get Nat.add]; [trivial|].
      intros Hget. apply (IH 0 len i), Hget.
    + cbn [Nat.add String.get]. apply IH.
Qed.

Lemma digits_substring_get (from len : nat) (s : string) (i : nat) (c : ascii) :
  String.get i (substring from len (digitsOnly s)) = Some c -> isDigit c = true.
Proof.
  intros Hget. apply substring_get in Hget. apply (digitsOnly_get _ _ _ Hget).
Qed.
End Strings.

Section Formatters.
Local Open Scope string_scope.
Local Open Scope nat_scope.

Lemma formatSIN_of_digits (s : string) : formatSIN (digitsOnly s) = formatSIN s.
Proof. unfold formatSIN. now rewrite digitsOnly_idempotent. Qed.

Lemma formatPhoneNumber_of_digits (s : string) :
  formatPhoneNumber (digitsOnly s) = formatPhoneNumber s.
Proof. unfold formatPhoneNumber. now rewrite digitsOnly_idempotent. Qed.

Lemma formatSIN_digits (s : string) :
  digitsOnly (formatSIN s) = slice 0 9 (digitsOnly s).
Proof.
  unfold formatSIN, slice, sliceFrom. cbv zeta.
  pose proof (digitsOnly_idempotent s) as Hd. set (d := digitsOnly s) in *.
  destruct (Nat.leb_spec (String.length d) 3) as [Hlen|Hlen].
  - rewrite Hd. symmetry. apply substring_all. lia.
  - destruct (Nat.leb_spec (String.length d) 6) as [Hlen6|Hlen6].
    + rewrite !digitsOnly_append, !digitsOnly_substring by exact Hd.
      change (digitsOnly "-") with EmptyString. rewrite append_nil.
      rewrite (substring_join 0 3 (String.length d - 3) d
               : substring 0 (3 - 0) d ++ substring 3 (String.length d - 3) d = _).
      rewrite !substring_all by lia. reflexivity.
    + rewrite !digitsOnly_append, !digitsOnly_substring by exact Hd.
      change (digitsOnly "-") with EmptyString. rewrite !append_nil.
      rewrite (substring_join 3 3 3 d : substring 3 (6 - 3) d ++ substring 6 (9 - 6) d = _).
      apply (substring_join 0 3 6 d).
Qed.

Lemma formatSIN_prefix (d : string) :
  digitsOnly d = d -> formatSIN (substring 0 9 d) = formatSIN d.
Proof.
  intros Hd. destruct (Nat.leb_spec (String.length d) 6) as [Hlen|Hlen].
  - rewrite substring_all by lia. reflexivity.
  - unfold formatSIN, slice, sliceFrom. cbv zeta.
    rewrite (digitsOnly_substring 0 9 d Hd), Hd, (length_substring 0 9 d).
    replace (Nat.min 9 (String.length d - 0) <=? 3) with false
      by (symmetry; apply Nat.leb_gt; lia).
    replace (Nat.min 9 (String.length d - 0) <=? 6) with false
      by (symmetry; apply Nat.leb_gt; lia).
    replace (String.length d <=? 3) with false by (symmetry; apply Nat.leb_gt; lia).
    replace (String.length d <=? 6) with false by (symmetry; apply Nat.leb_gt; lia).
    rewrite !substring_substring by lia. reflexivity.
Qed.

Lemma formatSIN_length (s : string) :
  String.length (formatSIN s) <= 11
  /\ (String.length (formatSIN s) = 11 <-> 9 <= String.length (digitsOnly s)).
Proof.
  unfold formatSIN, slice, sliceFrom. cbv zeta. set (d := digitsOnly s).
  destruct (Nat.leb_spec (String.length d) 3) as [Hlen|Hlen]; [lia|].
  destruct (Nat.leb_spec (String.length d) 6) as [Hlen6|Hlen6];
    rewrite !length_append, !length_substring; cbn [String.length]; lia.
Qed.

Lemma formatSIN_shape (sin : string) (i : nat) (c : ascii) :
  String.get i (formatSIN sin) = Some c ->
  if (i =? 3) || (i =? 7) then c = "-"%char else isDigit c = true.
Proof.
  unfold formatSIN, slice, sliceFrom. cbv zeta. set (d := digitsOnly sin).
  destruct (Nat.leb_spec (String.length d) 3) as [Hlen|Hlen].
  - intros Hget. pose proof (get_lt _ _ _ Hget) as Hi.
    destruct (Nat.eqb_spec i 3); [lia|]. destruct (Nat.eqb_spec i 7); [lia|].
    exact (digitsOnly_get _ _ _ Hget).
  - destruct (Nat.leb_spec (String.length d) 6) as [Hlen6|Hlen6].
    + rewrite append_cons, append_nil. intros Hget.
      apply get_separated in Hget. rewrite length_substring in Hget.
      replace (Nat.min (3 - 0) (String.length d - 0)) with 3 in Hget by lia.
      destruct Hget as [[Hi Hget]|[[-> ->]|[Hi Hget]]].
      * destruct (Nat.eqb_spec i 3); [lia|]. destruct (Nat.eqb_spec i 7); [lia|].
        exact (digits_substring_get _ _ _ _ _ Hget).
      * reflexivity.
      * pose proof (get_lt _ _ _ Hget) as Hj. rewrite length_substring in Hj.
        destruct (Nat.eqb_spec i 3); [lia|]. destruct (Nat.eqb_spec i 7); [lia|].
        exact (digits_substring_get _ _ _ _ _ Hget).
    + rewrite !append_cons, !append_nil. intros Hget.
      apply get_separated in Hget. rewrite length_substring in Hget.
      replace (Nat.min (3 - 0) (String.length d - 0)) with 3 in Hget by lia.
      destruct Hget as [[Hi Hget]|[[-> ->]|[Hi Hget]]].
      * destruct (Nat.eqb_spec i 3); [lia|]. destruct (Nat.eqb_spec i 7); [lia|].
        exact (digits_substring_get _ _ _ _ _ Hget).
      * reflexivity.
      * apply get_separated in Hget. rewrite length_substring in Hget.
        replace (Nat.min (6 - 3) (String.length d - 3)) with 3 in Hget by lia.
        destruct Hget as [[Hj Hget]|[[Hj ->]|[Hj Hget]]].
        -- destruct (Nat.eqb_spec i 3); [lia|]. destruct (Nat.eqb_spec i 7); [lia|].
           exact (digits_substring_get _ _ _ _ _ Hget).
        -- replace i with 7 by lia. reflexivity.
        -- destruct (Nat.eqb_spec i 3); [lia|]. destruct (Nat.eqb_spec i 7); [lia|].
           exact (digits_substring_get _ _ _ _ _ Hget).
Qed.

(** X25.  [formatSIN] keeps the first nine digits of its input, in order,
    and nothing else but dashes: every character of the result is a digit,
    except a dash at positions 3 and 7, and stripping the result gives
    those digits back, so formatting twice is formatting once.  The result
    has at most 11 characters, exactly 11 when the input holds nine digits
    or more. *)
Theorem formatSIN_canonical (sin : string) :
  digitsOnly (formatSIN sin) = slice 0 9 (digitsOnly sin)
  /\ formatSIN (formatSIN sin) = formatSIN sin
  /\ String.length (formatSIN sin) <= 11
  /\ (String.length (formatSIN sin) = 11 <-> 9 <= String.length (digitsOnly sin))
  /\ (forall (i : nat) (c : ascii),
        String.get i (formatSIN sin) = Some c ->
        if (i =? 3) || (i =? 7) then c = "-"%char else isDigit c = true).
Proof.
  split; [apply formatSIN_digits|]. split; [|split; [apply formatSIN_length|]].
  - rewrite <- (formatSIN_of_digits (formatSIN sin)), formatSIN_digits.
    unfold slice. cbn [Nat.sub]. rewrite formatSIN_prefix by apply digitsOnly_idempotent.
    apply formatSIN_of_digits.
  - split; [apply formatSIN_length | apply formatSIN_shape].
Qed.

Lemma formatPhoneNumber_digits (s : string) :
  digitsOnly (formatPhoneNumber s) = slice 0 10 (digitsOnly s).
Proof.
  unfold formatPhoneNumber, slice, sliceFrom. cbv zeta.
  pose proof (digitsOnly_idempotent s) as Hd. set (d := digitsOnly s) in *.
  destruct (Nat.leb_spec (String.length d) 3) as [Hlen|Hlen].
  - rewrite Hd. symmetry. apply substring_all. lia.
  - destruct (Nat.leb_spec (String.length d) 6) as [Hlen6|Hlen6].
    + rewrite !digitsOnly_append, !digitsOnly_substring by exact Hd.
      change (digitsOnly "(") with EmptyString. change (digitsOnly ") ") with EmptyString.
      rewrite !append_nil.
      rewrite (substring_join 0 3 (String.length d - 3) d
               : substring 0 (3 - 0) d ++ substring 3 (String.length d - 3) d = _).
      rewrite !substring_all by lia. reflexivity.
    + rewrite !digitsOnly_append, !digitsOnly_substring by exact Hd.
      change (digitsOnly "(") with EmptyString. change (digitsOnly ") ") with EmptyString.
      change (digitsOnly "-") with EmptyString. rewrite !append_nil.
      rewrite (substring_join 3 3 4 d : substring 3 (6 - 3) d ++ substring 6 (10 - 6) d = _).
      apply (substring_join 0 3 7 d).
Qed.

Lemma formatPhoneNumber_prefix (d : string) :
  digitsOnly d = d -> formatPhoneNumber (substring 0 10 d) = formatPhoneNumber d.
Proof.
  intros Hd. destruct (Nat.leb_spec (String.length d) 6) as [Hlen|Hlen].
  - rewrite substring_all by lia. reflexivity.
  - unfold formatPhoneNumber, slice, sliceFrom. cbv zeta.
    rewrite (digitsOnly_substring 0 10 d Hd), Hd, (length_substring 0 10 d).
    replace (Nat.min 10 (String.length d - 0) <=? 3) with false
      by (symmetry; apply Nat.leb_gt; lia).
    replace (Nat.min 10 (String.length d - 0) <=? 6) with false
      by (symmetry; apply Nat.leb_gt; lia).
    replace (String.length d <=? 3) with false by (symmetry; apply Nat.leb_gt; lia).
    replace (String.length d <=? 6) with false by (symmetry; apply Nat.leb_gt; lia).
    rewrite !substring_substring by lia. reflexivity.
Qed.

Lemma formatPhoneNumber_shape (phone : string) (i : nat) (c : ascii) :
  String.get i (formatPhoneNumber phone) = Some c ->
  if String.length (digitsOnly phone) <=? 3 then isDigit c = true
  else if i =? 0 then c = "("%char
  else if i =? 4 then c = ")"%char
  else if i =? 5 then c = " "%char
  else if i =? 9 then c = "-"%char
  else isDigit c = true.
Proof.
  unfold formatPhoneNumber, slice, sliceFrom. cbv zeta. set (d := digitsOnly phone).
  destruct (Nat.leb_spec (String.length d) 3) as [Hlen|Hlen];
    [apply digitsOnly_get|].
  assert (Hcases : forall goal : Prop,
             (i = 0 -> c = "("%char -> goal) ->
             (i = 4 -> c = ")"%char -> goal) ->
             (i = 5 -> c = " "%char -> goal) ->
             (i = 9 -> c = "-"%char -> 6 < String.length d -> goal) ->
             (i <> 0 -> i <> 4 -> i <> 5 -> i <> 9 -> isDigit c = true -> goal) ->
             String.get i (if String.length d <=? 6
                           then "(" ++ substring 0 (3 - 0) d ++ ") "
                                ++ substring 3 (String.length d - 3) d
                           else "(" ++ substring 0 (3 - 0) d ++ ") "
                                ++ substring 3 (6 - 3) d ++ "-" ++ substring 6 (10 - 6) d)
             = Some c -> goal).
  { intros goal Hopen Hclose Hspace Hdash Hdigit.
    destruct (Nat.leb_spec (String.length d) 6) as [Hlen6|Hlen6];
      rewrite !append_cons, !append_nil;
      (destruct i as [|i]; cbn [String.get]; [intros [= <-]; apply Hopen; reflexivity|]);
      intros Hget; apply get_separated in Hget; rewrite length_substring in Hget;
      replace (Nat.min (3 - 0) (String.length d - 0)) with 3 in Hget by lia;
      (destruct Hget as [[Hi Hget]|[[-> ->]|[Hi Hget]]];
       [ apply Hdigit; try lia; exact (digits_substring_get _ _ _ _ _ Hget)
       | apply Hclose; reflexivity
       | ]);
      (destruct (i - 3 - 1) as [|j] eqn:Hj; cbn [String.get] in Hget;
       [ injection Hget as <-; apply Hspace; [lia | reflexivity] | ]).
    - pose proof (get_lt _ _ _ Hget) as Hbound. rewrite length_substring in Hbound.
      apply Hdigit; try lia. exact (digits_substring_get _ _ _ _ _ Hget).
    - apply get_separated in Hget. rewrite length_substring in Hget.
      replace (Nat.min (6 - 3) (String.length d - 3)) with 3 in Hget by lia.
      destruct Hget as [[Hk Hget]|[[Hk ->]|[Hk Hget]]].
      + apply Hdigit; try lia. exact (digits_substring_get _ _ _ _ _ Hget).
      + apply Hdash; [lia | reflexivity | lia].
      + apply Hdigit; try lia. exact (digits_substring_get _ _ _ _ _ Hget). }
  apply Hcases; intros; subst;
    repeat match goal with
           | |- context [?a =? ?b] => destruct (Nat.eqb_spec a b); try lia
           end;
    first [reflexivity | assumption].
Qed.

(** X26.  [formatPhoneNumber] keeps the first ten digits of its input, in
    order, and nothing else but the punctuation it adds.  Up to three
    digits are returned as they are; otherwise every character of the
    result is a digit, except an opening parenthesis at position 0, a
    closing parenthesis at 4, a space at 5 and a dash at 9.  Stripping the
    result gives the digits back, formatting twice is formatting once, and
    the result has at most 14 characters, exactly 14 when the input holds
    ten digits or more. *)
Theorem formatPhoneNumber_canonical (phone : string) :
  digitsOnly (formatPhoneNumber phone) = slice 0 10 (digitsOnly phone)
  /\ formatPhoneNumber (formatPhoneNumber phone) = formatPhoneNumber phone
  /\ String.length (formatPhoneNumber phone) <= 14
  /\ (String.length (formatPhoneNumber phone) = 14
      <-> 10 <= String.length (digitsOnly phone))
  /\ (forall (i : nat) (c : ascii),
        String.get i (formatPhoneNumber phone) = Some c ->
        if String.length (digitsOnly phone) <=? 3 then isDigit c = true
        else if i =? 0 then c = "("%char
        else if i =? 4 then c = ")"%char
        else if i =? 5 then c = " "%char
        else if i =? 9 then c = "-"%char
        else isDigit c = true).
Proof.
  split; [apply formatPhoneNumber_digits|]. split; [|split; [|split]].
  - rewrite <- (formatPhoneNumber_of_digits (formatPhoneNumber phone)),
      formatPhoneNumber_digits.
    unfold slice. cbn [Nat.sub].
    rewrite formatPhoneNumber_prefix by apply digitsOnly_idempotent.
    apply formatPhoneNumber_of_digits.
  - unfold formatPhoneNumber, slice, sliceFrom. cbv zeta. set (d := digitsOnly phone).
    destruct (Nat.leb_spec (String.length d) 3) as [Hlen|Hlen]; [lia|].
    destruct (Nat.leb_spec (String.length d) 6) as [Hlen6|Hlen6];
      rewrite !length_append, !length_substring; cbn [String.length]; lia.
  - unfold formatPhoneNumber, slice, sliceFrom. cbv zeta. set (d := digitsOnly phone).
    destruct (Nat.leb_spec (String.length d) 3) as [Hlen|Hlen]; [lia|].
    destruct (Nat.leb_spec (String.length d) 6) as [Hlen6|Hlen6];
      rewrite !length_append, !length_substring; cbn [String.length]; lia.
  - apply formatPhoneNumber_shape.
Qed.
End Formatters.

Example formatters_samples :
  formatSIN "046 454 286" = "046-454-286"
  /\ formatSIN "04645" = "046-45"
  /\ formatSIN "046-454-2861234" = "046-454-286"
  /\ formatPhoneNumber "416 555 0199" = "(416) 555-0199"
  /\ formatPhoneNumber "+1 (416) 555-0199" = "(141) 655-5019".
Proof. vm_compute. repeat split. Qed.

(** * Properties of the filing provider *)

Lemma truthy_false (s : string) : truthy s = false <-> s = EmptyString.
Proof. destruct s; cbn; split; congruence. Qed.

(** X27.  [validateFiling] accepts a request exactly when the SIN has 11
    characters, first and last name are present, the reported total income
    is not negative and the tax year lies between 2020 and the current
    year.  It reports one message per failed check, in that order, and
    nothing else. *)
Theorem validateFiling_valid_iff (currentYear : Q) (request : Netfile.SubmissionRequest) :
  let personalInfo := Netfile.personalInfo request in
  let validation := validateFiling currentYear request in
  (FilingValidation.valid validation = true
   <-> String.length (Netfile.sin personalInfo) = 11%nat
       /\ Netfile.firstName personalInfo <> EmptyString
       /\ Netfile.lastName personalInfo <> EmptyString
       /\ 0 <= Netfile.totalIncome (Netfile.calculated request)
       /\ 2020 <= Netfile.taxYear request
       /\ Netfile.taxYear request <= currentYear)
  /\ (FilingValidation.valid validation = true <-> FilingValidation.errors validation = [])
  /\ sublist (FilingValidation.errors validation) validationMessages.
Proof.
  cbv zeta. unfold validateFiling, validationMessages. cbv zeta.
  cbn [FilingValidation.valid FilingValidation.errors].
  set (personalInfo := Netfile.personalInfo request).
  assert (Hsin : negb (truthy (Netfile.sin personalInfo))
                 || negb (String.length (Netfile.sin personalInfo) =? 11)%nat = false
                 <-> String.length (Netfile.sin personalInfo) = 11%nat).
  { destruct (Nat.eqb_spec (String.length (Netfile.sin personalInfo)) 11) as [Hlen|Hlen].
    - destruct (Netfile.sin personalInfo); [discriminate Hlen|]. cbn. tauto.
    - rewrite orb_true_r. split; [discriminate | contradiction]. }
  assert (Hname : negb (truthy (Netfile.firstName personalInfo))
                  || negb (truthy (Netfile.lastName personalInfo)) = false
                  <-> Netfile.firstName personalInfo <> EmptyString
                      /\ Netfile.lastName personalInfo <> EmptyString).
  { destruct (Netfile.firstName personalInfo), (Netfile.lastName personalInfo); cbn;
      intuition congruence. }
  destruct (negb (truthy (Netfile.sin personalInfo)) || _);
    destruct (negb (truthy (Netfile.firstName personalInfo)) || _);
    destruct (Qltb_spec (Netfile.totalIncome (Netfile.calculated request)) 0);
    destruct (Qltb_spec (Netfile.taxYear request) 2020);
    destruct (Qltb_spec currentYear (Netfile.taxYear request));
    cbn [orb push_if app length Nat.eqb];
    (split; [ | split; [split; solve [discriminate | reflexivity]
                       | repeat first [apply sublist_nil_l | apply sublist_skip
                                      | apply sublist_cons] ] ]);
    (split; [ first [discriminate | intros _]
            | intros (Hlength & Hfirst & Hlast & Hincome & Hfrom & Hto) ]);
    first [ reflexivity
          | exfalso; lra
          | exfalso; apply Hsin in Hlength; discriminate
          | exfalso; assert (true = false) by (apply Hname; split; assumption); discriminate
          | idtac ].
  all: repeat split;
    first [ lra | apply Hsin; reflexivity | apply (proj1 Hname eq_refl) ].
Qed.

Section ProviderFacts.
Context `{Host}.
Variable toUpperCase : string -> string.
Variables (currentYear : Q) (storedAt respondedAt now inFourteenDays : string).

Lemma submitFiling_valid (request : Netfile.SubmissionRequest)
      (mockSubmissions : gmap string MockSubmission.t) (n : nat) :
  FilingValidation.valid (validateFiling currentYear request) = true ->
  let confirmationNumber :=
    "CRA-" ++ numberToString (Netfile.taxYear request) ++ "-"
    ++ toUpperCase (substring 0 8 (uuid n)) in
  submitFiling toUpperCase currentYear storedAt respondedAt request mockSubmissions n
  = ({| NetfileSubmissionResponse.success := true;
        NetfileSubmissionResponse.confirmationNumber := Some confirmationNumber;
        NetfileSubmissionResponse.status := NetfileFilingStatus.submitted;
        NetfileSubmissionResponse.timestamp := respondedAt;
        NetfileSubmissionResponse.errors := None;
        NetfileSubmissionResponse.warnings :=
          Some [ "This is a mock submission for development purposes.";
                 "In production, connect to a certified NETFILE partner." ] |},
     <[ confirmationNumber :=
          {| MockSubmission.request := request;
             MockSubmission.status := NetfileFilingStatus.submitted;
             MockSubmission.confirmationNumber := confirmationNumber;
             MockSubmission.submittedAt := storedAt |} ]> mockSubmissions,
     S n).
Proof.
  intros Hvalid. cbv zeta. unfold submitFiling. cbv zeta. rewrite Hvalid.
  reflexivity.
Qed.

(** X28.  Submission and status lookup round trip.  A request that passes
    validation is answered with a confirmation number; looking that number
    up returns the request's filing id with status [submitted] and no
    assessment date, and after the scheduled acceptance has run it returns
    status [accepted] with an assessment date.  Every other confirmation
    number is answered as before the submission. *)
Theorem submitFiling_checkStatus_round_trip (request : Netfile.SubmissionRequest)
        (mockSubmissions : gmap string MockSubmission.t) (n : nat) :
  FilingValidation.valid (validateFiling currentYear request) = true ->
  let '(response, stored, _) :=
    submitFiling toUpperCase currentYear storedAt respondedAt request mockSubmissions n in
  exists confirmationNumber,
    NetfileSubmissionResponse.success response = true
    /\ NetfileSubmissionResponse.status response = NetfileFilingStatus.submitted
    /\ NetfileSubmissionResponse.confirmationNumber response = Some confirmationNumber
    /\ checkStatus now inFourteenDays confirmationNumber stored
       = {| NetfileStatusResponse.filingId := Netfile.filingId request;
            NetfileStatusResponse.confirmationNumber := Some confirmationNumber;
            NetfileStatusResponse.status := NetfileFilingStatus.submitted;
            NetfileStatusResponse.lastUpdated := now;
            NetfileStatusResponse.craAssessmentDate := None;
            NetfileStatusResponse.noticeOfAssessment := None |}
    /\ checkStatus now inFourteenDays confirmationNumber
                   (acceptSubmission confirmationNumber stored)
       = {| NetfileStatusResponse.filingId := Netfile.filingId request;
            NetfileStatusResponse.confirmationNumber := Some confirmationNumber;
            NetfileStatusResponse.status := NetfileFilingStatus.accepted;
            NetfileStatusResponse.lastUpdated := now;
            NetfileStatusResponse.craAssessmentDate := Some inFourteenDays;
            NetfileStatusResponse.noticeOfAssessment := None |}
    /\ forall other, other <> confirmationNumber ->
         checkStatus now inFourteenDays other stored
         = checkStatus now inFourteenDays other mockSubmissions
         /\ checkStatus now inFourteenDays other (acceptSubmission confirmationNumber stored)
            = checkStatus now inFourteenDays other mockSubmissions.
Proof.
  intros Hvalid. rewrite (submitFiling_valid _ _ _ Hvalid). cbv zeta.
  set (confirmationNumber := "CRA-" ++ _).
  exists confirmationNumber. cbn [NetfileSubmissionResponse.success
    NetfileSubmissionResponse.status NetfileSubmissionResponse.confirmationNumber].
  repeat split.
  - unfold checkStatus. rewrite lookup_insert_eq. reflexivity.
  - unfold checkStatus, acceptSubmission. rewrite lookup_insert_eq.
    rewrite lookup_insert_eq. reflexivity.
  - unfold checkStatus. rewrite lookup_insert_ne by congruence. reflexivity.
  - unfold checkStatus, acceptSubmission. rewrite lookup_insert_eq.
    rewrite !lookup_insert_ne by congruence. reflexivity.
Qed.

(** X29.  A request that fails validation is rejected without a trace: the
    response carries no confirmation number, its errors are the validation
    messages in order, the i-th one coded [VALIDATION_i] counting from 1,
    and neither the store nor the identifier supply is touched. *)
Theorem submitFiling_rejected (request : Netfile.SubmissionRequest)
        (mockSubmissions : gmap string MockSubmission.t) (n : nat) :
  FilingValidation.valid (validateFiling currentYear request) = false ->
  let '(response, stored, next) :=
    submitFiling toUpperCase currentYear storedAt respondedAt request mockSubmissions n in
  stored = mockSubmissions
  /\ next = n
  /\ NetfileSubmissionResponse.success response = false
  /\ NetfileSubmissionResponse.status response = NetfileFilingStatus.rejected
  /\ NetfileSubmissionResponse.confirmationNumber response = None
  /\ exists errors,
       NetfileSubmissionResponse.errors response = Some errors
       /\ errors <> []
       /\ map NetfileSubmissionResponse.message errors
          = FilingValidation.errors (validateFiling currentYear request)
       /\ forall idx error, errors !! idx = Some error ->
            NetfileSubmissionResponse.code error
            = "VALIDATION_" ++ numberToString (inject_Z (Z.of_nat idx) + 1).
Proof.
  intros Hvalid. unfold submitFiling. cbv zeta. rewrite Hvalid.
  cbn [negb ret NetfileSubmissionResponse.success NetfileSubmissionResponse.status
       NetfileSubmissionResponse.confirmationNumber NetfileSubmissionResponse.errors].
  repeat split. eexists. split; [reflexivity|].
  set (errors := FilingValidation.errors (validateFiling currentYear request)).
  assert (Herrors : errors <> []).
  { intros Hnil. subst errors. unfold validateFiling in *. cbv zeta in *.
    cbn [FilingValidation.valid FilingValidation.errors] in *.
    rewrite Hnil in Hvalid. discriminate Hvalid. }
  split; [|split].
  - destruct errors; [congruence | discriminate].
  - clear. generalize errors. intros l.
    rewrite list_fmap_imap_comm || idtac.
    apply list_eq. intros i. rewrite list_lookup_fmap, list_lookup_imap.
    destruct (l !! i); reflexivity.
  - intros idx error. rewrite list_lookup_imap.
    destruct (errors !! idx); cbn; [|discriminate].
    intros [= <-]. reflexivity.
Qed.

End ProviderFacts.

(** X30.  The personal-information form stores [formatSIN] of what was
    typed.  With such a SIN, validation before filing reports
    [Invalid SIN format] exactly when fewer than nine digits were typed. *)
Theorem validateForNetfile_formatted_sin (currentYear : Q) (raw : string)
        (filing : TaxFiling.t) (summary : TaxSummary.t) :
  PersonalInfo.sin (TaxFiling.personalInfo filing) = formatSIN raw ->
  In "Invalid SIN format"
     (FilingValidation.errors (validateForNetfile currentYear filing summary))
  <-> (String.length (digitsOnly raw) < 9)%nat.
Proof.
  intros Hsin. unfold validateForNetfile, validateFiling. cbv zeta.
  cbn [FilingValidation.errors].
  replace (Netfile.sin (Netfile.personalInfo (transformFilingToNetfile filing summary)))
    with (formatSIN raw) by (rewrite <- Hsin; reflexivity).
  destruct (formatSIN_length raw) as [_ Hlength].
  assert (Hcheck : negb (truthy (formatSIN raw))
                   || negb (String.length (formatSIN raw) =? 11)%nat = true
                   <-> (String.length (digitsOnly raw) < 9)%nat).
  { destruct (Nat.eqb_spec (String.length (formatSIN raw)) 11) as [Heq|Hne].
    - destruct (formatSIN raw); [discriminate Heq|]. cbn.
      split; [discriminate | intros; exfalso; apply Hlength in Heq; lia].
    - rewrite orb_true_r. split; [intros _ | reflexivity].
      destruct (Nat.lt_ge_cases (String.length (digitsOnly raw)) 9); [assumption|].
      exfalso. apply Hne, Hlength. assumption. }
  rewrite <- Hcheck.
  destruct (negb (truthy (formatSIN raw)) || _);
    destruct (negb (truthy _) || negb (truthy _));
    destruct (_ <? 0); destruct ((_ <? 2020) || _);
    cbn [push_if app In];
    (split; [ intros Hin; first [reflexivity | exfalso; intuition discriminate]
            | first [discriminate | intros _; tauto] ]).
Qed.

Lemma submitFiling_checkStatus_round_trip_witness :
  FilingValidation.valid (validateFiling 2025 readyRequest) = true
  /\ exists confirmationNumber,
       let submission :=
         submitFiling toUpperCase_ref 2025 "2025-04-01T10:00:00.000Z"
                      "2025-04-01T10:00:00.000Z" readyRequest ∅ 0%nat in
       NetfileSubmissionResponse.confirmationNumber (fst (fst submission))
       = Some confirmationNumber
       /\ NetfileStatusResponse.status
            (checkStatus "2025-04-01T10:00:05.000Z" "2025-04-15T10:00:05.000Z"
                         confirmationNumber
                         (acceptSubmission confirmationNumber (snd (fst submission))))
          = NetfileFilingStatus.accepted.
Proof.
  split; [vm_compute; reflexivity|].
  pose proof (submitFiling_checkStatus_round_trip toUpperCase_ref 2025
                "2025-04-01T10:00:00.000Z" "2025-04-01T10:00:00.000Z"
                "2025-04-01T10:00:05.000Z" "2025-04-15T10:00:05.000Z"
                readyRequest ∅ 0%nat ltac:(vm_compute; reflexivity)) as Hround.
  cbv zeta.
  destruct (submitFiling _ _ _ _ _ _ _) as [[response stored] next].
  destruct Hround as (confirmationNumber & _ & _ & Hnumber & _ & Haccepted & _).
  exists confirmationNumber. cbn [fst snd].
  split; [exact Hnumber | rewrite Haccepted; reflexivity].
Defined.

Lemma submitFiling_rejected_witness :
  FilingValidation.valid (validateFiling 2025 rejectedRequest) = false
  /\ snd (fst (submitFiling toUpperCase_ref 2025 "2025-04-01T10:00:00.000Z"
                            "2025-04-01T10:00:00.000Z" rejectedRequest ∅ 0%nat)) = ∅.
Proof.
  split; [vm_compute; reflexivity|].
  pose proof (submitFiling_rejected toUpperCase_ref 2025
                "2025-04-01T10:00:00.000Z" "2025-04-01T10:00:00.000Z"
                rejectedRequest ∅ 0%nat ltac:(vm_compute; reflexivity)) as Hrejected.
  destruct (submitFiling _ _ _ _ _ _ _) as [[response stored] next].
  destruct Hrejected as (Hstored & _). exact Hstored.
Defined.

Lemma validateForNetfile_formatted_sin_witness :
  PersonalInfo.sin (TaxFiling.personalInfo readyFiling) = formatSIN "046 454 286"
  /\ ~ In "Invalid SIN format"
       (FilingValidation.errors
          (validateForNetfile 2025 readyFiling (calculateSummary (Some readyFiling)))).
Proof.
  split; [reflexivity|].
  intros Hin.
  apply (validateForNetfile_formatted_sin 2025 "046 454 286" readyFiling
           (calculateSummary (Some readyFiling)) eq_refl) in Hin.
  vm_compute in Hin. lia.
Defined.
